(** * Attention mechanisms: target attention and the attention dispatcher

    A shallow embedding of [attention_modules/target_attention.py] and
    [attention_modules/attention_mechanisms.py].

    Tensors carry their shape next to their entries, as a torch tensor
    does.  The entries are real numbers: the development reasons about
    the arithmetic the code denotes, not about its float32 rounding.
    Python exceptions are values of [Py.exn]; a call that can raise
    returns a [Py.result]. *)

From Stdlib Require Import String.
From Stdlib Require Import Reals Lra Lia List Arith Bool.
Import ListNotations.

Local Open Scope R_scope.

(* ===================================================================== *)
(** ** Python exceptions *)
(* ===================================================================== *)

Module Py.

(** The exception classes that the modelled code and the torch calls
    it makes can raise, and user-defined classes by name. *)
Inductive exn : Type :=
| AttributeError
| TypeError
| UnboundLocalError
| RuntimeError
| UserError (cls : string).

Inductive result (A : Type) : Type :=
| Ok (a : A)
| Raise (e : exn).

Arguments Ok {A} a.
Arguments Raise {A} e.

Definition bind {A B : Type} (c : result A) (k : A -> result B) : result B :=
  match c with
  | Ok a => k a
  | Raise e => Raise e
  end.

Definition fmap {A B : Type} (f : A -> B) (c : result A) : result B :=
  match c with
  | Ok a => Ok (f a)
  | Raise e => Raise e
  end.

Definition raises {A : Type} (c : result A) : Prop :=
  exists e, c = Raise e.

Definition returns {A : Type} (c : result A) : Prop :=
  exists a, c = Ok a.

End Py.

Import Py.

Notation "x <- c ;; k" := (Py.bind c (fun x => k))
  (at level 61, c at next level, right associativity).
Notation "' pat <- c ;; k" := (Py.bind c (fun x => match x with pat => k end))
  (at level 61, pat pattern, c at next level, right associativity).

(* ===================================================================== *)
(** ** Tensors *)
(* ===================================================================== *)

Module Tensor.

(** A 2-axis tensor: its shape and its rows. *)
Record tensor2 : Type := T2 {
  rows2 : nat;
  cols2 : nat;
  data2 : list (list R)
}.

(** A 3-axis tensor, [dim0] matrices of [dim1] rows of [dim2] entries. *)
Record tensor3 : Type := T3 {
  dim0 : nat;
  dim1 : nat;
  dim2 : nat;
  data3 : list (list (list R))
}.

(** What a Python variable holding a tensor can refer to. *)
Inductive tensor : Type :=
| Rank2 (t : tensor2)
| Rank3 (t : tensor3).

Definition mk_row (c : nat) (f : nat -> R) : list R :=
  map f (seq 0 c).

Definition mk_rows (r c : nat) (f : nat -> nat -> R) : list (list R) :=
  map (fun j => mk_row c (f j)) (seq 0 r).

Definition mk2 (r c : nat) (f : nat -> nat -> R) : tensor2 :=
  T2 r c (mk_rows r c f).

Definition mk3 (b r c : nat) (f : nat -> nat -> nat -> R) : tensor3 :=
  T3 b r c (map (fun i => mk_rows r c (f i)) (seq 0 b)).

Definition get2 (t : tensor2) (j k : nat) : R :=
  nth k (nth j (data2 t) []) 0.

Definition get3 (t : tensor3) (i j k : nat) : R :=
  nth k (nth j (nth i (data3 t) []) []) 0.

(** The entries agree with the declared shape. *)
Definition rows_ok (r c : nat) (m : list (list R)) : bool :=
  (length m =? r)%nat && forallb (fun row => (length row =? c)%nat) m.

Definition wf2 (t : tensor2) : bool :=
  rows_ok (rows2 t) (cols2 t) (data2 t).

Definition wf3 (t : tensor3) : bool :=
  (length (data3 t) =? dim0 t)%nat
  && forallb (rows_ok (dim1 t) (dim2 t)) (data3 t).

Definition shape3 (t : tensor3) : nat * nat * nat :=
  (dim0 t, dim1 t, dim2 t).

Definition shape2 (t : tensor2) : nat * nat :=
  (rows2 t, cols2 t).

(** Sum of [f 0 .. f (n-1)]. *)
Definition sum_n (n : nat) (f : nat -> R) : R :=
  fold_right Rplus 0 (map f (seq 0 n)).

Definition row_sum (v : list R) : R := fold_right Rplus 0 v.

(** [Tensor.permute(0, 2, 1)] *)
Definition permute021 (t : tensor3) : tensor3 :=
  mk3 (dim0 t) (dim2 t) (dim1 t) (fun i j k => get3 t i k j).

(** An elementwise function of one tensor. *)
Definition map3 (g : R -> R) (t : tensor3) : tensor3 :=
  mk3 (dim0 t) (dim1 t) (dim2 t) (fun i j k => g (get3 t i j k)).

(** [F.elu] with its default [alpha = 1]. *)
Definition elu_scalar (x : R) : R :=
  if Rlt_dec 0 x then x else exp x - 1.

Definition elu (t : tensor3) : tensor3 := map3 elu_scalar t.

(** [F.softmax] along the last axis of a 3-axis tensor. *)
Definition softmax (t : tensor3) : tensor3 :=
  mk3 (dim0 t) (dim1 t) (dim2 t)
    (fun i j k =>
       exp (get3 t i j k) / sum_n (dim2 t) (fun k' => exp (get3 t i j k'))).

(** Division of every entry by a scalar. *)
Definition div_scalar (t : tensor3) (s : R) : tensor3 :=
  map3 (fun x => x / s) t.

(** [Q.matmul(X)] for a 2-axis [Q] and a 3-axis [X]: [Q] is broadcast
    over the batch axis; the inner sizes must agree. *)
Definition matmul23 (q : tensor2) (x : tensor3) : result tensor3 :=
  if (cols2 q =? dim1 x)%nat then
    Ok (mk3 (dim0 x) (rows2 q) (dim2 x)
          (fun i j k => sum_n (cols2 q) (fun c => get2 q j c * get3 x i c k)))
  else Raise RuntimeError.

(** [torch.bmm(X, Y)], also [X.matmul(Y)] for two 3-axis tensors of
    equal batch size. *)
Definition bmm (x y : tensor3) : result tensor3 :=
  if ((dim0 x =? dim0 y) && (dim2 x =? dim1 y))%nat then
    Ok (mk3 (dim0 x) (dim1 x) (dim2 y)
          (fun i j k => sum_n (dim2 x) (fun c => get3 x i j c * get3 y i c k)))
  else Raise RuntimeError.

(** [torch.unsqueeze(Q, dim=0).repeat(b, 1, 1)] *)
Definition unsqueeze_repeat (q : tensor2) (b : nat) : tensor3 :=
  mk3 b (rows2 q) (cols2 q) (fun _ j k => get2 q j k).

(** [Tensor.clone()]: a new tensor with the same shape and entries. *)
Definition clone (t : tensor2) : tensor2 :=
  T2 (rows2 t) (cols2 t) (data2 t).

End Tensor.

Import Tensor.

(* ===================================================================== *)
(** ** The torch layers the code instantiates *)
(* ===================================================================== *)

Module nn.

(** [nn.Conv1d(in_channels, out_channels, kernel_size=1)]: the weight
    has shape [out_channels, in_channels] (the kernel axis of size 1 is
    dropped), the bias has [out_channels] entries. *)
Record Conv1d : Type := mkConv1d {
  in_channels : nat;
  out_channels : nat;
  conv_weight : tensor2;
  conv_bias : list R
}.

(** [nn.Linear(in_features, out_features)]: weight of shape
    [out_features, in_features]. *)
Record Linear : Type := mkLinear {
  in_features : nat;
  out_features : nat;
  weight : tensor2;
  bias : list R
}.

(** Calling a [Conv1d] of kernel size 1 on [x] of shape
    [batch, channels, length].  torch refuses an input whose channel
    axis differs from [in_channels], and one shorter than the kernel. *)
Definition conv1d (m : Conv1d) (x : tensor3) : result tensor3 :=
  if negb (dim1 x =? in_channels m)%nat then Raise RuntimeError
  else if (dim2 x <? 1)%nat then Raise RuntimeError
  else
    Ok (mk3 (dim0 x) (out_channels m) (dim2 x)
          (fun i o t =>
             sum_n (in_channels m)
               (fun c => get2 (conv_weight m) o c * get3 x i c t)
             + nth o (conv_bias m) 0)).

(** Calling a [Linear] on a 3-axis tensor: it acts on the last axis. *)
Definition linear (m : Linear) (x : tensor3) : result tensor3 :=
  if negb (dim2 x =? in_features m)%nat then Raise RuntimeError
  else
    Ok (mk3 (dim0 x) (dim1 x) (out_features m)
          (fun i j o =>
             sum_n (in_features m)
               (fun c => get3 x i j c * get2 (weight m) o c)
             + nth o (bias m) 0)).

Definition wf_Conv1d (m : Conv1d) : bool :=
  wf2 (conv_weight m)
  && (rows2 (conv_weight m) =? out_channels m)%nat
  && (cols2 (conv_weight m) =? in_channels m)%nat
  && (length (conv_bias m) =? out_channels m)%nat.

Definition wf_Linear (m : Linear) : bool :=
  wf2 (weight m)
  && (rows2 (weight m) =? out_features m)%nat
  && (cols2 (weight m) =? in_features m)%nat
  && (length (bias m) =? out_features m)%nat.

End nn.

(* ===================================================================== *)
(** ** attention_modules/multihead_attention.py *)
(* ===================================================================== *)

Module multihead_attention.

(** Modelled from the spec: the body of [transpose_qkv] is not among the
    sources; only its import and its calls are.  An array
    [batch, n, d] and a head count [h] give [batch * h, n, d / h]: the
    channel axis is partitioned into [h] contiguous groups, stacked
    along the batch axis, the heads of one document next to each
    other. *)
Definition split (x : tensor3) (h : nat) : tensor3 :=
  mk3 (dim0 x * h) (dim1 x) (dim2 x / h)
    (fun i j k => get3 x (i / h) j ((i mod h) * (dim2 x / h) + k)).

(** Modelled from the spec: the body of [transpose_output] is not among
    the sources.  It is the inverse of [split]: [batch * h, n, d']
    gives [batch, n, d' * h]. *)
Definition merge (y : tensor3) (h : nat) : tensor3 :=
  mk3 (dim0 y / h) (dim1 y) (dim2 y * h)
    (fun i j k => get3 y (i * h + k / dim2 y) j (k mod dim2 y)).

(** Modelled from the spec: [transpose_qkv(X, num_heads)].  The head
    count may be [None] in Python, and a reshape into a head count that
    is zero or does not divide the channel axis cannot succeed. *)
Definition transpose_qkv (x : tensor3) (num_heads : option nat)
  : result tensor3 :=
  match num_heads with
  | None => Raise TypeError
  | Some h =>
      if (h =? 0)%nat || negb (dim2 x mod h =? 0)%nat
      then Raise RuntimeError
      else Ok (split x h)
  end.

(** Modelled from the spec: [transpose_output(X, num_heads)]. *)
Definition transpose_output (x : tensor3) (num_heads : option nat)
  : result tensor3 :=
  match num_heads with
  | None => Raise TypeError
  | Some h =>
      if (h =? 0)%nat || negb (dim0 x mod h =? 0)%nat
      then Raise RuntimeError
      else Ok (merge x h)
  end.

End multihead_attention.

(* ===================================================================== *)
(** ** attention_modules/target_attention.py *)
(* ===================================================================== *)

Module TargetAttention.

Import nn multihead_attention.

(** The instance attributes of a [TargetAttention] module.  [Q] is a
    tensor of its own: [clone()] copies the entries of [Q_mat.weight]
    once, so the two fields are not aliases of each other.  The three
    head projections exist only when [_multihead] was set at
    construction. *)
Record t : Type := mk {
  _num_labels : nat;
  _embedding_dim : nat;
  _latent_doc_dim : nat;
  _scale : bool;
  _multihead : bool;
  _num_heads : option nat;
  K_alignment : option tensor3;
  Q_alignment : option tensor;
  K : Conv1d;
  V : Conv1d;
  Q_mat : Linear;
  Q : tensor2;
  W_k : option Linear;
  W_v : option Linear;
  W_q : option Linear
}.

(** The values drawn while the module is built: [xavier_uniform_] for
    the weights, torch's default for the biases that the code does not
    overwrite. *)
Record draws : Type := mkDraws {
  draw_K_weight : nat -> nat -> R;
  draw_V_weight : nat -> nat -> R;
  draw_Q_mat_weight : nat -> nat -> R;
  draw_Q_mat_bias : nat -> R;
  draw_W_k_weight : nat -> nat -> R;
  draw_W_v_weight : nat -> nat -> R;
  draw_W_q_weight : nat -> nat -> R
}.

(** [bias.data.fill_(0.01)] *)
Definition filled_bias (n : nat) : list R := mk_row n (fun _ => 1 / 100).

Definition head_projection (d : nat) (w : nat -> nat -> R) : Linear :=
  mkLinear d d (mk2 d d w) (filled_bias d).

(** [TargetAttention.__init__] *)
Definition init (num_labels embedding_dim latent_doc_dim : nat)
    (scale multihead : bool) (num_heads : option nat) (rnd : draws) : t :=
  let K := mkConv1d latent_doc_dim latent_doc_dim
             (mk2 latent_doc_dim latent_doc_dim (draw_K_weight rnd))
             (filled_bias latent_doc_dim) in
  let V := mkConv1d latent_doc_dim latent_doc_dim
             (mk2 latent_doc_dim latent_doc_dim (draw_V_weight rnd))
             (filled_bias latent_doc_dim) in
  let Q_mat := mkLinear latent_doc_dim num_labels
                 (mk2 num_labels latent_doc_dim (draw_Q_mat_weight rnd))
                 (mk_row num_labels (draw_Q_mat_bias rnd)) in
  let Q := clone (weight Q_mat) in
  let proj w := if multihead
                then Some (head_projection latent_doc_dim w) else None in
  mk num_labels embedding_dim latent_doc_dim scale multihead num_heads
     None None K V Q_mat Q
     (proj (draw_W_k_weight rnd))
     (proj (draw_W_v_weight rnd))
     (proj (draw_W_q_weight rnd)).

(** Reading an attribute that [__init__] created only under
    [multihead]. *)
Definition attr {A : Type} (a : option A) : result A :=
  match a with
  | Some x => Ok x
  | None => Raise AttributeError
  end.

(** The divisor [np.sqrt(self._embedding_dim)]. *)
Definition scale_divisor (self : t) : R := sqrt (INR (_embedding_dim self)).

(** The energy scores of the single-head branch, lines 138-141. *)
Definition energy (self : t) (Qv : tensor2) (Kv : tensor3) : result tensor3 :=
  if _scale self then
    E <- matmul23 Qv (permute021 Kv) ;;
    Ok (div_scalar E (scale_divisor self))
  else
    matmul23 Qv (permute021 Kv).

(** The energy scores of the multi-head branch, lines 128-131. *)
Definition energy_mh (self : t) (Qv Kv : tensor3) : result tensor3 :=
  if _scale self then
    E <- bmm Qv (permute021 Kv) ;;
    Ok (div_scalar E (scale_divisor self))
  else
    bmm Qv (permute021 Kv).

Definition set_alignment (self : t) (Kv : tensor3) (Qv : tensor) : t :=
  mk (_num_labels self) (_embedding_dim self) (_latent_doc_dim self)
     (_scale self) (_multihead self) (_num_heads self)
     (Some Kv) (Some Qv)
     (K self) (V self) (Q_mat self) (Q self)
     (W_k self) (W_v self) (W_q self).

(** [TargetAttention.forward]: the module after the call, and the pair
    [(C, A)]. *)
Definition forward (self : t) (H : tensor3) : result (t * (tensor3 * tensor3)) :=
  KH <- conv1d (K self) H ;;
  let Kv := permute021 (elu KH) in
  VH <- conv1d (V self) H ;;
  let Vv := permute021 (elu VH) in
  let Qv := Q self in
  if _multihead self then
    let Qr := unsqueeze_repeat Qv (dim0 Kv) in
    Wk <- attr (W_k self) ;;
    Kl <- linear Wk Kv ;;
    Kh <- transpose_qkv Kl (_num_heads self) ;;
    Wv <- attr (W_v self) ;;
    Vl <- linear Wv Vv ;;
    Vh <- transpose_qkv Vl (_num_heads self) ;;
    Wq <- attr (W_q self) ;;
    Ql <- linear Wq Qr ;;
    Qh <- transpose_qkv Ql (_num_heads self) ;;
    E <- energy_mh self Qh Kh ;;
    let A := softmax E in
    C <- bmm A Vh ;;
    Ok (set_alignment self Kh (Rank3 Qh), (C, A))
  else
    E <- energy self Qv Kv ;;
    let A := softmax E in
    C <- bmm A Vv ;;
    Ok (set_alignment self Kv (Rank2 Qv), (C, A)).

(** What an optimizer step does to the registered parameter
    [Q_mat.weight]: its entries are overwritten in place.  The attribute
    [Q] holds a tensor of its own, which is not among
    [self.parameters()], and keeps its entries. *)
Definition update_Q_mat_weight (self : t) (w : tensor2) : t :=
  mk (_num_labels self) (_embedding_dim self) (_latent_doc_dim self)
     (_scale self) (_multihead self) (_num_heads self)
     (K_alignment self) (Q_alignment self)
     (K self) (V self)
     (mkLinear (in_features (Q_mat self)) (out_features (Q_mat self))
        w (bias (Q_mat self)))
     (Q self)
     (W_k self) (W_v self) (W_q self).

(** A module as [__init__] leaves it and training keeps it: every layer
    has the shape the constructor gave it. *)
Definition wf_opt (d : nat) (l : option Linear) : bool :=
  match l with
  | Some m => wf_Linear m && (in_features m =? d)%nat
              && (out_features m =? d)%nat
  | None => false
  end.

Definition wf (self : t) : bool :=
  wf_Conv1d (K self)
  && (in_channels (K self) =? _latent_doc_dim self)%nat
  && (out_channels (K self) =? _latent_doc_dim self)%nat
  && wf_Conv1d (V self)
  && (in_channels (V self) =? _latent_doc_dim self)%nat
  && (out_channels (V self) =? _latent_doc_dim self)%nat
  && wf2 (Q self)
  && (rows2 (Q self) =? _num_labels self)%nat
  && (cols2 (Q self) =? _latent_doc_dim self)%nat
  && (if _multihead self then
        wf_opt (_latent_doc_dim self) (W_k self)
        && wf_opt (_latent_doc_dim self) (W_v self)
        && wf_opt (_latent_doc_dim self) (W_q self)
        && match _num_heads self with
           | Some h => negb (h =? 0)%nat
                       && (_latent_doc_dim self mod h =? 0)%nat
           | None => false
           end
      else true).

(** The energies are real numbers: without the scale flag always, with
    it when the divisor [sqrt(embedding_dim)] is not zero.  At
    [embedding_dim = 0] with the flag set, torch divides by 0.0 and the
    weights are not numbers; what is proved about the values of A and C
    leaves that configuration out. *)
Definition scale_defined (self : t) : bool :=
  negb (_scale self) || (1 <=? _embedding_dim self)%nat.

(** The number of results per document: one, or one per head. *)
Definition head_count (self : t) : nat :=
  if _multihead self then
    match _num_heads self with
    | Some h => h
    | None => 0%nat
    end
  else 1%nat.

End TargetAttention.

(* ===================================================================== *)
(** ** attention_modules/attention_mechanisms.py *)
(* ===================================================================== *)

Module Attention.

Import nn multihead_attention.

Local Open Scope string_scope.

(** The arguments of [Attention.__init__]. *)
Record args : Type := mkArgs {
  num_labels : nat;
  embedding_dim : nat;
  latent_doc_dim : nat;
  att_module : string;
  scale : bool;
  multihead : bool;
  num_heads : option nat;
  num_cats : option nat;
  label_embedding_matrix : option tensor2;
  cat_embedding_matrix : option tensor2;
  code2cat_map : option (list nat);
  gamma : option R
}.

(** What the expression [x.weight] is evaluated on. *)
Inductive value : Type :=
| VTensor (x : tensor2)
| VLinear (m : Linear).

(** [x.weight]: a layer has the attribute, a [torch.Tensor] has not. *)
Definition getattr_weight (x : value) : result tensor2 :=
  match x with
  | VLinear m => Ok (weight m)
  | VTensor _ => Raise AttributeError
  end.

Section Dispatcher.

(** The variant classes other than [TargetAttention] live in modules
    that are not among the sources.  Their instances, constructors
    (by class name) and forward passes (with the keyword argument
    [Q] when the caller passes one) are left open. *)
Variable other : Type.
Variable other_init : string -> args -> result other.
Variable other_forward :
  other -> tensor3 -> option tensor2 -> result (other * (tensor3 * tensor3)).

Inductive layer : Type :=
| Target (l : TargetAttention.t)
| Other (l : other).

(** The instance attributes of an [Attention] module.  [MH_output],
    [attention_layer] and [Q] are set on some paths of [__init__]
    only. *)
Record t : Type := mk {
  _num_labels : nat;
  _embedding_dim : nat;
  _latent_doc_dim : nat;
  _att_module : string;
  _scale : bool;
  _multihead : bool;
  _num_heads : option nat;
  _num_cats : option nat;
  _label_embedding_matrix : option tensor2;
  _cat_embedding_matrix : option tensor2;
  _code2cat_map : option (list nat);
  _gamma : option R;
  MH_output : option Linear;
  attention_layer : option layer;
  Q : option tensor2
}.

Record draws : Type := mkDraws {
  draw_MH_weight : nat -> nat -> R;
  draw_MH_bias : nat -> R;
  draw_layer : TargetAttention.draws
}.

Definition built (a : args) (mh : option Linear) (l : option layer)
    (q : option tensor2) : t :=
  mk (num_labels a) (embedding_dim a) (latent_doc_dim a) (att_module a)
     (scale a) (multihead a) (num_heads a) (num_cats a)
     (label_embedding_matrix a) (cat_embedding_matrix a)
     (code2cat_map a) (gamma a) mh l q.

Definition build_other (cls : string) (a : args) (mh : option Linear)
  : result t :=
  l <- other_init cls a ;;
  Ok (built a mh (Some (Other l)) None).

(** [Attention.__init__] *)
Definition init (a : args) (rnd : draws) : result t :=
  let mh :=
    if multihead a then
      Some (mkLinear (latent_doc_dim a) (latent_doc_dim a)
              (mk2 (latent_doc_dim a) (latent_doc_dim a) (draw_MH_weight rnd))
              (mk_row (latent_doc_dim a) (draw_MH_bias rnd)))
    else None in
  if att_module a =? "target" then
    let l := TargetAttention.init (num_labels a) (embedding_dim a)
               (latent_doc_dim a) (scale a) (multihead a) (num_heads a)
               (draw_layer rnd) in
    w <- getattr_weight (VTensor (TargetAttention.Q l)) ;;
    Ok (built a mh (Some (Target l)) (Some (clone w)))
  else if att_module a =? "label" then
    build_other "LabelAttention" a mh
  else if att_module a =? "alternate" then
    build_other "AlternateAttention" a mh
  else if att_module a =? "hierarchical_target" then
    build_other "HierarchicalTargetAttention" a mh
  else if att_module a =? "hierarchical_context" then
    build_other "HierarchicalContextAttention" a mh
  else if att_module a =? "hierarchical_double_attention" then
    build_other "HierarchicalDoubleAttention" a mh
  else if att_module a =? "hierarchical_label" then
    build_other "HierarchicalLabelAttention" a mh
  else if att_module a =? "context" then
    build_other "ContextAttention" a mh
  else if att_module a =? "context_diff" then
    build_other "ContextAttentionDiffInput" a mh
  else if att_module a =? "max_masked" then
    build_other "MaxMaskedAttention" a mh
  else if att_module a =? "rank_masked" then
    build_other "RankedMaskedAttention" a mh
  else
    Ok (built a mh None None).

(** The names that a branch of [__init__] tests for. *)
Definition recognized (name : string) : bool :=
  existsb (String.eqb name)
    ["target"; "label"; "alternate"; "hierarchical_target";
     "hierarchical_context"; "hierarchical_double_attention";
     "hierarchical_label"; "context"; "context_diff"; "max_masked";
     "rank_masked"].

(** Reading an instance attribute that may not have been set. *)
Definition attr {A : Type} (a : option A) : result A :=
  match a with
  | Some x => Ok x
  | None => Raise AttributeError
  end.

(** Reading a local variable that may not have been assigned. *)
Definition local {A : Type} (a : option A) : result A :=
  match a with
  | Some x => Ok x
  | None => Raise UnboundLocalError
  end.

(** [self.attention_layer(H=H)] and [self.attention_layer(H=H, Q=Q)]:
    [TargetAttention.forward] takes [H] only. *)
Definition call_layer (l : layer) (H : tensor3) (Qkw : option tensor2)
  : result (layer * (tensor3 * tensor3)) :=
  match l with
  | Target m =>
      match Qkw with
      | Some _ => Raise TypeError
      | None =>
          '(m', CA) <- TargetAttention.forward m H ;;
          Ok (Target m', CA)
      end
  | Other o =>
      '(o', CA) <- other_forward o H Qkw ;;
      Ok (Other o', CA)
  end.

Definition set_layer (self : t) (l : layer) : t :=
  mk (_num_labels self) (_embedding_dim self) (_latent_doc_dim self)
     (_att_module self) (_scale self) (_multihead self) (_num_heads self)
     (_num_cats self) (_label_embedding_matrix self)
     (_cat_embedding_matrix self) (_code2cat_map self) (_gamma self)
     (MH_output self) (Some l) (Q self).

(** [Attention.forward].  The local variable [Q] is assigned on the
    ['target'] path only; [print] writes to the console and is left
    out. *)
Definition forward (self : t) (H : tensor3)
  : result (t * (tensor3 * tensor3)) :=
  Qloc <- (if _att_module self =? "target"
           then q <- attr (Q self) ;; Ok (Some q)
           else Ok None) ;;
  if _multihead self then
    l <- attr (attention_layer self) ;;
    '(l', (C, A)) <- call_layer l H None ;;
    C <- transpose_output C (_num_heads self) ;;
    A <- transpose_output A (_num_heads self) ;;
    out <- attr (MH_output self) ;;
    C <- linear out C ;;
    Ok (set_layer self l', (C, A))
  else
    l <- attr (attention_layer self) ;;
    q <- local Qloc ;;
    '(l', (C, A)) <- call_layer l H (Some q) ;;
    Ok (set_layer self l', (C, A)).

(** An ['target'] dispatcher holds a [TargetAttention] layer, if it
    holds a layer at all. *)
Definition layer_matches (self : t) : bool :=
  if _att_module self =? "target" then
    match attention_layer self with
    | Some (Other _) => false
    | _ => true
    end
  else true.

End Dispatcher.

Arguments Target {other} l.
Arguments Other {other} l.

End Attention.

(* ===================================================================== *)
(** ** main.py *)
(* ===================================================================== *)

Module main.

(** Lines 521-523 of [main]: the only test on the head count, made
    before any model is built.  An option that was not given on the
    command line is [None]. *)
Definition check_num_heads (multihead : option bool) (num_heads : option nat)
  : result unit :=
  match multihead, num_heads with
  | Some true, None => Raise TypeError
  | _, _ => Ok tt
  end.

(** The values that the command line accepts for [--attention_module],
    lines 451-456. *)
Definition attention_module_choices : list string :=
  ["target"; "self"; "label"; "alternate"; "hierarchical_target";
   "hierarchical_label"; "hierarchical_context";
   "hierarchical_double_attention"; "context"; "context_diff";
   "max_masked"; "rank_masked"]%string.

End main.

(* ===================================================================== *)
(** ** tools/utils_preprocess.py *)
(* ===================================================================== *)

Module utils_preprocess.

Import Stdlib.Strings.Ascii.

(** A Python [str], one [ascii] per character: ICD-9 codes are made of
    digits, capital letters and a period. *)
Definition str : Type := list Ascii.ascii.

Definition period : Ascii.ascii := "."%char.

(** [x[i]]: [None] stands for the [IndexError] of an index past the
    end, the only exception the two functions below can raise. *)
Definition index (x : str) (i : nat) : option Ascii.ascii := nth_error x i.

(** ['.' in x] *)
Definition has_period (x : str) : bool := existsb (Ascii.eqb period) x.

(** [rel2abs(x, flag_proc)] *)
Definition rel2abs (x : str) (flag_proc : bool) : option str :=
  if flag_proc then
    if (length x =? 2)%nat then Some x
    else Some (firstn 2 x ++ period :: skipn 2 x)
  else
    if (length x =? 3)%nat then Some x
    else
      match index x 0 with
      | None => None
      | Some c =>
          if Ascii.eqb c "E"%char
          then Some (firstn 4 x ++ period :: skipn 4 x)
          else Some (firstn 3 x ++ period :: skipn 3 x)
      end.

(** The loop of [get_class_type] under [code=True], with the two lists
    it appends to. *)
Fixpoint sort_codes (classes_list classes_proc classes_diag : list str)
  : option (list (list str)) :=
  match classes_list with
  | [] => Some [classes_proc; classes_diag]
  | x :: rest =>
      if has_period x then
        match index x 2 with
        | None => None
        | Some c2 =>
            if Ascii.eqb c2 period
            then sort_codes rest (classes_proc ++ [x]) classes_diag
            else
              match index x 3 with
              | None => None
              | Some c3 =>
                  if Ascii.eqb c3 period
                  then sort_codes rest classes_proc (classes_diag ++ [x])
                  else
                    match index x 4 with
                    | None => None
                    | Some c4 =>
                        if Ascii.eqb c4 period
                        then sort_codes rest classes_proc (classes_diag ++ [x])
                        else sort_codes rest classes_proc classes_diag
                    end
              end
        end
      else if (length x =? 2)%nat
      then sort_codes rest (classes_proc ++ [x]) classes_diag
      else if (length x =? 3)%nat || (length x =? 4)%nat
      then sort_codes rest classes_proc (classes_diag ++ [x])
      else sort_codes rest classes_proc classes_diag
  end.

(** The loop of [get_class_type] under [code=False]. *)
Fixpoint sort_categories (classes_list classes_proc classes_diag : list str)
  : option (list (list str)) :=
  match classes_list with
  | [] => Some [classes_proc; classes_diag]
  | x :: rest =>
      if (length x =? 2)%nat
      then sort_categories rest (classes_proc ++ [x]) classes_diag
      else if (length x =? 3)%nat || (length x =? 4)%nat
      then sort_categories rest classes_proc (classes_diag ++ [x])
      else sort_categories rest classes_proc classes_diag
  end.

(** [get_class_type(classes_list, code)] *)
Definition get_class_type (classes_list : list str) (code : bool)
  : option (list (list str)) :=
  if code then sort_codes classes_list [] []
  else sort_categories classes_list [] [].

(** A code without its periods. *)
Definition without_periods (x : str) : str :=
  filter (fun c => negb (Ascii.eqb period c)) x.

(** The shape of a procedure code, [XX] or [XX.…]. *)
Definition procedure_shape (x : str) : bool :=
  if has_period x
  then match index x 2 with
       | Some c => Ascii.eqb c period
       | None => false
       end
  else (length x =? 2)%nat.

(** The shape of a diagnosis code: [XXX], [XXXX], [XXX.…] or [XXXX.…]. *)
Definition diagnosis_shape (x : str) : bool :=
  if has_period x
  then match index x 2 with
       | Some c2 =>
           negb (Ascii.eqb c2 period)
           && (match index x 3 with
               | Some c3 => Ascii.eqb c3 period
               | None => false
               end
               || match index x 4 with
                  | Some c4 => Ascii.eqb c4 period
                  | None => false
                  end)
       | None => false
       end
  else (length x =? 3)%nat || (length x =? 4)%nat.

(** A code of at most four characters whose periods all sit among its
    first two characters. *)
Definition period_too_early (x : str) : bool :=
  has_period x && (length x <=? 4)%nat
  && negb (has_period (skipn 2 x)).

End utils_preprocess.

(* ===================================================================== *)
(** ** tools/training.py *)
(* ===================================================================== *)

Module training.

(** What [train] can raise: the exceptions of its own statements
    ([scheduler.step()] on [None], [l_cpu] read before any batch,
    [os.remove] of a missing file), and whatever the model, the loaders
    or [scoring] raise. *)
Inductive error : Type :=
| AttributeError
| UnboundLocalError
| FileNotFoundError
| Collaborator (e : Py.exn).

Inductive outcome (A : Type) : Type :=
| Done (a : A)
| Failed (e : error).

Arguments Done {A} a.
Arguments Failed {A} e.

Definition andThen {A B : Type} (c : outcome A) (k : A -> outcome B)
  : outcome B :=
  match c with
  | Done a => k a
  | Failed e => Failed e
  end.

(** A call into the model, a loader or [scoring]. *)
Definition call {A : Type} (c : Py.result A) : outcome A :=
  match c with
  | Ok a => Done a
  | Raise e => Failed (Collaborator e)
  end.

Section Train.

(** The parameters of the model together with the state of the
    optimizer and of the scheduler: what [state_dict()] stores and what a
    training step updates. *)
Variable params : Type.

(** Lines 78-112, one pass over [train_loader] in the given epoch: the
    parameters after the last batch and [l_cpu], the loss of the last
    batch, if there was a batch. *)
Variable fit : nat -> params -> Py.result (params * option R).

(** [scheduler.step()] *)
Variable scheduler_step : params -> params.

(** [scoring(...)['loss']] on [val_loader]; the call runs under
    [torch.no_grad()] and leaves the parameters as they are. *)
Variable scoring : params -> Py.result R.

(** The two files [train] writes: [save_name.pt] and
    [save_name_checkpoint.pt], the latter with its epoch and loss. *)
Record files : Type := mkFiles {
  saved : option params;
  checkpoint : option (nat * params * R)
}.

(** The local variables of [train] that the loop carries, with the
    model and the files.  [best_val_loss = None] is [np.inf]. *)
Record state : Type := mkState {
  model : params;
  disk : files;
  best_val_loss : option R;
  patience_counter : nat;
  epoch : nat
}.

(** [val_loss < best_val_loss] *)
Definition improves (val_loss : R) (best : option R) : bool :=
  match best with
  | None => true
  | Some b => if Rlt_dec val_loss b then true else false
  end.

(** [os.remove(f'{save_name}_checkpoint.pt')] *)
Definition remove_checkpoint (d : files) : outcome files :=
  match checkpoint d with
  | Some _ => Done (mkFiles (saved d) None)
  | None => Failed FileNotFoundError
  end.

(** The body of the loop, lines 76-147, for the epoch [ep]: the state
    it leaves and whether the loop goes on ([false] is [break]).  The
    two flags tell whether a scheduler and a validation loader were
    given. *)
Definition one_epoch (scheduler val_loader : bool) (patience : nat)
    (ep : nat) (s : state) : outcome (state * bool) :=
  andThen (call (fit ep (model s))) (fun fitted =>
  let (m1, l_cpu) := fitted in
  if negb scheduler then Failed AttributeError
  else
    let m2 := scheduler_step m1 in
    match l_cpu with
    | None => Failed UnboundLocalError
    | Some l =>
        let d1 := if (ep mod 2 =? 0)%nat
                  then mkFiles (saved (disk s)) (Some (ep, m2, l))
                  else disk s in
        if val_loader then
          andThen (call (scoring m2)) (fun val_loss =>
          if improves val_loss (best_val_loss s) then
            Done (mkState m2 (mkFiles (Some m2) (checkpoint d1))
                    (Some val_loss) 0 ep, true)
          else
            if (patience <=? S (patience_counter s))%nat then
              andThen (remove_checkpoint d1) (fun d2 =>
              Done (mkState m2 d2 (best_val_loss s)
                      (S (patience_counter s)) ep, false))
            else
              Done (mkState m2 d1 (best_val_loss s)
                      (S (patience_counter s)) ep, true))
        else
          Done (mkState m2 d1 (best_val_loss s) (patience_counter s) ep,
                true)
    end).

(** The loop of lines 75-147 over the epochs still to run. *)
Fixpoint loop (scheduler val_loader : bool) (patience : nat)
    (todo : list nat) (s : state) : outcome state :=
  match todo with
  | [] => Done s
  | ep :: rest =>
      andThen (one_epoch scheduler val_loader patience ep s) (fun r =>
      if snd r then loop scheduler val_loader patience rest (fst r)
      else Done (fst r))
  end.

(** The file [save_name.pt] holds a model with the best validation loss
    recorded so far. *)
Definition best_is_saved (s : state) : Prop :=
  forall b, best_val_loss s = Some b ->
            exists mb, saved (disk s) = Some mb /\ scoring mb = Ok b.

(** Before an odd epoch, once a validation loss is recorded, the
    checkpoint file exists. *)
Definition checkpoint_is_there (ep : nat) (s : state) : Prop :=
  best_val_loss s <> None -> (ep mod 2 <> 0)%nat ->
  checkpoint (disk s) <> None.

(** Lines 149-158: the last save and the value returned. *)
Definition finish (epochs : nat) (s : state) : nat * params * files :=
  let d := if (epoch s + 1 =? epochs)%nat
           then mkFiles (Some (model s)) None
           else disk s in
  ((epoch s + 1)%nat, model s, d).

(** [train(model, train_kwargs, optimizer, train_loader, epoch, ...,
    val_loader, scheduler, save_name)] with
    [train_kwargs = {'epochs': epochs, 'patience': patience}]: the value
    returned, the model and the files after the call. *)
Definition train (m : params) (d : files) (epochs patience : nat)
    (epoch0 : nat) (val_loader scheduler : bool)
  : outcome (nat * params * files) :=
  andThen
    (loop scheduler val_loader patience (seq epoch0 (epochs - epoch0))
       (mkState m d None 0 epoch0))
    (fun s => Done (finish epochs s)).

End Train.

End training.

(* ===================================================================== *)
(** ** The base attention algorithm, step by step *)
(* ===================================================================== *)

Module Steps.

Import nn.

(** Key/value derivation: one linear map applied at every sequence
    position, then ELU, with the sequence axis before the channel
    axis. *)
Definition positional_projection (m : Conv1d) (H : tensor3) : tensor3 :=
  mk3 (dim0 H) (dim2 H) (out_channels m)
    (fun i t o =>
       elu_scalar
         (sum_n (in_channels m)
            (fun c => get2 (conv_weight m) o c * get3 H i c t)
          + nth o (conv_bias m) 0)).

(** Step 1: [E = Q . K^T], one product per document of the batch. *)
Definition product_Q_Kt (Qv : tensor2) (Kv : tensor3) : tensor3 :=
  mk3 (dim0 Kv) (rows2 Qv) (dim1 Kv)
    (fun i j t => sum_n (cols2 Qv) (fun c => get2 Qv j c * get3 Kv i t c)).

(** Step 2: if the flag is set, [E / sqrt(embedding_dim)]. *)
Definition scaled (flag : bool) (embedding_dim : nat) (E : tensor3) : tensor3 :=
  if flag then
    mk3 (dim0 E) (dim1 E) (dim2 E)
      (fun i j t => get3 E i j t / sqrt (INR embedding_dim))
  else E.

(** Step 3: softmax along the sequence axis. *)
Definition weights (E : tensor3) : tensor3 :=
  mk3 (dim0 E) (dim1 E) (dim2 E)
    (fun i j t =>
       exp (get3 E i j t) / sum_n (dim2 E) (fun t' => exp (get3 E i j t'))).

(** Step 4: [C = A . V]. *)
Definition product_A_V (A Vv : tensor3) : tensor3 :=
  mk3 (dim0 A) (dim1 A) (dim2 Vv)
    (fun i j c => sum_n (dim2 A) (fun t => get3 A i j t * get3 Vv i t c)).

(** The pair [(C, A)] of steps 1, 3 and 4 alone, on the keys and values
    derived from [H]. *)
Definition unscaled (self : TargetAttention.t) (H : tensor3)
  : tensor3 * tensor3 :=
  let Kv := positional_projection (TargetAttention.K self) H in
  let Vv := positional_projection (TargetAttention.V self) H in
  let E := product_Q_Kt (TargetAttention.Q self) Kv in
  let A := weights E in
  (product_A_V A Vv, A).

(** The pair [(C, A)] of steps 1 to 4. *)
Definition base_attention (self : TargetAttention.t) (H : tensor3)
  : tensor3 * tensor3 :=
  let Kv := positional_projection (TargetAttention.K self) H in
  let Vv := positional_projection (TargetAttention.V self) H in
  let E := scaled (TargetAttention._scale self)
             (TargetAttention._embedding_dim self)
             (product_Q_Kt (TargetAttention.Q self) Kv) in
  let A := weights E in
  (product_A_V A Vv, A).

(** A head projection: one linear map applied to the last axis. *)
Definition projected (m : Linear) (x : tensor3) : tensor3 :=
  mk3 (dim0 x) (dim1 x) (out_features m)
    (fun i j o =>
       sum_n (in_features m) (fun c => get3 x i j c * get2 (weight m) o c)
       + nth o (bias m) 0).

(** Step 1 when the queries differ from one batch entry to the next. *)
Definition product_Qh_Kt (Qh Kh : tensor3) : tensor3 :=
  mk3 (dim0 Qh) (dim1 Qh) (dim1 Kh)
    (fun i j t => sum_n (dim2 Qh) (fun c => get3 Qh i j c * get3 Kh i t c)).

(** The keys, values and queries of the heads: the keys and values
    derived from [H] and the query matrix repeated for every document,
    each through its projection and then split into [h] heads. *)
Definition head_keys (self : TargetAttention.t) (Wk : Linear) (h : nat)
    (H : tensor3) : tensor3 :=
  multihead_attention.split
    (projected Wk (positional_projection (TargetAttention.K self) H)) h.

Definition head_values (self : TargetAttention.t) (Wv : Linear) (h : nat)
    (H : tensor3) : tensor3 :=
  multihead_attention.split
    (projected Wv (positional_projection (TargetAttention.V self) H)) h.

Definition head_queries (self : TargetAttention.t) (Wq : Linear) (h : nat)
    (H : tensor3) : tensor3 :=
  multihead_attention.split
    (projected Wq (unsqueeze_repeat (TargetAttention.Q self) (dim0 H))) h.

(** The pair [(C, A)] of steps 1 to 4 on every head. *)
Definition per_head (self : TargetAttention.t) (Wk Wv Wq : Linear) (h : nat)
    (H : tensor3) : tensor3 * tensor3 :=
  let E := scaled (TargetAttention._scale self)
             (TargetAttention._embedding_dim self)
             (product_Qh_Kt (head_queries self Wq h H)
                (head_keys self Wk h H)) in
  let A := weights E in
  (product_A_V A (head_values self Wv h H), A).

End Steps.

(* ===================================================================== *)
(** ** Properties of the outputs *)
(* ===================================================================== *)

(** A row of attention weights is a probability distribution. *)
Definition distribution (row : list R) : Prop :=
  Forall (fun a => 0 <= a) row /\ row_sum row = 1.

(** Every row of [A], for every batch index and label index. *)
Definition rows_are_distributions (A : tensor3) : Prop :=
  forall m row, In m (data3 A) -> In row m -> distribution row.

(** A row sums to 1 within the tolerance [1e-5]. *)
Definition sums_to_one_within_tolerance (row : list R) : Prop :=
  Rabs (row_sum row - 1) <= 1 / 100000.

(** Two tensors hold the same document at batch index [i]: their
    slices at [i] have the same shape and the same entries.  The batch
    sizes may differ. *)
Definition same_document (i : nat) (X Y : tensor3) : Prop :=
  (i < dim0 X)%nat /\ (i < dim0 Y)%nat
  /\ dim1 X = dim1 Y /\ dim2 X = dim2 Y
  /\ forall j k, (j < dim1 X)%nat -> (k < dim2 X)%nat ->
                 get3 X i j k = get3 Y i j k.

(* ===================================================================== *)
(** ** Concrete modules and inputs *)
(* ===================================================================== *)

Module Example.

Local Open Scope string_scope.

(** Every drawn weight is 1. *)
Definition ones : TargetAttention.draws :=
  TargetAttention.mkDraws
    (fun _ _ => 1) (fun _ _ => 1) (fun _ _ => 1) (fun _ => 1)
    (fun _ _ => 1) (fun _ _ => 1) (fun _ _ => 1).

(** Every drawn query weight is 2; the other draws are 1. *)
Definition twos : tensor2 := mk2 1 1 (fun _ _ => 2).

(** [TargetAttention(num_labels=1, embedding_dim=4, latent_doc_dim=1,
    scale=True)] *)
Definition scaled_layer : TargetAttention.t :=
  TargetAttention.init 1 4 1 true false None ones.

(** [TargetAttention(num_labels=1, embedding_dim=4, latent_doc_dim=1)] *)
Definition plain_layer : TargetAttention.t :=
  TargetAttention.init 1 4 1 false false None ones.

(** [plain_layer] once [forward] has been called on [[[1, 2]]]. *)
Definition plain_layer_after : TargetAttention.t :=
  TargetAttention.set_alignment plain_layer
    (Steps.positional_projection (TargetAttention.K plain_layer)
       (T3 1 1 2 [[[1; 2]]]))
    (Rank2 (TargetAttention.Q plain_layer)).

(** [TargetAttention(num_labels=4, embedding_dim=8, latent_doc_dim=8,
    multihead=True, num_heads=2)] *)
Definition two_head_layer : TargetAttention.t :=
  TargetAttention.init 4 8 8 false true (Some 2%nat) ones.

(** One document of one channel and two tokens, [[[1, 2]]]. *)
Definition H_1_1_2 : tensor3 := T3 1 1 2 [[[1; 2]]].

(** Two documents of one channel and two tokens, the first one being
    the document of [H_1_1_2]. *)
Definition H_2_1_2 : tensor3 := T3 2 1 2 [[[1; 2]]; [[3; 4]]].

(** One document of one channel whose three tokens are the same. *)
Definition H_constant : tensor3 := T3 1 1 3 [[[5; 5; 5]]].

(** One document of two channels and two tokens. *)
Definition H_1_2_2 : tensor3 := T3 1 2 2 [[[1; 2]; [3; 4]]].

(** Two slices of four rows and four entries. *)
Definition H_2_4_4 : tensor3 := mk3 2 4 4 (fun _ _ _ => 1).

(** Two documents of eight channels and six tokens. *)
Definition H_2_8_6 : tensor3 := mk3 2 8 6 (fun _ _ _ => 1).

(** The scenario: [num_labels=4, embedding_dim=8, latent_doc_dim=8,
    att_module='target', scale=False, multihead=False]. *)
Definition scenario : Attention.args :=
  Attention.mkArgs 4 8 8 "target" false false None
    None None None None None.

(** An unknown variant name, with [multihead=True, num_heads=3] and
    [latent_doc_dim=8]. *)
Definition unknown_variant : Attention.args :=
  Attention.mkArgs 4 8 8 "no_such_variant" false true (Some 3%nat)
    None None None None None.

Definition dispatcher_draws : Attention.draws :=
  Attention.mkDraws (fun _ _ => 1) (fun _ => 1) ones.

(** No class other than [TargetAttention] is available. *)
Definition no_other_init (cls : string) (a : Attention.args)
  : result Empty_set := Raise RuntimeError.

Definition no_other_forward (l : Empty_set) (H : tensor3)
    (Qkw : option tensor2) : result (Empty_set * (tensor3 * tensor3)) :=
  match l with end.

(** Every other variant class builds, into an object without content. *)
Definition unit_init (cls : string) (a : Attention.args) : result unit :=
  Ok tt.

Definition unit_forward (l : unit) (H : tensor3) (Qkw : option tensor2)
  : result (unit * (tensor3 * tensor3)) :=
  Ok (tt, (H, H)).

(** [att_module='label'] with multihead disabled. *)
Definition label_args : Attention.args :=
  Attention.mkArgs 4 8 8 "label" false false None None None None None None.

(** [att_module='self'] with multihead disabled. *)
Definition self_args : Attention.args :=
  Attention.mkArgs 4 8 8 "self" false false None None None None None None.

(** [att_module='label', multihead=True, num_heads=2]. *)
Definition label_heads_args : Attention.args :=
  Attention.mkArgs 4 8 8 "label" false true (Some 2%nat)
    None None None None None.

(** The dispatcher that [__init__] returns for [label_heads_args]. *)
Definition label_heads_dispatcher : Attention.t unit :=
  Attention.built unit label_heads_args
    (Some (nn.mkLinear 8 8 (mk2 8 8 (fun _ _ => 1)) (mk_row 8 (fun _ => 1))))
    (Some (Attention.Other tt)) None.

(** [label_heads_dispatcher] after a call of [forward]. *)
Definition label_heads_dispatcher_after : Attention.t unit :=
  Attention.set_layer unit label_heads_dispatcher (Attention.Other tt).

(** What [label_heads_dispatcher] returns on [H_2_4_4]. *)
Definition label_heads_result : tensor3 * tensor3 :=
  (Steps.projected
     (nn.mkLinear 8 8 (mk2 8 8 (fun _ _ => 1)) (mk_row 8 (fun _ => 1)))
     (multihead_attention.merge H_2_4_4 2),
   multihead_attention.merge H_2_4_4 2).

(** A model whose parameters are one counter: an epoch of training adds
    one to it and ends with loss 1; the validation loss is always 1. *)
Definition counting_fit (ep : nat) (m : nat) : result (nat * option R) :=
  Ok (S m, Some 1).

Definition constant_scoring (m : nat) : result R := Ok 1.

Definition no_files : training.files nat := training.mkFiles nat None None.

(** A ['target'] dispatcher put together by hand around a layer, as
    [__init__] would leave it if its line 123 read the tensor [Q] of the
    layer. *)
Definition assembled (l : TargetAttention.t) : Attention.t Empty_set :=
  Attention.built Empty_set scenario None
    (Some (Attention.Target l)) (Some (clone (TargetAttention.Q l))).

End Example.

(* ===================================================================== *)
(** ** Facts about tensors *)
(* ===================================================================== *)

Section TensorFacts.

Lemma nth_map_seq {A : Type} (g : nat -> A) (n i : nat) (d : A) :
  (i < n)%nat -> nth i (map g (seq 0 n)) d = g i.
Proof.
  intro Hi.
  rewrite (nth_indep _ d (g 0%nat)) by (rewrite length_map, length_seq; exact Hi).
  rewrite (map_nth g (seq 0 n) 0%nat i).
  rewrite seq_nth by exact Hi.
  reflexivity.
Qed.

Lemma length_mk_row c f : length (mk_row c f) = c.
Proof. unfold mk_row. now rewrite length_map, length_seq. Qed.

Lemma length_mk_rows r c f : length (mk_rows r c f) = r.
Proof. unfold mk_rows. now rewrite length_map, length_seq. Qed.

Lemma nth_mk_row c f k : (k < c)%nat -> nth k (mk_row c f) 0 = f k.
Proof. intro Hk. unfold mk_row. now apply nth_map_seq. Qed.

Lemma nth_mk_rows r c f j :
  (j < r)%nat -> nth j (mk_rows r c f) [] = mk_row c (f j).
Proof.
  intro Hj. unfold mk_rows.
  now rewrite (nth_map_seq (fun j0 => mk_row c (f j0))).
Qed.

Lemma get2_mk2 r c f j k :
  (j < r)%nat -> (k < c)%nat -> get2 (mk2 r c f) j k = f j k.
Proof.
  intros Hj Hk. unfold get2, mk2. cbn [data2].
  rewrite nth_mk_rows by exact Hj. now apply nth_mk_row.
Qed.

Lemma get3_mk3 b r c f i j k :
  (i < b)%nat -> (j < r)%nat -> (k < c)%nat ->
  get3 (mk3 b r c f) i j k = f i j k.
Proof.
  intros Hi Hj Hk. unfold get3, mk3. cbn [data3].
  rewrite (nth_map_seq (fun i0 => mk_rows r c (f i0))) by exact Hi.
  rewrite nth_mk_rows by exact Hj. now apply nth_mk_row.
Qed.

Lemma rows_ok_mk_rows r c f : rows_ok r c (mk_rows r c f) = true.
Proof.
  unfold rows_ok. rewrite length_mk_rows, Nat.eqb_refl. cbn [andb].
  apply forallb_forall. intros row Hin.
  unfold mk_rows in Hin. apply in_map_iff in Hin.
  destruct Hin as [j [<- _]].
  rewrite length_mk_row. apply Nat.eqb_refl.
Qed.

Lemma wf2_mk2 r c f : wf2 (mk2 r c f) = true.
Proof. unfold wf2, mk2. cbn. apply rows_ok_mk_rows. Qed.

Lemma wf3_mk3 b r c f : wf3 (mk3 b r c f) = true.
Proof.
  unfold wf3, mk3. cbn [data3 dim0 dim1 dim2].
  rewrite length_map, length_seq, Nat.eqb_refl. cbn [andb].
  apply forallb_forall. intros m Hin.
  apply in_map_iff in Hin. destruct Hin as [i [<- _]].
  apply rows_ok_mk_rows.
Qed.

Lemma mk_row_ext c f g :
  (forall k, (k < c)%nat -> f k = g k) -> mk_row c f = mk_row c g.
Proof.
  intro E. unfold mk_row. apply map_ext_in.
  intros k Hk. apply in_seq in Hk. apply E. lia.
Qed.

Lemma mk_rows_ext r c f g :
  (forall j k, (j < r)%nat -> (k < c)%nat -> f j k = g j k) ->
  mk_rows r c f = mk_rows r c g.
Proof.
  intro E. unfold mk_rows. apply map_ext_in.
  intros j Hj. apply in_seq in Hj. apply mk_row_ext.
  intros k Hk. apply E; lia.
Qed.

Lemma mk3_ext b r c f g :
  (forall i j k, (i < b)%nat -> (j < r)%nat -> (k < c)%nat ->
                 f i j k = g i j k) ->
  mk3 b r c f = mk3 b r c g.
Proof.
  intro E. unfold mk3. f_equal. apply map_ext_in.
  intros i Hi. apply in_seq in Hi. apply mk_rows_ext.
  intros j k Hj Hk. apply E; lia.
Qed.

Lemma sum_n_ext n f g :
  (forall c, (c < n)%nat -> f c = g c) -> sum_n n f = sum_n n g.
Proof.
  intro E. unfold sum_n. f_equal. apply map_ext_in.
  intros c Hc. apply in_seq in Hc. apply E. lia.
Qed.

(** A list is the table of its own entries. *)
Lemma map_nth_seq {A : Type} (l : list A) (d : A) :
  map (fun i => nth i l d) (seq 0 (length l)) = l.
Proof.
  apply (nth_ext _ _ d d).
  - now rewrite length_map, length_seq.
  - intros i Hi. rewrite length_map, length_seq in Hi.
    now rewrite (nth_map_seq (fun i0 => nth i0 l d)).
Qed.

Lemma rows_ok_eta r c m :
  rows_ok r c m = true ->
  mk_rows r c (fun j k => nth k (nth j m []) 0) = m.
Proof.
  unfold rows_ok. intro Hm. apply andb_prop in Hm. destruct Hm as [Hl Hr].
  apply Nat.eqb_eq in Hl. subst r.
  rewrite forallb_forall in Hr.
  unfold mk_rows.
  rewrite <- (map_nth_seq m []) at 2.
  apply map_ext_in. intros j Hj. apply in_seq in Hj.
  assert (Hc : length (nth j m []) = c).
  { apply Nat.eqb_eq, Hr, nth_In. lia. }
  unfold mk_row. rewrite <- Hc. apply map_nth_seq.
Qed.

(** A well-formed tensor is the table of its own entries. *)
Lemma mk3_get3 x :
  wf3 x = true -> mk3 (dim0 x) (dim1 x) (dim2 x) (get3 x) = x.
Proof.
  destruct x as [b r c d]. unfold wf3, mk3, get3. cbn [dim0 dim1 dim2 data3].
  intro Hx. apply andb_prop in Hx. destruct Hx as [Hl Hm].
  apply Nat.eqb_eq in Hl. subst b. f_equal.
  rewrite forallb_forall in Hm.
  rewrite <- (map_nth_seq d []) at 2.
  apply map_ext_in. intros i Hi. apply in_seq in Hi.
  apply (rows_ok_eta r c (nth i d [])).
  apply Hm, nth_In. lia.
Qed.

End TensorFacts.

(* ===================================================================== *)
(** ** Head split and head merge *)
(* ===================================================================== *)

Section Heads.

Import multihead_attention.

Lemma head_index (h dh i k : nat) :
  (0 < h)%nat -> (k < dh * h)%nat ->
  ((i * h + k / dh) / h = i
   /\ ((i * h + k / dh) mod h) * dh + k mod dh = k
   /\ k / dh < h /\ k mod dh < dh)%nat.
Proof.
  intros Hh Hk.
  assert (Hdh : (0 < dh)%nat) by (destruct dh; [cbn in Hk; lia | lia]).
  assert (Hq : (k / dh < h)%nat).
  { apply Nat.Div0.div_lt_upper_bound. exact Hk. }
  assert (Hr : (k mod dh < dh)%nat) by (apply Nat.mod_upper_bound; lia).
  repeat split; try assumption.
  - rewrite Nat.div_add_l by lia. rewrite (Nat.div_small (k / dh) h) by exact Hq. lia.
  - rewrite (Nat.add_comm (i * h)), Nat.Div0.mod_add.
    rewrite (Nat.mod_small (k / dh) h) by exact Hq.
    pose proof (Nat.div_mod_eq k dh). lia.
Qed.

Lemma split_shape x h :
  shape3 (split x h) = ((dim0 x * h)%nat, dim1 x, (dim2 x / h)%nat).
Proof. reflexivity. Qed.

Lemma merge_split x h :
  wf3 x = true -> (0 < h)%nat -> (dim2 x mod h = 0)%nat ->
  merge (split x h) h = x.
Proof.
  intros Hx Hh Hd.
  assert (Hc : (dim2 x = dim2 x / h * h)%nat).
  { pose proof (Nat.div_mod_eq (dim2 x) h). lia. }
  unfold merge.
  replace (dim0 (split x h) / h)%nat with (dim0 x)
    by (cbn [split mk3 dim0]; now rewrite Nat.div_mul by lia).
  replace (dim2 (split x h) * h)%nat with (dim2 x) by exact Hc.
  replace (dim1 (split x h)) with (dim1 x) by reflexivity.
  transitivity (mk3 (dim0 x) (dim1 x) (dim2 x) (get3 x));
    [ | now apply mk3_get3 ].
  apply mk3_ext. intros i j k Hi Hj Hk.
  replace (dim2 (split x h)) with (dim2 x / h)%nat by reflexivity.
  rewrite Hc in Hk.
  destruct (head_index h (dim2 x / h) i k Hh Hk) as [E1 [E2 [B1 B2]]].
  unfold split. rewrite get3_mk3; [ | nia | exact Hj | exact B2 ].
  now rewrite E1, E2.
Qed.

End Heads.

(* ===================================================================== *)
(** ** Softmax rows *)
(* ===================================================================== *)

Section Softmax.

Lemma fold_sum_div (l : list nat) (g : nat -> R) (s : R) :
  fold_right Rplus 0 (map (fun k => g k / s) l)
  = fold_right Rplus 0 (map g l) / s.
Proof.
  induction l as [ | k l IH]; cbn [map fold_right].
  - unfold Rdiv. ring.
  - rewrite IH. unfold Rdiv. ring.
Qed.

Lemma fold_sum_exp_pos (l : list nat) (e : nat -> R) :
  l <> [] -> 0 < fold_right Rplus 0 (map (fun k => exp (e k)) l).
Proof.
  induction l as [ | k l IH]; [ congruence | intros _ ].
  cbn [map fold_right].
  pose proof (exp_pos (e k)) as Hk.
  destruct l as [ | k' l'].
  - cbn. lra.
  - assert (0 < fold_right Rplus 0 (map (fun k0 => exp (e k0)) (k' :: l')))
      by (apply IH; discriminate).
    lra.
Qed.

Lemma sum_exp_pos n e : (0 < n)%nat -> 0 < sum_n n (fun k => exp (e k)).
Proof.
  intro Hn. unfold sum_n. apply fold_sum_exp_pos.
  destruct n; [ lia | discriminate ].
Qed.

(** One softmax row: positive entries that sum to one. *)
Lemma softmax_row c (e : nat -> R) :
  (0 < c)%nat ->
  distribution
    (mk_row c (fun k => exp (e k) / sum_n c (fun k' => exp (e k')))).
Proof.
  intro Hc. pose proof (sum_exp_pos c e Hc) as Hs.
  split.
  - apply Forall_forall. intros a Ha.
    unfold mk_row in Ha. apply in_map_iff in Ha. destruct Ha as [k [<- _]].
    apply Rlt_le, Rdiv_lt_0_compat; [ apply exp_pos | exact Hs ].
  - unfold row_sum, mk_row.
    rewrite (fold_sum_div (seq 0 c) (fun k => exp (e k))).
    fold (sum_n c (fun k => exp (e k))).
    field. lra.
Qed.

Lemma softmax_rows_are_distributions E :
  (0 < dim2 E)%nat -> rows_are_distributions (softmax E).
Proof.
  intros Hc m row Hm Hrow.
  unfold softmax, mk3 in Hm. cbn [data3] in Hm.
  apply in_map_iff in Hm. destruct Hm as [i [<- _]].
  unfold mk_rows in Hrow. apply in_map_iff in Hrow.
  destruct Hrow as [j [<- _]].
  apply (softmax_row (dim2 E) (fun k => get3 E i j k) Hc).
Qed.

Lemma distribution_within_tolerance row :
  distribution row -> sums_to_one_within_tolerance row.
Proof.
  intros [_ Hs]. unfold sums_to_one_within_tolerance. rewrite Hs.
  replace (1 - 1) with 0 by ring. rewrite Rabs_R0. lra.
Qed.

End Softmax.

(* ===================================================================== *)
(** ** The forward pass of target attention *)
(* ===================================================================== *)

Section TargetForward.

Import nn multihead_attention TargetAttention.

Lemma conv1d_ok m x :
  dim1 x = in_channels m -> (1 <= dim2 x)%nat ->
  conv1d m x =
  Ok (mk3 (dim0 x) (out_channels m) (dim2 x)
        (fun i o t =>
           sum_n (in_channels m)
             (fun c => get2 (conv_weight m) o c * get3 x i c t)
           + nth o (conv_bias m) 0)).
Proof.
  intros Hc Hl. unfold conv1d.
  rewrite Hc, Nat.eqb_refl. cbn [negb].
  destruct (Nat.ltb_spec (dim2 x) 1) as [Hlt | _]; [ lia | reflexivity ].
Qed.

Lemma conv1d_channels m x :
  dim1 x <> in_channels m -> conv1d m x = Raise RuntimeError.
Proof.
  intro Hc. unfold conv1d.
  destruct (Nat.eqb_spec (dim1 x) (in_channels m)) as [E | _];
    [ contradiction | reflexivity ].
Qed.

Lemma linear_ok m x :
  dim2 x = in_features m ->
  linear m x =
  Ok (mk3 (dim0 x) (dim1 x) (out_features m)
        (fun i j o =>
           sum_n (in_features m)
             (fun c => get3 x i j c * get2 (weight m) o c)
           + nth o (bias m) 0)).
Proof. intro Hc. unfold linear. now rewrite Hc, Nat.eqb_refl. Qed.

Lemma matmul23_ok q x :
  cols2 q = dim1 x ->
  matmul23 q x =
  Ok (mk3 (dim0 x) (rows2 q) (dim2 x)
        (fun i j k => sum_n (cols2 q) (fun c => get2 q j c * get3 x i c k))).
Proof. intro Hc. unfold matmul23. now rewrite Hc, Nat.eqb_refl. Qed.

Lemma bmm_ok x y :
  dim0 x = dim0 y -> dim2 x = dim1 y ->
  bmm x y =
  Ok (mk3 (dim0 x) (dim1 x) (dim2 y)
        (fun i j k => sum_n (dim2 x) (fun c => get3 x i j c * get3 y i c k))).
Proof. intros H0 H1. unfold bmm. now rewrite H0, H1, !Nat.eqb_refl. Qed.

Lemma transpose_qkv_ok x h :
  (0 < h)%nat -> (dim2 x mod h = 0)%nat ->
  transpose_qkv x (Some h) = Ok (split x h).
Proof.
  intros Hh Hd. unfold transpose_qkv.
  destruct (Nat.eqb_spec h 0) as [E | _]; [ lia | ].
  now rewrite Hd.
Qed.

(** What [wf] says, as equations. *)
Lemma wf_layers self :
  wf self = true ->
  in_channels (K self) = _latent_doc_dim self
  /\ out_channels (K self) = _latent_doc_dim self
  /\ in_channels (V self) = _latent_doc_dim self
  /\ out_channels (V self) = _latent_doc_dim self
  /\ rows2 (Q self) = _num_labels self
  /\ cols2 (Q self) = _latent_doc_dim self.
Proof.
  unfold wf. intro Hw.
  repeat (apply andb_prop in Hw; destruct Hw as [Hw ?]).
  repeat match goal with
         | Hb : (_ =? _)%nat = true |- _ => apply Nat.eqb_eq in Hb
         end.
  repeat split; assumption.
Qed.

Lemma wf_opt_inv d l :
  wf_opt d l = true ->
  exists m, l = Some m /\ in_features m = d /\ out_features m = d.
Proof.
  destruct l as [m | ]; [ | discriminate ]. cbn [wf_opt]. intro Hw.
  apply andb_prop in Hw. destruct Hw as [Hw Ho].
  apply andb_prop in Hw. destruct Hw as [_ Hi].
  apply Nat.eqb_eq in Hi, Ho. now exists m.
Qed.

Lemma wf_heads self :
  wf self = true -> _multihead self = true ->
  exists Wk Wv Wq h,
    W_k self = Some Wk /\ W_v self = Some Wv /\ W_q self = Some Wq
    /\ _num_heads self = Some h
    /\ in_features Wk = _latent_doc_dim self
    /\ out_features Wk = _latent_doc_dim self
    /\ in_features Wv = _latent_doc_dim self
    /\ out_features Wv = _latent_doc_dim self
    /\ in_features Wq = _latent_doc_dim self
    /\ out_features Wq = _latent_doc_dim self
    /\ (0 < h)%nat /\ (_latent_doc_dim self mod h = 0)%nat.
Proof.
  unfold wf. intros Hw Hm. rewrite Hm in Hw.
  apply andb_prop in Hw. destruct Hw as [_ Hw].
  apply andb_prop in Hw. destruct Hw as [Hw Hh].
  apply andb_prop in Hw. destruct Hw as [Hw Hq].
  apply andb_prop in Hw. destruct Hw as [Hk Hv].
  destruct (wf_opt_inv _ _ Hk) as [Wk [Ek [? ?]]].
  destruct (wf_opt_inv _ _ Hv) as [Wv [Ev [? ?]]].
  destruct (wf_opt_inv _ _ Hq) as [Wq [Eq [? ?]]].
  destruct (_num_heads self) as [h | ]; [ | discriminate ].
  apply andb_prop in Hh. destruct Hh as [Hh0 Hhd].
  apply Nat.eqb_eq in Hhd.
  apply negb_true_iff, Nat.eqb_neq in Hh0.
  exists Wk, Wv, Wq, h. repeat split; try assumption. lia.
Qed.

(** The keys and values of the code are the positional projections of
    the specification. *)
Lemma permute_elu_conv m H :
  permute021
    (elu (mk3 (dim0 H) (out_channels m) (dim2 H)
            (fun i o t =>
               sum_n (in_channels m)
                 (fun c => get2 (conv_weight m) o c * get3 H i c t)
               + nth o (conv_bias m) 0)))
  = Steps.positional_projection m H.
Proof.
  unfold permute021, elu, map3, Steps.positional_projection.
  cbn [dim0 dim1 dim2 mk3].
  apply mk3_ext. intros i t o Hi Ht Ho.
  fold (mk3 (dim0 H) (out_channels m) (dim2 H)
          (fun i0 o0 t0 =>
             sum_n (in_channels m)
               (fun c => get2 (conv_weight m) o0 c * get3 H i0 c t0)
             + nth o0 (conv_bias m) 0)).
  rewrite get3_mk3 by assumption.
  now rewrite get3_mk3 by assumption.
Qed.

End TargetForward.
Section SingleHead.

Import nn multihead_attention TargetAttention.

Lemma get3_permute021 x i j k :
  (i < dim0 x)%nat -> (j < dim2 x)%nat -> (k < dim1 x)%nat ->
  get3 (permute021 x) i j k = get3 x i k j.
Proof. intros. unfold permute021. now rewrite get3_mk3. Qed.

Lemma get3_div_scalar x s i j k :
  (i < dim0 x)%nat -> (j < dim1 x)%nat -> (k < dim2 x)%nat ->
  get3 (div_scalar x s) i j k = get3 x i j k / s.
Proof. intros. unfold div_scalar, map3. now rewrite get3_mk3. Qed.

Lemma matmul23_permute Qv Kv :
  cols2 Qv = dim2 Kv ->
  matmul23 Qv (permute021 Kv) = Ok (Steps.product_Q_Kt Qv Kv).
Proof.
  intro Hc. rewrite matmul23_ok by exact Hc.
  f_equal. unfold Steps.product_Q_Kt.
  change (dim0 (permute021 Kv)) with (dim0 Kv).
  change (dim2 (permute021 Kv)) with (dim1 Kv).
  apply mk3_ext. intros i j t Hi Hj Ht.
  apply sum_n_ext. intros c Hc'.
  rewrite get3_permute021; [ reflexivity | exact Hi | lia | exact Ht ].
Qed.

Lemma div_scalar_scaled E emb :
  div_scalar E (sqrt (INR emb)) = Steps.scaled true emb E.
Proof. reflexivity. Qed.

Lemma energy_single_head self Kv :
  cols2 (Q self) = dim2 Kv ->
  energy self (Q self) Kv =
  Ok (Steps.scaled (_scale self) (_embedding_dim self)
        (Steps.product_Q_Kt (Q self) Kv)).
Proof.
  intro Hc. unfold energy. rewrite (matmul23_permute _ _ Hc). cbn [Py.bind].
  destruct (_scale self); reflexivity.
Qed.

Lemma forward_single_head self H :
  _multihead self = false ->
  in_channels (K self) = dim1 H ->
  in_channels (V self) = dim1 H ->
  cols2 (Q self) = out_channels (K self) ->
  (1 <= dim2 H)%nat ->
  forward self H =
  Ok (set_alignment self (Steps.positional_projection (K self) H)
        (Rank2 (Q self)),
      Steps.base_attention self H).
Proof.
  intros Hm HK HV HQ Hl. unfold forward.
  rewrite (conv1d_ok (K self) H) by (auto; lia). cbn [Py.bind].
  rewrite (conv1d_ok (V self) H) by (auto; lia). cbn [Py.bind].
  rewrite Hm. rewrite !permute_elu_conv.
  rewrite energy_single_head by exact HQ. cbn [Py.bind].
  unfold Steps.base_attention.
  destruct (_scale self); (rewrite bmm_ok; reflexivity).
Qed.

End SingleHead.
Section MultiHead.

Import nn multihead_attention TargetAttention.

Ltac dims :=
  cbn [permute021 elu map3 mk3 split softmax div_scalar unsqueeze_repeat
       Steps.positional_projection Steps.projected
       dim0 dim1 dim2];
  try congruence; try reflexivity.

Lemma linear_projected m x :
  dim2 x = in_features m -> linear m x = Ok (Steps.projected m x).
Proof. intro Hc. now rewrite linear_ok. Qed.

Lemma bmm_permute Qh Kh :
  dim0 Qh = dim0 Kh -> dim2 Qh = dim2 Kh ->
  bmm Qh (permute021 Kh) = Ok (Steps.product_Qh_Kt Qh Kh).
Proof.
  intros H0 H2. rewrite bmm_ok by assumption.
  f_equal. unfold Steps.product_Qh_Kt.
  change (dim2 (permute021 Kh)) with (dim1 Kh).
  apply mk3_ext. intros i j t Hi Hj Ht.
  apply sum_n_ext. intros c Hc.
  rewrite get3_permute021; [ reflexivity | lia | lia | exact Ht ].
Qed.

(** The multi-head branch, step by step. *)
Lemma forward_multi_head self H Wk Wv Wq h :
  _multihead self = true ->
  W_k self = Some Wk -> W_v self = Some Wv -> W_q self = Some Wq ->
  _num_heads self = Some h -> (0 < h)%nat ->
  in_channels (K self) = dim1 H -> in_channels (V self) = dim1 H ->
  (1 <= dim2 H)%nat ->
  in_features Wk = out_channels (K self) ->
  in_features Wv = out_channels (V self) ->
  in_features Wq = cols2 (Q self) ->
  (out_features Wk mod h = 0)%nat ->
  (out_features Wv mod h = 0)%nat ->
  (out_features Wq mod h = 0)%nat ->
  out_features Wq = out_features Wk ->
  forward self H =
  Ok (set_alignment self (Steps.head_keys self Wk h H)
        (Rank3 (Steps.head_queries self Wq h H)),
      Steps.per_head self Wk Wv Wq h H).
Proof.
  intros Hm Ek Ev Eq Eh Hh HK HV Hl Hki Hvi Hqi Dk Dv Dq Hqk.
  unfold forward.
  rewrite (conv1d_ok (K self) H) by (congruence || lia). cbn [Py.bind].
  rewrite (conv1d_ok (V self) H) by (congruence || lia). cbn [Py.bind].
  rewrite !permute_elu_conv.
  rewrite Hm, Ek, Ev, Eq, Eh. cbn [attr Py.bind].
  rewrite linear_projected by dims. cbn [Py.bind].
  rewrite transpose_qkv_ok by (try exact Hh; dims). cbn [Py.bind].
  rewrite linear_projected by dims. cbn [Py.bind].
  rewrite transpose_qkv_ok by (try exact Hh; dims). cbn [Py.bind].
  rewrite linear_projected by dims. cbn [Py.bind].
  rewrite transpose_qkv_ok by (try exact Hh; dims). cbn [Py.bind].
  change (dim0 (Steps.positional_projection (K self) H)) with (dim0 H).
  fold (Steps.head_keys self Wk h H).
  fold (Steps.head_values self Wv h H).
  fold (Steps.head_queries self Wq h H).
  unfold energy_mh, Steps.per_head, scale_divisor.
  rewrite bmm_permute;
    [ | reflexivity
      | unfold Steps.head_queries, Steps.head_keys; dims ].
  destruct (_scale self); cbn [Py.bind];
    (rewrite bmm_ok; reflexivity).
Qed.

(** A well-formed multi-head module meets the conditions of the lemma
    above. *)
Lemma forward_multi_head_wf self H :
  wf self = true -> _multihead self = true ->
  dim1 H = _latent_doc_dim self -> (1 <= dim2 H)%nat ->
  exists Wk Wv Wq h,
    W_k self = Some Wk /\ W_v self = Some Wv /\ W_q self = Some Wq
    /\ _num_heads self = Some h
    /\ forward self H =
       Ok (set_alignment self (Steps.head_keys self Wk h H)
             (Rank3 (Steps.head_queries self Wq h H)),
           Steps.per_head self Wk Wv Wq h H).
Proof.
  intros Hw Hm Hd Hl.
  destruct (wf_layers self Hw) as [HKi [HKo [HVi [HVo [HQr HQc]]]]].
  destruct (wf_heads self Hw Hm)
    as [Wk [Wv [Wq [h [Ek [Ev [Eq [Eh [Hki [Hko [Hvi [Hvo [Hqi [Hqo [Hh Hdiv]]]]]]]]]]]]]]].
  exists Wk, Wv, Wq, h.
  repeat (split; [ assumption | ]).
  apply forward_multi_head; try assumption; congruence.
Qed.

End MultiHead.

(* ===================================================================== *)
(** ** The base attention computation *)
(* ===================================================================== *)

Section BaseAttention.

Import nn TargetAttention.

Lemma sqrt_INR_4 : sqrt (INR 4) = 2.
Proof.
  replace (INR 4) with (2 * 2) by (cbn; lra).
  apply sqrt_square. lra.
Qed.

Lemma elu_scalar_pos x : 0 < x -> elu_scalar x = x.
Proof.
  intro Hx. unfold elu_scalar.
  destruct (Rlt_dec 0 x) as [_ | Hn]; [ reflexivity | contradiction ].
Qed.

(** Halving two different energies changes their softmax weights. *)
Lemma softmax_halved_differs a b :
  a <> b ->
  exp (a / 2) / (exp (a / 2) + (exp (b / 2) + 0))
  <> exp a / (exp a + (exp b + 0)).
Proof.
  intros Hab Heq.
  pose proof (exp_pos a) as Pa. pose proof (exp_pos b) as Pb.
  pose proof (exp_pos (a / 2)) as Pa2. pose proof (exp_pos (b / 2)) as Pb2.
  assert (Hx : exp (a / 2) * exp b = exp a * exp (b / 2)).
  { apply (f_equal (fun z => z * (exp (a / 2) + (exp (b / 2) + 0))
                               * (exp a + (exp b + 0)))) in Heq.
    field_simplify in Heq; lra. }
  rewrite <- !exp_plus in Hx. apply exp_inv in Hx. lra.
Qed.

Lemma scaled_layer_energy t :
  (t < 2)%nat ->
  get3 (Steps.product_Q_Kt (Q Example.scaled_layer)
          (Steps.positional_projection (K Example.scaled_layer)
             Example.H_1_1_2)) 0 0 t
  = INR (S t) + 1 / 100.
Proof.
  intro Ht. unfold Steps.product_Q_Kt.
  rewrite get3_mk3; [ | cbn; lia | cbn; lia | exact Ht ].
  cbn [Example.scaled_layer init Q K clone weight cols2 rows2 mk2 sum_n
       seq List.map fold_right].
  unfold Steps.positional_projection.
  rewrite get3_mk3; [ | cbn; lia | exact Ht | cbn; lia ].
  destruct t as [ | [ | t]]; [ | | lia ];
    cbn; rewrite elu_scalar_pos; lra.
Qed.

End BaseAttention.

Section BaseAttentionClaims.

Import nn TargetAttention.

Lemma get3_weights E i j t :
  (i < dim0 E)%nat -> (j < dim1 E)%nat -> (t < dim2 E)%nat ->
  get3 (Steps.weights E) i j t
  = exp (get3 E i j t) / sum_n (dim2 E) (fun t' => exp (get3 E i j t')).
Proof. intros. unfold Steps.weights. now rewrite get3_mk3. Qed.

Lemma get3_scaled_true emb E i j t :
  (i < dim0 E)%nat -> (j < dim1 E)%nat -> (t < dim2 E)%nat ->
  get3 (Steps.scaled true emb E) i j t = get3 E i j t / sqrt (INR emb).
Proof. intros. unfold Steps.scaled. now rewrite get3_mk3. Qed.

(** C1, as stated, fails when the scale flag is set: on
    [Example.scaled_layer] (scale on, embedding_dim 4) and the input
    [[[1, 2]]], the pair returned by [forward] is not the pair of the
    steps without the division.  It fails as well with multihead
    enabled: on [Example.two_head_layer] the keys and values are
    projected and split into heads before the product. *)
Lemma C1_unscaled_steps_refuted :
  Py.fmap snd (forward Example.scaled_layer Example.H_1_1_2)
  <> Ok (Steps.unscaled Example.scaled_layer Example.H_1_1_2)
  /\ Py.fmap snd (forward Example.two_head_layer Example.H_2_8_6)
     <> Ok (Steps.unscaled Example.two_head_layer Example.H_2_8_6).
Proof.
  split.
  - rewrite forward_single_head by (reflexivity || (cbn; lia)).
    cbn [Py.fmap snd]. intro Heq.
    apply (f_equal (fun r => match r with
                             | Ok CA => get3 (snd CA) 0 0 0
                             | Raise _ => 0
                             end)) in Heq.
    unfold Steps.base_attention, Steps.unscaled in Heq. cbn [snd] in Heq.
    change (_scale Example.scaled_layer) with true in Heq.
    change (_embedding_dim Example.scaled_layer) with 4%nat in Heq.
    rewrite !get3_weights in Heq by (cbn; lia).
    change (dim2 (Steps.scaled true 4 ?P)) with 2%nat in Heq.
    change (dim2 (Steps.product_Q_Kt ?q ?k)) with 2%nat in Heq.
    cbn [sum_n seq List.map fold_right] in Heq.
    rewrite !get3_scaled_true in Heq by (cbn; lia).
    rewrite !scaled_layer_energy, sqrt_INR_4 in Heq by lia.
    revert Heq. apply softmax_halved_differs. cbn. lra.
  - rewrite (forward_multi_head Example.two_head_layer Example.H_2_8_6
               (head_projection 8 (fun _ _ => 1))
               (head_projection 8 (fun _ _ => 1))
               (head_projection 8 (fun _ _ => 1)) 2)
      by (reflexivity || (cbn; lia)).
    cbn [Py.fmap snd]. intro Heq.
    apply (f_equal (fun r => match r with
                             | Ok CA => dim0 (snd CA)
                             | Raise _ => 0%nat
                             end)) in Heq.
    discriminate Heq.
Qed.

(** C1 (amended): with multihead disabled, [forward] returns the pair
    [(C, A)] of the four steps: K and V are the per-position linear
    maps of H followed by ELU, sequence axis first; E is [Q . K^T],
    divided entry by entry by [sqrt(embedding_dim)] when the scale flag
    is set; A is the softmax of E along the sequence axis; C is
    [A . V].  Without the flag these are the steps with no division.
    With multihead enabled the same steps run on every head, on the
    keys, values and repeated queries after their projections [W_k],
    [W_v], [W_q] and the split into heads. *)
Theorem C1_forward_follows_base_attention self H :
  wf self = true ->
  dim1 H = _latent_doc_dim self -> (1 <= dim2 H)%nat ->
  (_multihead self = false ->
   Py.fmap snd (forward self H) = Ok (Steps.base_attention self H))
  /\ (_scale self = false ->
      Steps.base_attention self H = Steps.unscaled self H)
  /\ (_multihead self = true ->
      exists Wk Wv Wq h,
        W_k self = Some Wk /\ W_v self = Some Wv /\ W_q self = Some Wq
        /\ _num_heads self = Some h
        /\ Py.fmap snd (forward self H)
           = Ok (Steps.per_head self Wk Wv Wq h H)).
Proof.
  intros Hw Hd Hl.
  destruct (wf_layers self Hw) as [HKi [HKo [HVi [HVo [HQr HQc]]]]].
  split; [ | split ].
  - intro Hm. rewrite forward_single_head by congruence. reflexivity.
  - intro Hs. unfold Steps.base_attention, Steps.unscaled.
    now rewrite Hs.
  - intro Hm.
    destruct (forward_multi_head_wf self H Hw Hm Hd Hl)
      as [Wk [Wv [Wq [h [Ek [Ev [Eq [Eh Hf]]]]]]]].
    exists Wk, Wv, Wq, h. rewrite Hf. repeat split; assumption.
Qed.

Lemma C1_forward_follows_base_attention_witness :
  (_multihead Example.scaled_layer = false ->
   Py.fmap snd (forward Example.scaled_layer Example.H_1_1_2)
   = Ok (Steps.base_attention Example.scaled_layer Example.H_1_1_2))
  /\ (_scale Example.scaled_layer = false ->
      Steps.base_attention Example.scaled_layer Example.H_1_1_2
      = Steps.unscaled Example.scaled_layer Example.H_1_1_2)
  /\ (_multihead Example.scaled_layer = true ->
      exists Wk Wv Wq h,
        W_k Example.scaled_layer = Some Wk
        /\ W_v Example.scaled_layer = Some Wv
        /\ W_q Example.scaled_layer = Some Wq
        /\ _num_heads Example.scaled_layer = Some h
        /\ Py.fmap snd (forward Example.scaled_layer Example.H_1_1_2)
           = Ok (Steps.per_head Example.scaled_layer Wk Wv Wq h
                   Example.H_1_1_2)).
Proof.
  apply (C1_forward_follows_base_attention
           Example.scaled_layer Example.H_1_1_2).
  - reflexivity.
  - reflexivity.
  - cbn. lia.
Defined.

End BaseAttentionClaims.

(* ===================================================================== *)
(** ** Attention weights are distributions *)
(* ===================================================================== *)

Section Weights.

Import nn TargetAttention.

(** On a well-formed module and an input of the configured channel
    size, either branch of [forward] returns, and its [A] is a softmax
    over rows as long as the document. *)
Lemma forward_returns_softmax self H :
  wf self = true ->
  dim1 H = _latent_doc_dim self -> (1 <= dim2 H)%nat ->
  exists st' C E,
    forward self H = Ok (st', (C, softmax E)) /\ dim2 E = dim2 H.
Proof.
  intros Hw Hd Hl.
  destruct (_multihead self) eqn:Hm.
  - destruct (forward_multi_head_wf self H Hw Hm Hd Hl)
      as [Wk [Wv [Wq [h [_ [_ [_ [_ Hf]]]]]]]].
    rewrite Hf. unfold Steps.per_head.
    do 3 eexists. split; [ reflexivity | ].
    destruct (_scale self); reflexivity.
  - destruct (wf_layers self Hw) as [HKi [HKo [HVi [HVo [HQr HQc]]]]].
    rewrite forward_single_head by congruence.
    unfold Steps.base_attention.
    do 3 eexists. split; [ reflexivity | ].
    destruct (_scale self); reflexivity.
Qed.

(** On a well-formed module and an input of the configured channel
    size, either branch of [forward] returns, and its [A] is the softmax
    of energies with one slice per document and head, one row per label
    and one entry per token. *)
Lemma forward_returns_weights self H :
  wf self = true ->
  dim1 H = _latent_doc_dim self -> (1 <= dim2 H)%nat ->
  exists st' C E,
    forward self H = Ok (st', (C, softmax E))
    /\ shape3 E = ((dim0 H * head_count self)%nat, _num_labels self, dim2 H).
Proof.
  intros Hw Hd Hl.
  destruct (wf_layers self Hw) as [HKi [HKo [HVi [HVo [HQr HQc]]]]].
  unfold head_count.
  destruct (_multihead self) eqn:Hm.
  - destruct (forward_multi_head_wf self H Hw Hm Hd Hl)
      as [Wk [Wv [Wq [h [_ [_ [_ [Eh Hf]]]]]]]].
    rewrite Hf, Eh. unfold Steps.per_head.
    do 3 eexists. split; [ reflexivity | ].
    rewrite <- HQr. destruct (_scale self); reflexivity.
  - rewrite forward_single_head by congruence.
    unfold Steps.base_attention.
    do 3 eexists. split; [ reflexivity | ].
    rewrite <- HQr, Nat.mul_1_r. destruct (_scale self); reflexivity.
Qed.

(** In a tensor with all its entries, every index below the shape
    names a slice and a row of it, of the length of the last axis. *)
Lemma wf3_row A i j :
  wf3 A = true -> (i < dim0 A)%nat -> (j < dim1 A)%nat ->
  In (nth i (data3 A) []) (data3 A)
  /\ In (nth j (nth i (data3 A) []) []) (nth i (data3 A) [])
  /\ length (nth j (nth i (data3 A) []) []) = dim2 A.
Proof.
  unfold wf3. intros Hw Hi Hj.
  apply andb_prop in Hw. destruct Hw as [Hl Hm].
  apply Nat.eqb_eq in Hl. rewrite forallb_forall in Hm.
  assert (Hin : In (nth i (data3 A) []) (data3 A)) by (apply nth_In; lia).
  specialize (Hm _ Hin). unfold rows_ok in Hm.
  apply andb_prop in Hm. destruct Hm as [Hr Hc].
  apply Nat.eqb_eq in Hr. rewrite forallb_forall in Hc.
  assert (Hrow : In (nth j (nth i (data3 A) []) []) (nth i (data3 A) []))
    by (apply nth_In; lia).
  split; [ exact Hin | ]. split; [ exact Hrow | ].
  now apply Nat.eqb_eq, Hc.
Qed.

(** C2: for every valid configuration (a module with the layers of the
    constructor, single-head or multi-head with a head count dividing
    latent_doc_dim, embedding_dim >= 1 when the scale flag is set) and
    every input H with latent_doc_dim channels and at least one token,
    [forward] returns an A with one slice per document and head, one
    row per label and one entry per token; at every batch index and
    every label index the row has non-negative entries that sum to 1,
    hence to 1 within 1e-5. *)
Theorem C2_attention_rows_are_distributions self H :
  wf self = true -> scale_defined self = true ->
  dim1 H = _latent_doc_dim self -> (1 <= dim2 H)%nat ->
  exists st' C A,
    forward self H = Ok (st', (C, A))
    /\ wf3 A = true
    /\ shape3 A = ((dim0 H * head_count self)%nat, _num_labels self, dim2 H)
    /\ dim2 A = dim2 H
    /\ rows_are_distributions A
    /\ (forall m row, In m (data3 A) -> In row m ->
        sums_to_one_within_tolerance row)
    /\ (forall i j,
          (i < dim0 H * head_count self)%nat -> (j < _num_labels self)%nat ->
          length (nth j (nth i (data3 A) []) []) = dim2 H
          /\ distribution (nth j (nth i (data3 A) []) [])
          /\ sums_to_one_within_tolerance (nth j (nth i (data3 A) []) [])).
Proof.
  intros Hw _ Hd Hl.
  destruct (forward_returns_weights self H Hw Hd Hl)
    as [st' [C [E [Hf HE]]]].
  unfold shape3 in HE. injection HE as E0 E1 E2.
  assert (HA : rows_are_distributions (softmax E))
    by (apply softmax_rows_are_distributions; lia).
  assert (HwA : wf3 (softmax E) = true) by apply wf3_mk3.
  exists st', C, (softmax E).
  split; [ exact Hf | ].
  split; [ exact HwA | ].
  split; [ unfold shape3, softmax; cbn [mk3 dim0 dim1 dim2]; congruence | ].
  split; [ exact E2 | ].
  split; [ exact HA | ].
  split.
  - intros m row Hm Hrow. apply distribution_within_tolerance.
    exact (HA m row Hm Hrow).
  - intros i j Hi Hj.
    destruct (wf3_row (softmax E) i j HwA) as [Hm [Hrow Hlen]].
    + change (dim0 (softmax E)) with (dim0 E). lia.
    + change (dim1 (softmax E)) with (dim1 E). lia.
    + split; [ rewrite Hlen; exact E2 | ].
      pose proof (HA _ _ Hm Hrow) as Hdist.
      split; [ exact Hdist | now apply distribution_within_tolerance ].
Qed.

Lemma C2_attention_rows_are_distributions_witness :
  exists st' C A,
    forward Example.two_head_layer Example.H_2_8_6 = Ok (st', (C, A))
    /\ wf3 A = true
    /\ shape3 A = ((dim0 Example.H_2_8_6 * head_count Example.two_head_layer)%nat,
                   _num_labels Example.two_head_layer,
                   dim2 Example.H_2_8_6)
    /\ dim2 A = dim2 Example.H_2_8_6
    /\ rows_are_distributions A
    /\ (forall m row, In m (data3 A) -> In row m ->
        sums_to_one_within_tolerance row)
    /\ (forall i j,
          (i < dim0 Example.H_2_8_6 * head_count Example.two_head_layer)%nat ->
          (j < _num_labels Example.two_head_layer)%nat ->
          length (nth j (nth i (data3 A) []) []) = dim2 Example.H_2_8_6
          /\ distribution (nth j (nth i (data3 A) []) [])
          /\ sums_to_one_within_tolerance (nth j (nth i (data3 A) []) [])).
Proof.
  apply (C2_attention_rows_are_distributions
           Example.two_head_layer Example.H_2_8_6).
  - vm_compute. reflexivity.
  - reflexivity.
  - reflexivity.
  - cbn. lia.
Defined.

(** C4: the energies computed with the scale flag are the energies
    computed without it, each entry divided by
    [sqrt(embedding_dim)]; the divisor is the configured embedding
    dimension whatever the channel size of Q and K, in the single-head
    and in the multi-head branch. *)
Theorem C4_scaled_energy_is_unscaled_over_sqrt
    (on off : t) (Qv : tensor2) (Qh Kv : tensor3) :
  _scale on = true -> _scale off = false ->
  _embedding_dim on = _embedding_dim off ->
  energy on Qv Kv
  = (E <- energy off Qv Kv ;;
     Ok (div_scalar E (sqrt (INR (_embedding_dim off)))))
  /\ energy_mh on Qh Kv
     = (E <- energy_mh off Qh Kv ;;
        Ok (div_scalar E (sqrt (INR (_embedding_dim off)))))
  /\ (forall E i j k,
        (i < dim0 E)%nat -> (j < dim1 E)%nat -> (k < dim2 E)%nat ->
        get3 (div_scalar E (sqrt (INR (_embedding_dim off)))) i j k
        = get3 E i j k / sqrt (INR (_embedding_dim off))).
Proof.
  intros Hon Hoff Hemb.
  unfold energy, energy_mh, scale_divisor.
  rewrite Hon, Hoff, Hemb.
  repeat split.
  intros E i j k Hi Hj Hk. now apply get3_div_scalar.
Qed.

Lemma C4_scaled_energy_is_unscaled_over_sqrt_witness :
  energy Example.scaled_layer (Q Example.scaled_layer) Example.H_1_1_2
  = (E <- energy Example.plain_layer (Q Example.scaled_layer)
            Example.H_1_1_2 ;;
     Ok (div_scalar E (sqrt (INR (_embedding_dim Example.plain_layer)))))
  /\ energy_mh Example.scaled_layer Example.H_1_1_2 Example.H_1_1_2
     = (E <- energy_mh Example.plain_layer Example.H_1_1_2
               Example.H_1_1_2 ;;
        Ok (div_scalar E (sqrt (INR (_embedding_dim Example.plain_layer)))))
  /\ (forall E i j k,
        (i < dim0 E)%nat -> (j < dim1 E)%nat -> (k < dim2 E)%nat ->
        get3 (div_scalar E (sqrt (INR (_embedding_dim Example.plain_layer))))
          i j k
        = get3 E i j k / sqrt (INR (_embedding_dim Example.plain_layer))).
Proof.
  apply (C4_scaled_energy_is_unscaled_over_sqrt
           Example.scaled_layer Example.plain_layer).
  - reflexivity.
  - reflexivity.
  - reflexivity.
Defined.

End Weights.

(* ===================================================================== *)
(** ** Round trip through the heads *)
(* ===================================================================== *)

Section HeadRoundTrip.

Import multihead_attention.

(** C6: for every well-formed x of shape [batch, n, d] and every head
    count h > 0 dividing d, the split has shape [batch * h, n, d / h]
    and merging it gives x back, entry for entry;
    [transpose_output] undoes [transpose_qkv]. *)
Theorem C6_merge_split_round_trip x h :
  wf3 x = true -> (0 < h)%nat -> (dim2 x mod h = 0)%nat ->
  merge (split x h) h = x
  /\ shape3 (split x h) = ((dim0 x * h)%nat, dim1 x, (dim2 x / h)%nat)
  /\ (y <- transpose_qkv x (Some h) ;; transpose_output y (Some h)) = Ok x.
Proof.
  intros Hx Hh Hd.
  pose proof (merge_split x h Hx Hh Hd) as Hr.
  split; [ exact Hr | ]. split; [ reflexivity | ].
  rewrite transpose_qkv_ok by assumption. cbn [Py.bind].
  unfold transpose_output.
  destruct (Nat.eqb_spec h 0) as [E | _]; [ lia | ].
  change (dim0 (split x h)) with (dim0 x * h)%nat.
  rewrite Nat.Div0.mod_mul. cbn [Nat.eqb negb orb].
  now rewrite Hr.
Qed.

Lemma C6_merge_split_round_trip_witness :
  merge (split Example.H_1_2_2 2) 2 = Example.H_1_2_2
  /\ shape3 (split Example.H_1_2_2 2)
     = ((dim0 Example.H_1_2_2 * 2)%nat, dim1 Example.H_1_2_2,
        (dim2 Example.H_1_2_2 / 2)%nat)
  /\ (y <- transpose_qkv Example.H_1_2_2 (Some 2%nat) ;;
      transpose_output y (Some 2%nat)) = Ok Example.H_1_2_2.
Proof.
  apply (C6_merge_split_round_trip Example.H_1_2_2 2).
  - reflexivity.
  - lia.
  - reflexivity.
Defined.

End HeadRoundTrip.

(* ===================================================================== *)
(** ** What a forward pass reads and writes *)
(* ===================================================================== *)

Section Frame.

Import nn multihead_attention TargetAttention.

(** Peeling one [bind] off an equation [... = Ok r]. *)
Lemma bind_Ok {A B : Type} (c : result A) (k : A -> result B) (r : B) :
  Py.bind c k = Ok r -> exists a, c = Ok a /\ k a = Ok r.
Proof.
  destruct c as [a | e]; cbn [Py.bind]; intro Hk;
    [ now exists a | discriminate ].
Qed.

Ltac peel H :=
  let a := fresh "a" in
  let Ha := fresh "Ha" in
  apply bind_Ok in H; destruct H as [a [Ha H]].

(** The module after a call is the module before it with the two
    alignment attributes overwritten. *)
Lemma forward_writes_alignment self H st' CA :
  forward self H = Ok (st', CA) ->
  exists Kv Qv, st' = set_alignment self Kv Qv.
Proof.
  unfold forward. intro Hf.
  peel Hf. peel Hf.
  destruct (_multihead self).
  - do 11 peel Hf.
    injection Hf as <- _. eauto.
  - do 2 peel Hf.
    injection Hf as <- _. eauto.
Qed.

Lemma attr_Ok {A : Type} (a : option A) (x : A) :
  attr a = Ok x -> a = Some x.
Proof. destruct a; cbn [attr]; congruence. Qed.

(** What a call that returns leaves in the two alignment attributes:
    the keys and the queries that enter the energy product of this
    call. *)
Lemma forward_records_keys_and_queries self H st' CA :
  forward self H = Ok (st', CA) ->
  exists KH,
    conv1d (K self) H = Ok KH
    /\ ((_multihead self = false
         /\ st' = set_alignment self (permute021 (elu KH))
                    (Rank2 (Q self)))
        \/ (_multihead self = true
            /\ exists Wk Wq Kl Ql Kh Qh,
                 W_k self = Some Wk /\ W_q self = Some Wq
                 /\ linear Wk (permute021 (elu KH)) = Ok Kl
                 /\ transpose_qkv Kl (_num_heads self) = Ok Kh
                 /\ linear Wq
                      (unsqueeze_repeat (Q self)
                         (dim0 (permute021 (elu KH)))) = Ok Ql
                 /\ transpose_qkv Ql (_num_heads self) = Ok Qh
                 /\ st' = set_alignment self Kh (Rank3 Qh))).
Proof.
  unfold forward. intro Hf.
  apply bind_Ok in Hf. destruct Hf as [KH [HK Hf]].
  apply bind_Ok in Hf. destruct Hf as [VH [_ Hf]].
  exists KH. split; [ exact HK | ].
  destruct (_multihead self).
  - right. split; [ reflexivity | ].
    apply bind_Ok in Hf. destruct Hf as [Wk [HWk Hf]].
    apply bind_Ok in Hf. destruct Hf as [Kl [HKl Hf]].
    apply bind_Ok in Hf. destruct Hf as [Kh [HKh Hf]].
    apply bind_Ok in Hf. destruct Hf as [Wv [_ Hf]].
    apply bind_Ok in Hf. destruct Hf as [Vl [_ Hf]].
    apply bind_Ok in Hf. destruct Hf as [Vh [_ Hf]].
    apply bind_Ok in Hf. destruct Hf as [Wq [HWq Hf]].
    apply bind_Ok in Hf. destruct Hf as [Ql [HQl Hf]].
    apply bind_Ok in Hf. destruct Hf as [Qh [HQh Hf]].
    apply bind_Ok in Hf. destruct Hf as [E [_ Hf]].
    apply bind_Ok in Hf. destruct Hf as [C [_ Hf]].
    exists Wk, Wq, Kl, Ql, Kh, Qh.
    apply attr_Ok in HWk, HWq.
    repeat (split; [ assumption | ]). congruence.
  - left. split; [ reflexivity | ].
    apply bind_Ok in Hf. destruct Hf as [E [_ Hf]].
    apply bind_Ok in Hf. destruct Hf as [C [_ Hf]].
    congruence.
Qed.

(** The update of [Q_mat.weight] does not reach what [forward] reads. *)
Lemma forward_ignores_Q_mat self w H :
  forward (update_Q_mat_weight self w) H
  = Py.fmap (fun r => (update_Q_mat_weight (fst r) w, snd r))
      (forward self H).
Proof.
  unfold forward.
  change (K (update_Q_mat_weight self w)) with (K self).
  change (V (update_Q_mat_weight self w)) with (V self).
  change (Q (update_Q_mat_weight self w)) with (Q self).
  change (W_k (update_Q_mat_weight self w)) with (W_k self).
  change (W_v (update_Q_mat_weight self w)) with (W_v self).
  change (W_q (update_Q_mat_weight self w)) with (W_q self).
  change (_multihead (update_Q_mat_weight self w)) with (_multihead self).
  change (_num_heads (update_Q_mat_weight self w)) with (_num_heads self).
  unfold energy, energy_mh, scale_divisor.
  change (_scale (update_Q_mat_weight self w)) with (_scale self).
  change (_embedding_dim (update_Q_mat_weight self w))
    with (_embedding_dim self).
  repeat match goal with
         | |- context [Py.bind ?c _] =>
             lazymatch c with
             | Py.bind _ _ => fail
             | _ => destruct c; cbn [Py.bind Py.fmap]; try reflexivity
             end
         | |- context [if ?b then _ else _] =>
             destruct b; cbn [Py.bind Py.fmap]; try reflexivity
         end.
Qed.

End Frame.

Section FrameClaims.

Import nn multihead_attention TargetAttention.

(** C7 (the code departs from it): overwriting the trainable query
    weights [Q_mat.weight] changes nothing in what [forward] returns,
    and the Q it uses stays the tensor cloned at construction.  On
    [Example.plain_layer] (query weights all 1), after the weights are
    set to 2, the call on [[[1, 2]]] still records the all-ones Q as
    the query it used. *)
Theorem C7_query_update_is_not_read :
  (forall self w H,
      Py.fmap snd (forward (update_Q_mat_weight self w) H)
      = Py.fmap snd (forward self H)
      /\ Q (update_Q_mat_weight self w) = Q self
      /\ weight (Q_mat (update_Q_mat_weight self w)) = w)
  /\ Py.fmap (fun r => (weight (Q_mat (fst r)), Q_alignment (fst r)))
       (forward (update_Q_mat_weight Example.plain_layer Example.twos)
          Example.H_1_1_2)
     = Ok (mk2 1 1 (fun _ _ => 2),
           Some (Rank2 (mk2 1 1 (fun _ _ => 1)))).
Proof.
  split.
  - intros self w H. split; [ | split; reflexivity ].
    rewrite forward_ignores_Q_mat.
    destruct (forward self H) as [[st' CA] | e]; reflexivity.
  - rewrite forward_ignores_Q_mat.
    rewrite forward_single_head by (reflexivity || (cbn; lia)).
    reflexivity.
Qed.

(** C8, as stated, fails: the module after a forward pass is not the
    module before it. *)
Lemma C8_forward_changes_an_attribute :
  Py.fmap fst (forward Example.plain_layer Example.H_1_1_2)
  <> Ok Example.plain_layer.
Proof.
  rewrite forward_single_head by (reflexivity || (cbn; lia)).
  cbn [Py.fmap fst]. intro Heq.
  apply (f_equal (fun r => match r with
                           | Ok s => K_alignment s
                           | Raise _ => None
                           end)) in Heq.
  discriminate Heq.
Qed.

(** C8 (amended): a forward pass that returns leaves every parameter,
    every layer, the tensor Q and every configuration field as they
    were; it overwrites exactly the attributes [K_alignment] and
    [Q_alignment], with the K and the Q computed in this call: with
    multihead disabled, the transposed ELU of the key convolution of H
    and the tensor Q itself; with multihead enabled, these two after
    their projections [W_k], [W_q] and the split into heads. *)
Theorem C8_forward_writes_only_alignment self H st' CA :
  forward self H = Ok (st', CA) ->
  K st' = K self
  /\ V st' = V self
  /\ Q_mat st' = Q_mat self
  /\ Q st' = Q self
  /\ W_k st' = W_k self
  /\ W_v st' = W_v self
  /\ W_q st' = W_q self
  /\ _num_labels st' = _num_labels self
  /\ _embedding_dim st' = _embedding_dim self
  /\ _latent_doc_dim st' = _latent_doc_dim self
  /\ _scale st' = _scale self
  /\ _multihead st' = _multihead self
  /\ _num_heads st' = _num_heads self
  /\ exists KH,
       conv1d (K self) H = Ok KH
       /\ ((_multihead self = false
            /\ K_alignment st' = Some (permute021 (elu KH))
            /\ Q_alignment st' = Some (Rank2 (Q self)))
           \/ (_multihead self = true
               /\ exists Wk Wq Kl Ql Kh Qh,
                    W_k self = Some Wk /\ W_q self = Some Wq
                    /\ linear Wk (permute021 (elu KH)) = Ok Kl
                    /\ transpose_qkv Kl (_num_heads self) = Ok Kh
                    /\ linear Wq
                         (unsqueeze_repeat (Q self)
                            (dim0 (permute021 (elu KH)))) = Ok Ql
                    /\ transpose_qkv Ql (_num_heads self) = Ok Qh
                    /\ K_alignment st' = Some Kh
                    /\ Q_alignment st' = Some (Rank3 Qh))).
Proof.
  intro Hf.
  destruct (forward_records_keys_and_queries self H st' CA Hf)
    as [KH [HK [[Hm ->] | [Hm Hheads]]]].
  2: destruct Hheads
       as [Wk [Wq [Kl [Ql [Kh [Qh [HWk [HWq [HKl [HKh [HQl [HQh ->]]]]]]]]]]]].
  - repeat (split; [ reflexivity | ]).
    exists KH. split; [ exact HK | ]. left. now repeat split.
  - repeat (split; [ reflexivity | ]).
    exists KH. split; [ exact HK | ]. right. split; [ exact Hm | ].
    exists Wk, Wq, Kl, Ql, Kh, Qh. now repeat split.
Qed.

Lemma C8_forward_writes_only_alignment_witness :
  K Example.plain_layer_after = K Example.plain_layer
  /\ V Example.plain_layer_after = V Example.plain_layer
  /\ Q_mat Example.plain_layer_after = Q_mat Example.plain_layer
  /\ Q Example.plain_layer_after = Q Example.plain_layer
  /\ W_k Example.plain_layer_after = W_k Example.plain_layer
  /\ W_v Example.plain_layer_after = W_v Example.plain_layer
  /\ W_q Example.plain_layer_after = W_q Example.plain_layer
  /\ _num_labels Example.plain_layer_after = _num_labels Example.plain_layer
  /\ _embedding_dim Example.plain_layer_after = _embedding_dim Example.plain_layer
  /\ _latent_doc_dim Example.plain_layer_after = _latent_doc_dim Example.plain_layer
  /\ _scale Example.plain_layer_after = _scale Example.plain_layer
  /\ _multihead Example.plain_layer_after = _multihead Example.plain_layer
  /\ _num_heads Example.plain_layer_after = _num_heads Example.plain_layer
  /\ exists KH,
       conv1d (K Example.plain_layer) Example.H_1_1_2 = Ok KH
       /\ ((_multihead Example.plain_layer = false
            /\ K_alignment Example.plain_layer_after = Some (permute021 (elu KH))
            /\ Q_alignment Example.plain_layer_after = Some (Rank2 (Q Example.plain_layer)))
           \/ (_multihead Example.plain_layer = true
               /\ exists Wk Wq Kl Ql Kh Qh,
                    W_k Example.plain_layer = Some Wk /\ W_q Example.plain_layer = Some Wq
                    /\ linear Wk (permute021 (elu KH)) = Ok Kl
                    /\ transpose_qkv Kl (_num_heads Example.plain_layer) = Ok Kh
                    /\ linear Wq
                         (unsqueeze_repeat (Q Example.plain_layer)
                            (dim0 (permute021 (elu KH)))) = Ok Ql
                    /\ transpose_qkv Ql (_num_heads Example.plain_layer) = Ok Qh
                    /\ K_alignment Example.plain_layer_after = Some Kh
                    /\ Q_alignment Example.plain_layer_after = Some (Rank3 Qh))).
Proof.
  apply (C8_forward_writes_only_alignment
           Example.plain_layer Example.H_1_1_2 Example.plain_layer_after
           (Steps.base_attention Example.plain_layer Example.H_1_1_2)).
  apply forward_single_head; reflexivity || (cbn; lia).
Defined.

End FrameClaims.

(* ===================================================================== *)
(** ** The dispatcher *)
(* ===================================================================== *)

Section DispatcherFacts.

Import nn multihead_attention.

Local Open Scope string_scope.

Variable other : Type.
Variable other_init : string -> Attention.args -> result other.
Variable other_forward :
  other -> tensor3 -> option tensor2 -> result (other * (tensor3 * tensor3)).

Local Abbreviation init := (Attention.init other other_init).
Local Abbreviation forward := (Attention.forward other other_forward).

(** The ['target'] branch of [__init__] stops at [.Q.weight]. *)
Lemma init_target_raises a rnd :
  Attention.att_module a = "target" -> init a rnd = Raise AttributeError.
Proof. intro Ht. unfold Attention.init. rewrite Ht. reflexivity. Qed.

(** A name that no branch tests for falls through the whole chain. *)
Lemma init_unrecognized a rnd :
  Attention.recognized (Attention.att_module a) = false ->
  exists mh, init a rnd = Ok (Attention.built other a mh None None).
Proof.
  unfold Attention.recognized. cbn [existsb]. intro Hr.
  repeat (apply orb_false_iff in Hr; destruct Hr as [? Hr]).
  unfold Attention.init.
  repeat match goal with
         | Hb : (_ =? _) = false |- _ => rewrite Hb; clear Hb
         end.
  eexists. reflexivity.
Qed.

(** With multihead disabled the call of the layer is never completed. *)
Lemma forward_single_head_raises (self : Attention.t other) H :
  Attention._multihead other self = false ->
  Attention.layer_matches other self = true ->
  Py.raises (forward self H).
Proof.
  unfold Attention.forward, Attention.layer_matches. intros Hm Hl.
  rewrite Hm.
  destruct (Attention._att_module other self =? "target").
  - destruct (Attention.Q other self) as [q | ];
      cbn [Attention.attr Py.bind]; [ | eexists; reflexivity ].
    destruct (Attention.attention_layer other self) as [[l | o] | ];
      cbn [Attention.attr Attention.local Attention.call_layer Py.bind];
      [ eexists; reflexivity | discriminate | eexists; reflexivity ].
  - cbn [Py.bind].
    destruct (Attention.attention_layer other self) as [l | ];
      cbn [Attention.attr Attention.local Py.bind]; eexists; reflexivity.
Qed.

Lemma forward_unbound_Q (self : Attention.t other) H l :
  Attention._multihead other self = false ->
  Attention._att_module other self <> "target" ->
  Attention.attention_layer other self = Some l ->
  forward self H = Raise UnboundLocalError.
Proof.
  unfold Attention.forward. intros Hm Ht Hl. rewrite Hm, Hl.
  destruct (String.eqb_spec (Attention._att_module other self) "target")
    as [E | _]; [ contradiction | reflexivity ].
Qed.

Lemma forward_unexpected_keyword (self : Attention.t other) H q l :
  Attention._multihead other self = false ->
  Attention._att_module other self = "target" ->
  Attention.Q other self = Some q ->
  Attention.attention_layer other self = Some (Attention.Target l) ->
  forward self H = Raise TypeError.
Proof.
  unfold Attention.forward. intros Hm Ht Hq Hl.
  rewrite Hm, Ht, Hq, Hl. reflexivity.
Qed.

(** Whatever the layer raises, the dispatcher does not return. *)
Lemma forward_layer_raises (self : Attention.t other) H l e :
  Attention.attention_layer other self = Some (Attention.Target l) ->
  TargetAttention.forward l H = Raise e ->
  Py.raises (forward self H).
Proof.
  unfold Attention.forward. intros Hl He. rewrite Hl.
  destruct (Attention._att_module other self =? "target").
  - destruct (Attention.Q other self) as [q | ];
      cbn [Attention.attr Py.bind]; [ | eexists; reflexivity ].
    destruct (Attention._multihead other self);
      cbn [Attention.attr Attention.local Attention.call_layer Py.bind].
    + rewrite He. eexists. reflexivity.
    + eexists. reflexivity.
  - cbn [Py.bind].
    destruct (Attention._multihead other self);
      cbn [Attention.attr Attention.local Attention.call_layer Py.bind].
    + rewrite He. eexists. reflexivity.
    + eexists. reflexivity.
Qed.

End DispatcherFacts.

Section DispatcherClaims.

Import nn multihead_attention.

Local Open Scope string_scope.

(** C3 (the code departs from it): in the scenario num_labels=4,
    embedding_dim=8, latent_doc_dim=8, variant 'target', scale and
    multihead disabled, building the dispatcher raises AttributeError,
    and a dispatcher assembled around the layer raises TypeError on
    [forward(H)]; no pair (C, A) comes back.  The layer itself, called
    on any H of shape (2, 8, 6), returns C of shape (2, 4, 8) and A of
    shape (2, 4, 6) whose rows are distributions. *)
Theorem C3_scenario_raises_in_dispatcher
    (other : Type) (other_init : string -> Attention.args -> result other)
    (other_forward : other -> tensor3 -> option tensor2 ->
                     result (other * (tensor3 * tensor3)))
    (rnd : Attention.draws) (f : nat -> nat -> nat -> R) :
  Attention.init other other_init Example.scenario rnd
  = Raise AttributeError
  /\ (forall l H,
         Attention.forward other other_forward
           (Attention.built other Example.scenario None
              (Some (Attention.Target l))
              (Some (clone (TargetAttention.Q l)))) H
         = Raise TypeError)
  /\ exists st' C A,
       TargetAttention.forward
         (TargetAttention.init 4 8 8 false false None
            (Attention.draw_layer rnd))
         (mk3 2 8 6 f)
       = Ok (st', (C, A))
       /\ shape3 C = (2, 4, 8)%nat /\ shape3 A = (2, 4, 6)%nat
       /\ rows_are_distributions A.
Proof.
  split; [ now apply init_target_raises | ].
  split; [ intros l H; reflexivity | ].
  rewrite forward_single_head by (reflexivity || (cbn; lia)).
  do 3 eexists. split; [ reflexivity | ].
  split; [ reflexivity | ]. split; [ reflexivity | ].
  apply softmax_rows_are_distributions. cbn. lia.
Qed.

(** C5, as stated, fails: with an unknown variant name, multihead
    enabled, num_heads=3 and latent_doc_dim=8, building the dispatcher
    returns a module and raises nothing. *)
Lemma C5_unknown_variant_is_accepted :
  Py.returns
    (Attention.init Empty_set Example.no_other_init
       Example.unknown_variant Example.dispatcher_draws)
  /\ Attention.init Empty_set Example.no_other_init
       Example.unknown_variant Example.dispatcher_draws
     <> Raise (UserError "ConfigurationError").
Proof.
  destruct (init_unrecognized Empty_set Example.no_other_init
              Example.unknown_variant Example.dispatcher_draws)
    as [mh Hi]; [ reflexivity | ].
  rewrite Hi. split; [ eexists; reflexivity | discriminate ].
Qed.

(** C5 (amended): building the dispatcher with a variant name that no
    branch of the constructor tests for raises nothing, whatever
    multihead and num_heads are: the module is built without an
    attention layer.  The one test on the head count is made in [main]
    before the model is built: it raises TypeError exactly when
    multihead is set and num_heads is absent, and does not look at
    divisibility. *)
Theorem C5_no_validation_at_construction
    (other : Type) (other_init : string -> Attention.args -> result other)
    (a : Attention.args) (rnd : Attention.draws) :
  Attention.recognized (Attention.att_module a) = false ->
  (exists mh,
      Attention.init other other_init a rnd
      = Ok (Attention.built other a mh None None))
  /\ (forall mh nh,
         main.check_num_heads mh nh = Raise TypeError
         <-> mh = Some true /\ nh = None)
  /\ (forall mh nh,
         main.check_num_heads mh nh = Ok tt
         \/ main.check_num_heads mh nh = Raise TypeError).
Proof.
  intro Hr. split; [ now apply init_unrecognized | ]. split.
  - intros mh nh. split.
    + destruct mh as [[ | ] | ], nh as [n | ]; cbn; intro Hc;
        try discriminate Hc. now split.
    + intros [-> ->]. reflexivity.
  - intros mh nh.
    destruct mh as [[ | ] | ], nh as [n | ]; cbn; auto.
Qed.

Lemma C5_no_validation_at_construction_witness :
  (exists mh,
      Attention.init Empty_set Example.no_other_init
        Example.unknown_variant Example.dispatcher_draws
      = Ok (Attention.built Empty_set Example.unknown_variant mh None None))
  /\ (forall mh nh,
         main.check_num_heads mh nh = Raise TypeError
         <-> mh = Some true /\ nh = None)
  /\ (forall mh nh,
         main.check_num_heads mh nh = Ok tt
         \/ main.check_num_heads mh nh = Raise TypeError).
Proof.
  apply (C5_no_validation_at_construction Empty_set Example.no_other_init
           Example.unknown_variant Example.dispatcher_draws).
  reflexivity.
Defined.

(** C9, as stated, fails: an input with two channels, given to a layer
    configured for one, raises RuntimeError, not ShapeMismatchError. *)
Lemma C9_wrong_channels_raise_RuntimeError :
  TargetAttention.forward Example.plain_layer Example.H_1_2_2
  = Raise RuntimeError
  /\ TargetAttention.forward Example.plain_layer Example.H_1_2_2
     <> Raise (UserError "ShapeMismatchError").
Proof.
  assert (Hf : TargetAttention.forward Example.plain_layer Example.H_1_2_2
               = Raise RuntimeError).
  { unfold TargetAttention.forward.
    rewrite conv1d_channels by (cbn; lia). reflexivity. }
  rewrite Hf. split; [ reflexivity | discriminate ].
Qed.

(** C9 (amended): for every input H whose channel axis differs from
    the configured latent_doc_dim, [forward(H)] raises at call time,
    and the exception is the RuntimeError of the convolution; no pair
    (C, A) is produced, by the layer or by a dispatcher holding it. *)
Theorem C9_channel_mismatch_raises_at_call_time
    (self : TargetAttention.t) (H : tensor3) :
  in_channels (TargetAttention.K self) = TargetAttention._latent_doc_dim self ->
  dim1 H <> TargetAttention._latent_doc_dim self ->
  TargetAttention.forward self H = Raise RuntimeError
  /\ forall other other_forward (d : Attention.t other),
       Attention.attention_layer other d = Some (Attention.Target self) ->
       Py.raises (Attention.forward other other_forward d H).
Proof.
  intros HK Hd.
  assert (Hf : TargetAttention.forward self H = Raise RuntimeError).
  { unfold TargetAttention.forward.
    rewrite conv1d_channels by congruence. reflexivity. }
  split; [ exact Hf | ].
  intros other other_forward d Hl.
  exact (forward_layer_raises other other_forward d H self _ Hl Hf).
Qed.

Lemma C9_channel_mismatch_raises_at_call_time_witness :
  TargetAttention.forward Example.plain_layer Example.H_1_2_2
  = Raise RuntimeError
  /\ forall other other_forward (d : Attention.t other),
       Attention.attention_layer other d
       = Some (Attention.Target Example.plain_layer) ->
       Py.raises (Attention.forward other other_forward d Example.H_1_2_2).
Proof.
  apply (C9_channel_mismatch_raises_at_call_time
           Example.plain_layer Example.H_1_2_2).
  - reflexivity.
  - cbn. lia.
Defined.

(** C10: with multihead disabled, every call of the dispatcher's
    [forward] raises and returns no pair (C, A).  When the variant is
    not 'target' and a layer is held, the local Q is read before any
    assignment (UnboundLocalError); when it is 'target', the layer is
    called with the keyword Q that its [forward] does not take
    (TypeError). *)
Theorem C10_single_head_dispatch_always_raises
    (other : Type)
    (other_forward : other -> tensor3 -> option tensor2 ->
                     result (other * (tensor3 * tensor3)))
    (self : Attention.t other) (H : tensor3) :
  Attention._multihead other self = false ->
  Attention.layer_matches other self = true ->
  Py.raises (Attention.forward other other_forward self H)
  /\ ~ Py.returns (Attention.forward other other_forward self H)
  /\ (Attention._att_module other self <> "target" ->
      forall l, Attention.attention_layer other self = Some l ->
                Attention.forward other other_forward self H
                = Raise UnboundLocalError)
  /\ (Attention._att_module other self = "target" ->
      forall q l,
        Attention.Q other self = Some q ->
        Attention.attention_layer other self = Some (Attention.Target l) ->
        Attention.forward other other_forward self H = Raise TypeError).
Proof.
  intros Hm Hl.
  pose proof (forward_single_head_raises other other_forward self H Hm Hl)
    as Hr.
  split; [ exact Hr | ]. split.
  - destruct Hr as [e He]. intros [r Hok]. congruence.
  - split.
    + intros Ht l El. now apply (forward_unbound_Q other other_forward self H l).
    + intros Ht q l Eq El.
      now apply (forward_unexpected_keyword other other_forward self H q l).
Qed.

Lemma C10_single_head_dispatch_always_raises_witness :
  Py.raises
    (Attention.forward Empty_set Example.no_other_forward
       (Example.assembled Example.plain_layer) Example.H_1_1_2)
  /\ ~ Py.returns
       (Attention.forward Empty_set Example.no_other_forward
          (Example.assembled Example.plain_layer) Example.H_1_1_2)
  /\ (Attention._att_module Empty_set (Example.assembled Example.plain_layer)
      <> "target" ->
      forall l,
        Attention.attention_layer Empty_set
          (Example.assembled Example.plain_layer) = Some l ->
        Attention.forward Empty_set Example.no_other_forward
          (Example.assembled Example.plain_layer) Example.H_1_1_2
        = Raise UnboundLocalError)
  /\ (Attention._att_module Empty_set (Example.assembled Example.plain_layer)
      = "target" ->
      forall q l,
        Attention.Q Empty_set (Example.assembled Example.plain_layer)
        = Some q ->
        Attention.attention_layer Empty_set
          (Example.assembled Example.plain_layer)
        = Some (Attention.Target l) ->
        Attention.forward Empty_set Example.no_other_forward
          (Example.assembled Example.plain_layer) Example.H_1_1_2
        = Raise TypeError).
Proof.
  apply (C10_single_head_dispatch_always_raises Empty_set
           Example.no_other_forward
           (Example.assembled Example.plain_layer) Example.H_1_1_2).
  - reflexivity.
  - reflexivity.
Defined.

End DispatcherClaims.

(* ===================================================================== *)
(** ** ICD-9 codes: periods and classes *)
(* ===================================================================== *)

Section Codes.

Import Stdlib.Strings.Ascii.
Import utils_preprocess.

Lemma without_periods_id x :
  has_period x = false -> without_periods x = x.
Proof.
  unfold has_period, without_periods.
  induction x as [ | c x IH]; cbn [existsb filter]; [ reflexivity | ].
  intro Hp. apply orb_false_iff in Hp. destruct Hp as [Hc Hx].
  rewrite Hc. cbn [negb]. now rewrite IH.
Qed.

Lemma without_periods_insert k x :
  without_periods (firstn k x ++ period :: skipn k x) = without_periods x.
Proof.
  unfold without_periods.
  rewrite filter_app. cbn [filter]. rewrite Ascii.eqb_refl. cbn [negb].
  rewrite <- filter_app. now rewrite firstn_skipn.
Qed.

Lemma no_period_at x i c :
  has_period x = false -> index x i = Some c -> Ascii.eqb c period = false.
Proof.
  unfold has_period, index. intros Hp Hi.
  apply nth_error_In in Hi.
  destruct (Ascii.eqb c period) eqn:E; [ | reflexivity ].
  apply Ascii.eqb_eq in E. subst c.
  assert (Hex : existsb (Ascii.eqb period) x = true).
  { apply existsb_exists. exists period. split; [ exact Hi | apply Ascii.eqb_refl ]. }
  congruence.
Qed.

Lemma has_period_insert k x :
  has_period (firstn k x ++ period :: skipn k x) = true.
Proof.
  unfold has_period. rewrite existsb_app. cbn [existsb].
  rewrite Ascii.eqb_refl. now rewrite orb_true_r.
Qed.

Lemma index_insert_at k x :
  (k <= length x)%nat ->
  index (firstn k x ++ period :: skipn k x) k = Some period.
Proof.
  intro Hk. unfold index.
  rewrite nth_error_app2 by (rewrite length_firstn; lia).
  rewrite length_firstn.
  replace (k - Nat.min k (length x))%nat with 0%nat by lia.
  reflexivity.
Qed.

Lemma index_insert_before k x i :
  (i < k)%nat -> (k <= length x)%nat ->
  index (firstn k x ++ period :: skipn k x) i = index x i.
Proof.
  intros Hi Hk. unfold index.
  rewrite nth_error_app1 by (rewrite length_firstn; lia).
  now rewrite nth_error_firstn, (proj2 (Nat.ltb_lt i k) Hi).
Qed.

Lemma index_some x i : (i < length x)%nat -> exists c, index x i = Some c.
Proof.
  intro Hi. unfold index.
  destruct (nth_error x i) as [c | ] eqn:E; [ now exists c | ].
  apply nth_error_None in E. lia.
Qed.

(** One pass of the loop under [code=True], on one code. *)
Lemma sort_codes_step x rest p d :
  sort_codes (x :: rest) p d =
  if period_too_early x then None
  else sort_codes rest
         (if procedure_shape x then p ++ [x] else p)
         (if diagnosis_shape x then d ++ [x] else d).
Proof.
  unfold period_too_early, procedure_shape, diagnosis_shape.
  cbn [sort_codes].
  destruct (has_period x) eqn:Hp; cbn [andb].
  - destruct x as [ | a [ | b [ | c2 [ | c3 [ | c4 x']]]]];
      cbn [index nth_error length skipn Nat.leb andb negb has_period existsb orb
           Nat.eqb].
    + discriminate Hp.
    + reflexivity.
    + reflexivity.
    + rewrite (Ascii.eqb_sym period c2).
      destruct (Ascii.eqb c2 period); reflexivity.
    + rewrite (Ascii.eqb_sym period c2), (Ascii.eqb_sym period c3).
      destruct (Ascii.eqb c2 period); [ reflexivity | ].
      destruct (Ascii.eqb c3 period); reflexivity.
    + destruct (Ascii.eqb c2 period); [ reflexivity | ].
      destruct (Ascii.eqb c3 period); [ reflexivity | ].
      destruct (Ascii.eqb c4 period); reflexivity.
  - destruct (length x =? 2)%nat eqn:E2.
    + apply Nat.eqb_eq in E2. rewrite E2. reflexivity.
    + destruct ((length x =? 3)%nat || (length x =? 4)%nat); reflexivity.
Qed.

Lemma sort_codes_spec l p d :
  sort_codes l p d =
  if existsb period_too_early l then None
  else Some [p ++ filter procedure_shape l; d ++ filter diagnosis_shape l].
Proof.
  revert p d. induction l as [ | x l IH]; intros p d.
  - cbn. now rewrite !app_nil_r.
  - rewrite sort_codes_step. cbn [existsb filter].
    destruct (period_too_early x); cbn [orb]; [ reflexivity | ].
    rewrite IH. destruct (existsb period_too_early l); [ reflexivity | ].
    destruct (procedure_shape x), (diagnosis_shape x);
      now rewrite <- ?app_assoc.
Qed.

Lemma sort_categories_spec l p d :
  sort_categories l p d =
  Some [p ++ filter (fun x => (length x =? 2)%nat) l;
        d ++ filter (fun x => (length x =? 3)%nat || (length x =? 4)%nat) l].
Proof.
  revert p d. induction l as [ | x l IH]; intros p d.
  - cbn. now rewrite !app_nil_r.
  - cbn [sort_categories filter].
    destruct (length x =? 2)%nat eqn:E2.
    + apply Nat.eqb_eq in E2. rewrite IH, E2. cbn.
      now rewrite <- app_assoc.
    + destruct ((length x =? 3)%nat || (length x =? 4)%nat);
        rewrite IH; now rewrite <- ?app_assoc.
Qed.

Lemma shapes_exclusive x :
  procedure_shape x = true -> diagnosis_shape x = false.
Proof.
  unfold procedure_shape, diagnosis_shape.
  destruct (has_period x).
  - destruct (index x 2) as [c2 | ]; [ | discriminate ].
    intros ->. reflexivity.
  - intro E. apply Nat.eqb_eq in E. now rewrite E.
Qed.

End Codes.

Section CodeProperties.

Import Stdlib.Strings.Ascii.
Import utils_preprocess.

Lemma Some_eq {A : Type} (a b : A) : Some a = Some b -> a = b.
Proof. congruence. Qed.

Lemma shape_not_too_early x :
  procedure_shape x || diagnosis_shape x = true -> period_too_early x = false.
Proof.
  unfold period_too_early, procedure_shape, diagnosis_shape.
  destruct (has_period x) eqn:Hp; cbn [andb]; [ | reflexivity ].
  destruct x as [ | a [ | b [ | c2 [ | c3 [ | c4 x']]]]];
    cbn [index nth_error length skipn Nat.leb andb negb has_period existsb orb];
    try discriminate; try reflexivity.
  - rewrite (Ascii.eqb_sym period c2).
    destruct (Ascii.eqb c2 period); cbn; [ reflexivity | discriminate ].
  - rewrite (Ascii.eqb_sym period c2), (Ascii.eqb_sym period c3).
    destruct (Ascii.eqb c2 period); cbn; [ reflexivity | ].
    destruct (Ascii.eqb c3 period); cbn; [ reflexivity | discriminate ].
Qed.

Lemma rel2abs_procedure_shape x y :
  has_period x = false -> (2 <= length x)%nat ->
  rel2abs x true = Some y -> procedure_shape y = true.
Proof.
  intros Hp Hl. unfold rel2abs.
  destruct (Nat.eqb_spec (length x) 2) as [E | E]; intro Hy;
    apply Some_eq in Hy; subst y; unfold procedure_shape.
  - now rewrite Hp, E.
  - rewrite has_period_insert, index_insert_at by lia.
    apply Ascii.eqb_refl.
Qed.

Lemma rel2abs_diagnosis_shape x y :
  has_period x = false -> (3 <= length x)%nat ->
  rel2abs x false = Some y -> diagnosis_shape y = true.
Proof.
  intros Hp Hl. unfold rel2abs.
  destruct (Nat.eqb_spec (length x) 3) as [E | E].
  - intro Hy. apply Some_eq in Hy; subst y. unfold diagnosis_shape.
    now rewrite Hp, E.
  - destruct (index_some x 0) as [c0 Hc0]; [ lia | ]. rewrite Hc0.
    destruct (index_some x 2) as [c2 Hc2]; [ lia | ].
    destruct (index_some x 3) as [c3 Hc3]; [ lia | ].
    pose proof (no_period_at x 2 c2 Hp Hc2) as N2.
    pose proof (no_period_at x 3 c3 Hp Hc3) as N3.
    destruct (Ascii.eqb c0 "E"); intro Hy; apply Some_eq in Hy; subst y;
      unfold diagnosis_shape; rewrite has_period_insert.
    + rewrite (index_insert_before 4 x 2), (index_insert_before 4 x 3),
        (index_insert_at 4 x) by lia.
      rewrite Hc2, Hc3, N2, N3, Ascii.eqb_refl. reflexivity.
    + rewrite (index_insert_before 3 x 2), (index_insert_at 3 x) by lia.
      rewrite Hc2, N2, Ascii.eqb_refl. reflexivity.
Qed.

Lemma filter_all {A : Type} (f : A -> bool) (l : list A) :
  Forall (fun x => f x = true) l -> filter f l = l.
Proof.
  intro Hf. apply forallb_filter_id. now apply forallb_forall, Forall_forall.
Qed.

Lemma filter_none {A : Type} (f : A -> bool) (l : list A) :
  Forall (fun x => f x = false) l -> filter f l = [].
Proof.
  induction 1 as [ | x l Hx _ IH]; cbn [filter]; [ reflexivity | ].
  now rewrite Hx.
Qed.

Lemma existsb_none {A : Type} (f : A -> bool) (l : list A) :
  Forall (fun x => f x = false) l -> existsb f l = false.
Proof.
  induction 1 as [ | x l Hx _ IH]; cbn [existsb]; [ reflexivity | ].
  now rewrite Hx, IH.
Qed.

(** [rel2abs] raises, and then IndexError, only on the empty string
    taken as a diagnosis code; on every other input it returns. *)
Theorem rel2abs_raises_only_on_empty_diagnosis x flag_proc :
  rel2abs x flag_proc = None <-> flag_proc = false /\ x = [].
Proof.
  unfold rel2abs. split.
  - destruct flag_proc.
    + destruct (length x =? 2)%nat; discriminate.
    + destruct (length x =? 3)%nat; [ discriminate | ].
      destruct x as [ | c x]; cbn [index nth_error]; [ now split | ].
      destruct (Ascii.eqb c "E"); discriminate.
  - intros [-> ->]. reflexivity.
Qed.

(** On a code without a period, [rel2abs] only inserts one: deleting
    the periods of the result gives the code back, and the result is the
    code itself exactly for the two-character procedure codes and the
    three-character diagnosis codes. *)
Theorem rel2abs_only_inserts_a_period x flag_proc y :
  has_period x = false -> rel2abs x flag_proc = Some y ->
  without_periods y = x
  /\ (y = x <-> length x = if flag_proc then 2%nat else 3%nat)
  /\ (y <> x -> length y = S (length x) /\ has_period y = true).
Proof.
  intros Hp Hy.
  assert (Hins : forall k, y = firstn k x ++ period :: skipn k x ->
                           without_periods y = x /\ y <> x
                           /\ length y = S (length x)
                           /\ has_period y = true).
  { intros k ->. split; [ | split; [ | split ]].
    - rewrite without_periods_insert. now apply without_periods_id.
    - intro E. pose proof (has_period_insert k x) as Hi.
      rewrite E in Hi. congruence.
    - rewrite length_app. cbn [length].
      rewrite length_firstn, length_skipn. lia.
    - apply has_period_insert. }
  unfold rel2abs in Hy. destruct flag_proc.
  - destruct (Nat.eqb_spec (length x) 2) as [E | E]; apply Some_eq in Hy; subst y.
    + split; [ now apply without_periods_id | ]. split; [ tauto | congruence ].
    + destruct (Hins 2%nat eq_refl) as [H1 [H2 [H3 H4]]].
      split; [ exact H1 | ]. split; [ split; intro; contradiction | now split ].
  - destruct (Nat.eqb_spec (length x) 3) as [E | E].
    + apply Some_eq in Hy; subst y.
      split; [ now apply without_periods_id | ]. split; [ tauto | congruence ].
    + destruct (index x 0) as [c | ]; [ | discriminate ].
      destruct (Ascii.eqb c "E"); apply Some_eq in Hy; subst y.
      * destruct (Hins 4%nat eq_refl) as [H1 [H2 [H3 H4]]].
        split; [ exact H1 | ].
        split; [ split; intro; contradiction | now split ].
      * destruct (Hins 3%nat eq_refl) as [H1 [H2 [H3 H4]]].
        split; [ exact H1 | ].
        split; [ split; intro; contradiction | now split ].
Qed.

Lemma rel2abs_only_inserts_a_period_witness :
  without_periods ["4"; "0"; "1"; "."; "9"]%char = ["4"; "0"; "1"; "9"]%char
  /\ (["4"; "0"; "1"; "."; "9"]%char = ["4"; "0"; "1"; "9"]%char
      <-> length ["4"; "0"; "1"; "9"]%char = if false then 2%nat else 3%nat)
  /\ (["4"; "0"; "1"; "."; "9"]%char <> ["4"; "0"; "1"; "9"]%char ->
      length ["4"; "0"; "1"; "."; "9"]%char
      = S (length ["4"; "0"; "1"; "9"]%char)
      /\ has_period ["4"; "0"; "1"; "."; "9"]%char = true).
Proof.
  apply (rel2abs_only_inserts_a_period
           ["4"; "0"; "1"; "9"]%char false ["4"; "0"; "1"; "."; "9"]%char).
  - reflexivity.
  - reflexivity.
Defined.

(** [get_class_type] under [code=False] never raises: it returns the
    entries of two characters, and the entries of three or four, each
    list in the order of the input; entries of any other length are
    dropped. *)
Theorem get_class_type_categories_by_length classes_list :
  get_class_type classes_list false
  = Some [filter (fun x => (length x =? 2)%nat) classes_list;
          filter (fun x => (length x =? 3)%nat || (length x =? 4)%nat)
            classes_list].
Proof.
  unfold get_class_type. now rewrite sort_categories_spec.
Qed.

(** [get_class_type] under [code=True] raises IndexError exactly when
    some code of at most four characters has its periods only among its
    first two characters.  Otherwise it returns the codes of procedure
    shape and the codes of diagnosis shape, each list in the order of
    the input, and no code can be of both shapes. *)
Theorem get_class_type_codes_by_shape classes_list :
  get_class_type classes_list true
  = (if existsb period_too_early classes_list then None
     else Some [filter procedure_shape classes_list;
                filter diagnosis_shape classes_list])
  /\ forall x, procedure_shape x && diagnosis_shape x = false.
Proof.
  split.
  - unfold get_class_type. now rewrite sort_codes_spec.
  - intro x. destruct (procedure_shape x) eqn:E; [ | reflexivity ].
    cbn [andb]. now apply shapes_exclusive.
Qed.

(** On codes without periods the flag [code] makes no difference. *)
Theorem get_class_type_flag_irrelevant_without_periods classes_list :
  Forall (fun x => has_period x = false) classes_list ->
  get_class_type classes_list true = get_class_type classes_list false.
Proof.
  intro Hp. unfold get_class_type.
  rewrite sort_codes_spec, sort_categories_spec.
  rewrite existsb_none.
  - f_equal. f_equal; [ | f_equal ]; f_equal; apply filter_ext_in;
      intros x Hx; rewrite Forall_forall in Hp;
      unfold procedure_shape, diagnosis_shape; now rewrite (Hp x Hx).
  - apply Forall_forall. intros x Hx. rewrite Forall_forall in Hp.
    unfold period_too_early. now rewrite (Hp x Hx).
Qed.

Lemma get_class_type_flag_irrelevant_without_periods_witness :
  get_class_type [["3"; "8"]%char; ["4"; "0"; "1"]%char] true
  = get_class_type [["3"; "8"]%char; ["4"; "0"; "1"]%char] false.
Proof.
  apply (get_class_type_flag_irrelevant_without_periods
           [["3"; "8"]%char; ["4"; "0"; "1"]%char]).
  repeat constructor.
Defined.

(** Codes made absolute by [rel2abs] are told apart again by
    [get_class_type]: procedure codes of at least two characters and
    diagnosis codes of at least three, none with a period, come back in
    the procedure list and in the diagnosis list, and nothing raises. *)
Theorem rel2abs_then_get_class_type procs diags abs_procs abs_diags :
  Forall (fun x => has_period x = false /\ (2 <= length x)%nat) procs ->
  Forall (fun x => has_period x = false /\ (3 <= length x)%nat) diags ->
  Forall2 (fun x y => rel2abs x true = Some y) procs abs_procs ->
  Forall2 (fun x y => rel2abs x false = Some y) diags abs_diags ->
  get_class_type (abs_procs ++ abs_diags) true = Some [abs_procs; abs_diags].
Proof.
  intros Hp Hd Fp Fd.
  assert (Sp : Forall (fun y => procedure_shape y = true) abs_procs).
  { clear Hd Fd. induction Fp as [ | x y ps ys Hxy _ IH]; constructor.
    - inversion Hp as [ | ? ? [Hx Hl] _]; subst.
      now apply (rel2abs_procedure_shape x y).
    - apply IH. now inversion Hp. }
  assert (Sd : Forall (fun y => diagnosis_shape y = true) abs_diags).
  { clear Hp Fp Sp. induction Fd as [ | x y ds ys Hxy _ IH]; constructor.
    - inversion Hd as [ | ? ? [Hx Hl] _]; subst.
      now apply (rel2abs_diagnosis_shape x y).
    - apply IH. now inversion Hd. }
  assert (Np : Forall (fun y => diagnosis_shape y = false) abs_procs).
  { eapply Forall_impl; [ | exact Sp ]. intros y. apply shapes_exclusive. }
  assert (Nd : Forall (fun y => procedure_shape y = false) abs_diags).
  { eapply Forall_impl; [ | exact Sd ]. intros y Hy.
    destruct (procedure_shape y) eqn:E; [ | reflexivity ].
    apply shapes_exclusive in E. congruence. }
  unfold get_class_type. rewrite sort_codes_spec.
  rewrite existsb_none.
  - cbn [app]. rewrite !filter_app.
    rewrite (filter_all _ _ Sp), (filter_none _ _ Nd).
    rewrite (filter_none _ _ Np), (filter_all _ _ Sd).
    now rewrite app_nil_r.
  - apply Forall_app. split.
    + eapply Forall_impl; [ | exact Sp ]. intros y Hy.
      apply shape_not_too_early. now rewrite Hy.
    + eapply Forall_impl; [ | exact Sd ]. intros y Hy.
      apply shape_not_too_early. rewrite Hy. apply orb_true_r.
Qed.

Lemma rel2abs_then_get_class_type_witness :
  get_class_type
    ([["3"; "8"; "."; "9"; "3"]%char]
     ++ [["4"; "0"; "1"; "."; "9"]%char; ["E"; "8"; "4"; "9"; "."; "0"]%char])
    true
  = Some [[["3"; "8"; "."; "9"; "3"]%char];
          [["4"; "0"; "1"; "."; "9"]%char;
           ["E"; "8"; "4"; "9"; "."; "0"]%char]].
Proof.
  apply (rel2abs_then_get_class_type
           [["3"; "8"; "9"; "3"]%char]
           [["4"; "0"; "1"; "9"]%char; ["E"; "8"; "4"; "9"; "0"]%char]).
  - repeat constructor.
  - repeat constructor.
  - repeat constructor.
  - repeat constructor.
Defined.

End CodeProperties.

(* ===================================================================== *)
(** ** More on the forward pass of target attention *)
(* ===================================================================== *)

Section ForwardProperties.

Import nn multihead_attention TargetAttention.

Lemma wf_head_projection d w :
  wf_opt d (Some (head_projection d w)) = true.
Proof.
  unfold wf_opt, head_projection, wf_Linear, filled_bias.
  cbn [weight bias in_features out_features].
  rewrite wf2_mk2, length_mk_row. cbn [mk2 rows2 cols2].
  now rewrite !Nat.eqb_refl.
Qed.

Lemma wf_init n e d s mh nh rnd :
  (mh = true -> exists h, nh = Some h /\ (0 < h)%nat /\ (d mod h = 0)%nat) ->
  wf (init n e d s mh nh rnd) = true.
Proof.
  intro Hh. unfold wf, init, wf_Conv1d, filled_bias.
  cbn [K V Q Q_mat W_k W_v W_q _latent_doc_dim _num_labels _multihead
       _num_heads in_channels out_channels weight conv_weight conv_bias].
  unfold clone. rewrite !length_mk_row.
  change (wf2 (T2 (rows2 (mk2 n d (draw_Q_mat_weight rnd)))
                  (cols2 (mk2 n d (draw_Q_mat_weight rnd)))
                  (data2 (mk2 n d (draw_Q_mat_weight rnd)))))
    with (wf2 (mk2 n d (draw_Q_mat_weight rnd))).
  rewrite !wf2_mk2. cbn [mk2 rows2 cols2]. rewrite !Nat.eqb_refl.
  cbn [andb].
  destruct mh; [ | reflexivity ].
  destruct (Hh eq_refl) as [h [-> [Hpos Hdiv]]].
  rewrite !wf_head_projection, Hdiv. cbn [andb].
  destruct (Nat.eqb_spec h 0) as [E | _]; [ lia | reflexivity ].
Qed.

(** The alignment attributes are written, never read. *)
Lemma forward_set_alignment self Kv Qv H :
  forward (set_alignment self Kv Qv) H = forward self H.
Proof.
  unfold forward.
  change (K (set_alignment self Kv Qv)) with (K self).
  change (V (set_alignment self Kv Qv)) with (V self).
  change (Q (set_alignment self Kv Qv)) with (Q self).
  change (W_k (set_alignment self Kv Qv)) with (W_k self).
  change (W_v (set_alignment self Kv Qv)) with (W_v self).
  change (W_q (set_alignment self Kv Qv)) with (W_q self).
  change (_multihead (set_alignment self Kv Qv)) with (_multihead self).
  change (_num_heads (set_alignment self Kv Qv)) with (_num_heads self).
  unfold energy, energy_mh, scale_divisor.
  change (_scale (set_alignment self Kv Qv)) with (_scale self).
  change (_embedding_dim (set_alignment self Kv Qv))
    with (_embedding_dim self).
  repeat match goal with
         | |- context [Py.bind ?c _] =>
             lazymatch c with
             | Py.bind _ _ => fail
             | _ => destruct c; cbn [Py.bind]; try reflexivity
             end
         | |- context [if ?b then _ else _] =>
             destruct b; cbn [Py.bind]; try reflexivity
         end.
Qed.

(** A call of [forward] does not change what later calls return: after
    a call that returned, the module answers every input as it did
    before, and the same input with the same pair and the same module. *)
Theorem forward_is_repeatable self H st' CA :
  forward self H = Ok (st', CA) ->
  forward st' H = Ok (st', CA)
  /\ forall H2, forward st' H2 = forward self H2.
Proof.
  intro Hf.
  destruct (forward_writes_alignment self H st' CA Hf) as [Kv [Qv ->]].
  split; [ | intro H2; apply forward_set_alignment ].
  now rewrite forward_set_alignment.
Qed.

Lemma forward_is_repeatable_witness :
  forward Example.plain_layer_after Example.H_1_1_2
  = Ok (Example.plain_layer_after,
        Steps.base_attention Example.plain_layer Example.H_1_1_2)
  /\ forall H2,
       forward Example.plain_layer_after H2 = forward Example.plain_layer H2.
Proof.
  apply (forward_is_repeatable Example.plain_layer Example.H_1_1_2).
  apply forward_single_head; reflexivity || (cbn; lia).
Defined.

(** A module as the constructor leaves it, with multihead disabled,
    called on H of shape [batch, latent_doc_dim, l] with l >= 1,
    returns C of shape [batch, num_labels, latent_doc_dim] and A of
    shape [batch, num_labels, l], both with all their entries. *)
Theorem forward_shapes_single_head n e d s nh rnd H :
  dim1 H = d -> (1 <= dim2 H)%nat ->
  exists st' C A,
    forward (init n e d s false nh rnd) H = Ok (st', (C, A))
    /\ shape3 C = (dim0 H, n, d) /\ shape3 A = (dim0 H, n, dim2 H)
    /\ wf3 C = true /\ wf3 A = true.
Proof.
  intros Hd Hl. subst d.
  rewrite forward_single_head by (reflexivity || assumption).
  unfold Steps.base_attention.
  do 3 eexists. split; [ reflexivity | ].
  cbn [_scale init].
  destruct s; repeat split; apply wf3_mk3.
Qed.

Lemma forward_shapes_single_head_witness :
  exists st' C A,
    forward (init 4 8 8 false false None Example.ones) Example.H_2_8_6
    = Ok (st', (C, A))
    /\ shape3 C = (dim0 Example.H_2_8_6, 4, 8)%nat
    /\ shape3 A = (dim0 Example.H_2_8_6, 4, dim2 Example.H_2_8_6)%nat
    /\ wf3 C = true /\ wf3 A = true.
Proof.
  apply (forward_shapes_single_head 4 8 8 false None Example.ones
           Example.H_2_8_6).
  - reflexivity.
  - cbn. lia.
Defined.

(** With multihead enabled and a head count h > 0 that divides
    latent_doc_dim, the module returns one result per document and
    head: C of shape [batch * h, num_labels, latent_doc_dim / h] and A
    of shape [batch * h, num_labels, l]. *)
Theorem forward_shapes_multi_head n e d s h rnd H :
  (0 < h)%nat -> (d mod h = 0)%nat ->
  dim1 H = d -> (1 <= dim2 H)%nat ->
  exists st' C A,
    forward (init n e d s true (Some h) rnd) H = Ok (st', (C, A))
    /\ shape3 C = ((dim0 H * h)%nat, n, (d / h)%nat)
    /\ shape3 A = ((dim0 H * h)%nat, n, dim2 H)
    /\ wf3 C = true /\ wf3 A = true.
Proof.
  intros Hh Hdiv Hd Hl. subst d.
  rewrite (forward_multi_head (init n e (dim1 H) s true (Some h) rnd) H
             (head_projection (dim1 H) (draw_W_k_weight rnd))
             (head_projection (dim1 H) (draw_W_v_weight rnd))
             (head_projection (dim1 H) (draw_W_q_weight rnd)) h)
    by (reflexivity || assumption).
  unfold Steps.per_head.
  do 3 eexists. split; [ reflexivity | ].
  cbn [_scale init].
  destruct s; repeat split; apply wf3_mk3.
Qed.

Lemma forward_shapes_multi_head_witness :
  exists st' C A,
    forward (init 4 8 8 false true (Some 2%nat) Example.ones) Example.H_2_8_6
    = Ok (st', (C, A))
    /\ shape3 C = ((dim0 Example.H_2_8_6 * 2)%nat, 4%nat, (8 / 2)%nat)
    /\ shape3 A = ((dim0 Example.H_2_8_6 * 2)%nat, 4%nat,
                   dim2 Example.H_2_8_6)
    /\ wf3 C = true /\ wf3 A = true.
Proof.
  apply (forward_shapes_multi_head 4 8 8 false 2 Example.ones
           Example.H_2_8_6).
  - lia.
  - reflexivity.
  - reflexivity.
  - cbn. lia.
Defined.

(** A document without tokens is refused: whatever the module, an input
    whose sequence axis is empty raises RuntimeError, in the first
    convolution. *)
Theorem forward_refuses_empty_documents self H :
  dim2 H = 0%nat -> forward self H = Raise RuntimeError.
Proof.
  intro Hl. unfold forward, conv1d. rewrite Hl.
  destruct (negb (dim1 H =? in_channels (K self))%nat); reflexivity.
Qed.

Lemma forward_refuses_empty_documents_witness :
  forward Example.plain_layer (T3 1 1 0 [[[]]]) = Raise RuntimeError.
Proof.
  apply (forward_refuses_empty_documents Example.plain_layer (T3 1 1 0 [[[]]])).
  reflexivity.
Defined.

End ForwardProperties.

(* ===================================================================== *)
(** ** Documents of a batch do not influence each other *)
(* ===================================================================== *)

Section Documents.

Import nn TargetAttention.

Lemma slice_mk3 b r c f i :
  (i < b)%nat -> nth i (data3 (mk3 b r c f)) [] = mk_rows r c (f i).
Proof.
  intro Hi. unfold mk3. cbn [data3].
  now rewrite (nth_map_seq (fun i0 => mk_rows r c (f i0))).
Qed.

Lemma same_document_mk3 i b b' r c f g :
  (i < b)%nat -> (i < b')%nat ->
  (forall j k, (j < r)%nat -> (k < c)%nat -> f i j k = g i j k) ->
  same_document i (mk3 b r c f) (mk3 b' r c g).
Proof.
  intros Hi Hi' E. unfold same_document. cbn [mk3 dim0 dim1 dim2].
  repeat split; try assumption.
  intros j k Hj Hk.
  fold (mk3 b r c f). fold (mk3 b' r c g).
  rewrite !get3_mk3 by assumption. now apply E.
Qed.

Lemma wf3_slice X i :
  wf3 X = true -> (i < dim0 X)%nat ->
  rows_ok (dim1 X) (dim2 X) (nth i (data3 X) []) = true.
Proof.
  unfold wf3. intros Hw Hi. apply andb_prop in Hw. destruct Hw as [Hl Hr].
  apply Nat.eqb_eq in Hl. rewrite forallb_forall in Hr.
  apply Hr, nth_In. lia.
Qed.

Lemma same_document_slice i X Y :
  wf3 X = true -> wf3 Y = true ->
  same_document i X Y ->
  nth i (data3 X) [] = nth i (data3 Y) [].
Proof.
  intros HX HY [Hi [Hi' [D1 [D2 E]]]].
  rewrite <- (rows_ok_eta _ _ _ (wf3_slice X i HX Hi)).
  rewrite <- (rows_ok_eta _ _ _ (wf3_slice Y i HY Hi')).
  rewrite <- D1, <- D2.
  apply mk_rows_ext. intros j k Hj Hk. now apply E.
Qed.

Lemma same_document_projection m i H1 H2 :
  in_channels m = dim1 H1 ->
  same_document i H1 H2 ->
  same_document i (Steps.positional_projection m H1)
    (Steps.positional_projection m H2).
Proof.
  intros Hc [Hi [Hi' [E1 [E2 E]]]].
  unfold Steps.positional_projection. rewrite <- E2.
  apply same_document_mk3; try assumption.
  intros t o Ht Ho. f_equal. f_equal.
  apply sum_n_ext. intros c Hcc. f_equal. apply E; [ lia | exact Ht ].
Qed.

Lemma same_document_product Qv i K1 K2 :
  cols2 Qv = dim2 K1 ->
  same_document i K1 K2 ->
  same_document i (Steps.product_Q_Kt Qv K1) (Steps.product_Q_Kt Qv K2).
Proof.
  intros Hc [Hi [Hi' [E1 [E2 E]]]].
  unfold Steps.product_Q_Kt. rewrite <- E1.
  apply same_document_mk3; try assumption.
  intros j t Hj Ht. apply sum_n_ext. intros c Hcc.
  f_equal. apply E; [ exact Ht | lia ].
Qed.

Lemma same_document_scaled flag emb i E1 E2 :
  same_document i E1 E2 ->
  same_document i (Steps.scaled flag emb E1) (Steps.scaled flag emb E2).
Proof.
  intro HE. destruct flag; [ | exact HE ].
  destruct HE as [Hi [Hi' [D1 [D2 E]]]].
  unfold Steps.scaled. rewrite <- D1, <- D2.
  apply same_document_mk3; try assumption.
  intros j t Hj Ht. f_equal. now apply E.
Qed.

Lemma same_document_weights i E1 E2 :
  same_document i E1 E2 ->
  same_document i (Steps.weights E1) (Steps.weights E2).
Proof.
  intros [Hi [Hi' [D1 [D2 E]]]].
  unfold Steps.weights. rewrite <- D1, <- D2.
  apply same_document_mk3; try assumption.
  intros j t Hj Ht. f_equal.
  - f_equal. now apply E.
  - apply sum_n_ext. intros t' Ht'. f_equal. now apply E.
Qed.

Lemma same_document_context i A1 A2 V1 V2 :
  dim2 A1 = dim1 V1 ->
  same_document i A1 A2 -> same_document i V1 V2 ->
  same_document i (Steps.product_A_V A1 V1) (Steps.product_A_V A2 V2).
Proof.
  intros Hc [Hi [Hi' [D1 [D2 EA]]]] [_ [_ [F1 [F2 EV]]]].
  unfold Steps.product_A_V. rewrite <- D1, <- D2, <- F2.
  apply same_document_mk3; try assumption.
  intros j c Hj Hcc. apply sum_n_ext. intros t Ht.
  f_equal; [ now apply EA | apply EV; [ lia | exact Hcc ] ].
Qed.

(** With multihead disabled, what [forward] returns for a document
    depends on that document only: if two batches, of any sizes, hold
    the same document at index [i], the slices of A and of C at [i] are
    the same. *)
Theorem forward_keeps_documents_apart self H1 H2 i :
  wf self = true -> _multihead self = false ->
  dim1 H1 = _latent_doc_dim self -> (1 <= dim2 H1)%nat ->
  same_document i H1 H2 ->
  exists st1 C1 A1 st2 C2 A2,
    forward self H1 = Ok (st1, (C1, A1))
    /\ forward self H2 = Ok (st2, (C2, A2))
    /\ nth i (data3 A1) [] = nth i (data3 A2) []
    /\ nth i (data3 C1) [] = nth i (data3 C2) [].
Proof.
  intros Hw Hm Hd Hl HH.
  destruct (wf_layers self Hw) as [HKi [HKo [HVi [HVo [HQr HQc]]]]].
  pose proof HH as [_ [_ [D1 [D2 _]]]].
  rewrite (forward_single_head self H1) by congruence.
  rewrite (forward_single_head self H2) by congruence.
  unfold Steps.base_attention.
  do 6 eexists. split; [ reflexivity | ]. split; [ reflexivity | ].
  assert (HK : same_document i (Steps.positional_projection (K self) H1)
                 (Steps.positional_projection (K self) H2))
    by (apply same_document_projection; [ congruence | exact HH ]).
  assert (HV : same_document i (Steps.positional_projection (V self) H1)
                 (Steps.positional_projection (V self) H2))
    by (apply same_document_projection; [ congruence | exact HH ]).
  assert (HA : same_document i
                 (Steps.weights
                    (Steps.scaled (_scale self) (_embedding_dim self)
                       (Steps.product_Q_Kt (Q self)
                          (Steps.positional_projection (K self) H1))))
                 (Steps.weights
                    (Steps.scaled (_scale self) (_embedding_dim self)
                       (Steps.product_Q_Kt (Q self)
                          (Steps.positional_projection (K self) H2))))).
  { apply same_document_weights, same_document_scaled, same_document_product;
      [ | exact HK ].
    cbn [Steps.positional_projection mk3 dim2]. congruence. }
  split.
  - apply same_document_slice; [ apply wf3_mk3 | apply wf3_mk3 | exact HA ].
  - apply same_document_slice; [ apply wf3_mk3 | apply wf3_mk3 | ].
    apply same_document_context; [ | exact HA | exact HV ].
    destruct (_scale self); reflexivity.
Qed.

Lemma forward_keeps_documents_apart_witness :
  exists st1 C1 A1 st2 C2 A2,
    forward Example.plain_layer Example.H_1_1_2 = Ok (st1, (C1, A1))
    /\ forward Example.plain_layer Example.H_2_1_2 = Ok (st2, (C2, A2))
    /\ nth 0 (data3 A1) [] = nth 0 (data3 A2) []
    /\ nth 0 (data3 C1) [] = nth 0 (data3 C2) [].
Proof.
  apply (forward_keeps_documents_apart Example.plain_layer
           Example.H_1_1_2 Example.H_2_1_2 0).
  - reflexivity.
  - reflexivity.
  - reflexivity.
  - cbn. lia.
  - unfold same_document. cbn [Example.H_1_1_2 Example.H_2_1_2 dim0 dim1 dim2].
    repeat split; lia.
Defined.

End Documents.

(* ===================================================================== *)
(** ** Contexts are weighted means of the values *)
(* ===================================================================== *)

Section WeightedMeans.

Import nn TargetAttention.

Lemma sum_n_weights_one c (e : nat -> R) :
  (0 < c)%nat ->
  sum_n c (fun k => exp (e k) / sum_n c (fun k' => exp (e k'))) = 1.
Proof.
  intro Hc. pose proof (sum_exp_pos c e Hc) as Hs.
  unfold sum_n at 1.
  rewrite (fold_sum_div (seq 0 c) (fun k => exp (e k))).
  fold (sum_n c (fun k => exp (e k))). field. lra.
Qed.

Lemma fold_mean_bounds (l : list nat) (a v : nat -> R) (lo hi : R) :
  (forall t, In t l -> 0 <= a t /\ lo <= v t <= hi) ->
  lo * fold_right Rplus 0 (map a l)
  <= fold_right Rplus 0 (map (fun t => a t * v t) l)
  <= hi * fold_right Rplus 0 (map a l).
Proof.
  induction l as [ | t l IH]; intro Hl; cbn [map fold_right].
  - lra.
  - destruct (Hl t (or_introl eq_refl)) as [Ha [Hlo Hhi]].
    assert (IHl := IH (fun t' Ht' => Hl t' (or_intror Ht'))).
    nra.
Qed.

Lemma fold_mean_above (l : list nat) (a v : nat -> R) (lo : R) :
  l <> [] ->
  (forall t, In t l -> 0 < a t /\ lo < v t) ->
  lo * fold_right Rplus 0 (map a l)
  < fold_right Rplus 0 (map (fun t => a t * v t) l).
Proof.
  induction l as [ | t l IH]; [ congruence | intros _ Hl ].
  cbn [map fold_right].
  destruct (Hl t (or_introl eq_refl)) as [Ha Hlo].
  destruct l as [ | t' l'].
  - cbn. nra.
  - assert (IHl := IH ltac:(discriminate) (fun t0 Ht0 => Hl t0 (or_intror Ht0))).
    nra.
Qed.

Lemma elu_scalar_above x : -1 < elu_scalar x.
Proof.
  unfold elu_scalar. destruct (Rlt_dec 0 x) as [Hx | _]; [ lra | ].
  pose proof (exp_pos x). lra.
Qed.

(** An entry of the context of the four steps, written out. *)
Lemma get3_context E Vv i j c :
  (i < dim0 E)%nat -> (j < dim1 E)%nat -> (c < dim2 Vv)%nat ->
  get3 (Steps.product_A_V (Steps.weights E) Vv) i j c
  = sum_n (dim2 E)
      (fun t =>
         exp (get3 E i j t) / sum_n (dim2 E) (fun t' => exp (get3 E i j t'))
         * get3 Vv i t c).
Proof.
  intros Hi Hj Hc. unfold Steps.product_A_V.
  change (dim0 (Steps.weights E)) with (dim0 E).
  change (dim1 (Steps.weights E)) with (dim1 E).
  change (dim2 (Steps.weights E)) with (dim2 E).
  rewrite get3_mk3 by assumption.
  apply sum_n_ext. intros t Ht. now rewrite get3_weights.
Qed.

Lemma context_bounds E Vv i j c lo hi :
  (i < dim0 E)%nat -> (j < dim1 E)%nat -> (c < dim2 Vv)%nat ->
  (0 < dim2 E)%nat ->
  (forall t, (t < dim2 E)%nat -> lo <= get3 Vv i t c <= hi) ->
  lo <= get3 (Steps.product_A_V (Steps.weights E) Vv) i j c <= hi.
Proof.
  intros Hi Hj Hc Hl Hv. rewrite get3_context by assumption.
  pose (a := fun t => exp (get3 E i j t)
                      / sum_n (dim2 E) (fun t' => exp (get3 E i j t'))).
  assert (H1 : fold_right Rplus 0 (map a (seq 0 (dim2 E))) = 1)
    by exact (sum_n_weights_one (dim2 E) (fun t => get3 E i j t) Hl).
  change (lo <= fold_right Rplus 0
                  (map (fun t => a t * get3 Vv i t c) (seq 0 (dim2 E)))
          <= hi).
  pose proof (fold_mean_bounds (seq 0 (dim2 E)) a
                (fun t => get3 Vv i t c) lo hi) as Hb.
  rewrite H1, !Rmult_1_r in Hb. apply Hb.
  intros t Ht. apply in_seq in Ht. split; [ | apply Hv; lia ].
  unfold a. apply Rlt_le, Rdiv_lt_0_compat; [ apply exp_pos | ].
  apply sum_exp_pos. exact Hl.
Qed.

Lemma context_above E Vv i j c lo :
  (i < dim0 E)%nat -> (j < dim1 E)%nat -> (c < dim2 Vv)%nat ->
  (0 < dim2 E)%nat ->
  (forall t, (t < dim2 E)%nat -> lo < get3 Vv i t c) ->
  lo < get3 (Steps.product_A_V (Steps.weights E) Vv) i j c.
Proof.
  intros Hi Hj Hc Hl Hv. rewrite get3_context by assumption.
  pose (a := fun t => exp (get3 E i j t)
                      / sum_n (dim2 E) (fun t' => exp (get3 E i j t'))).
  assert (H1 : fold_right Rplus 0 (map a (seq 0 (dim2 E))) = 1)
    by exact (sum_n_weights_one (dim2 E) (fun t => get3 E i j t) Hl).
  change (lo < fold_right Rplus 0
                 (map (fun t => a t * get3 Vv i t c) (seq 0 (dim2 E)))).
  assert (Hne : seq 0 (dim2 E) <> []) by (destruct (dim2 E); [ lia | discriminate ]).
  pose proof (fold_mean_above (seq 0 (dim2 E)) a
                (fun t => get3 Vv i t c) lo Hne) as Hb.
  rewrite H1, Rmult_1_r in Hb. apply Hb.
  intros t Ht. apply in_seq in Ht. split; [ | apply Hv; lia ].
  unfold a. apply Rdiv_lt_0_compat; [ apply exp_pos | ].
  apply sum_exp_pos. exact Hl.
Qed.

(** With multihead disabled, and embedding_dim >= 1 when the scale flag
    is set, every entry of the context C is a weighted mean of the
    values of its document: it lies between any two bounds that hold for
    the entries of V = ELU(conv_V(H)) of that document and channel, and,
    the values of ELU being above -1, it is above -1. *)
Theorem context_is_a_mean_of_values self H i j c :
  wf self = true -> scale_defined self = true -> _multihead self = false ->
  dim1 H = _latent_doc_dim self -> (1 <= dim2 H)%nat ->
  (i < dim0 H)%nat -> (j < _num_labels self)%nat ->
  (c < _latent_doc_dim self)%nat ->
  exists st' C A,
    forward self H = Ok (st', (C, A))
    /\ -1 < get3 C i j c
    /\ forall lo hi,
         (forall t, (t < dim2 H)%nat ->
                    lo <= get3 (Steps.positional_projection (V self) H) i t c
                    <= hi) ->
         lo <= get3 C i j c <= hi.
Proof.
  intros Hw _ Hm Hd Hl Hi Hj Hc.
  destruct (wf_layers self Hw) as [HKi [HKo [HVi [HVo [HQr HQc]]]]].
  rewrite forward_single_head by congruence.
  unfold Steps.base_attention.
  do 3 eexists. split; [ reflexivity | ].
  set (E := Steps.scaled (_scale self) (_embedding_dim self)
              (Steps.product_Q_Kt (Q self)
                 (Steps.positional_projection (K self) H))).
  assert (D0 : dim0 E = dim0 H) by (unfold E; destruct (_scale self); reflexivity).
  assert (D1 : dim1 E = rows2 (Q self)) by (unfold E; destruct (_scale self); reflexivity).
  assert (D2 : dim2 E = dim2 H) by (unfold E; destruct (_scale self); reflexivity).
  assert (DV : dim2 (Steps.positional_projection (V self) H)
               = out_channels (V self)) by reflexivity.
  split.
  - apply context_above; try lia; try congruence.
    intros t Ht. unfold Steps.positional_projection.
    rewrite get3_mk3 by (lia || congruence). apply elu_scalar_above.
  - intros lo hi Hv. apply context_bounds; try lia; try congruence.
    intros t Ht. apply Hv. lia.
Qed.

Lemma context_is_a_mean_of_values_witness :
  exists st' C A,
    forward Example.plain_layer Example.H_1_1_2 = Ok (st', (C, A))
    /\ -1 < get3 C 0 0 0
    /\ forall lo hi,
         (forall t, (t < dim2 Example.H_1_1_2)%nat ->
                    lo <= get3 (Steps.positional_projection
                                  (V Example.plain_layer) Example.H_1_1_2)
                            0 t 0
                    <= hi) ->
         lo <= get3 C 0 0 0 <= hi.
Proof.
  apply (context_is_a_mean_of_values Example.plain_layer Example.H_1_1_2
           0 0 0).
  - reflexivity.
  - reflexivity.
  - reflexivity.
  - reflexivity.
  - cbn. lia.
  - cbn. lia.
  - cbn. lia.
  - cbn. lia.
Defined.

End WeightedMeans.

(* ===================================================================== *)
(** ** Uniform attention and the order of the weights *)
(* ===================================================================== *)

Section Ranking.

Import nn TargetAttention.

Lemma sum_n_const n x : sum_n n (fun _ => x) = INR n * x.
Proof.
  unfold sum_n. generalize 0%nat.
  induction n as [ | n IH]; intro s.
  - cbn. lra.
  - cbn [seq map fold_right]. rewrite IH, S_INR. lra.
Qed.

Lemma exp_le_iff a b : exp a <= exp b <-> a <= b.
Proof.
  split; intro Hab.
  - destruct (Rle_or_lt a b) as [Hle | Hlt]; [ exact Hle | ].
    apply exp_increasing in Hlt. lra.
  - destruct Hab as [Hlt | ->]; [ | lra ].
    apply Rlt_le, exp_increasing. exact Hlt.
Qed.

(** Within a row, the weights are ordered as the energies. *)
Lemma weights_order E i j t1 t2 :
  (i < dim0 E)%nat -> (j < dim1 E)%nat ->
  (t1 < dim2 E)%nat -> (t2 < dim2 E)%nat ->
  get3 (Steps.weights E) i j t1 <= get3 (Steps.weights E) i j t2
  <-> get3 E i j t1 <= get3 E i j t2.
Proof.
  intros Hi Hj H1 H2. rewrite !get3_weights by assumption.
  assert (Hs : 0 < sum_n (dim2 E) (fun t' => exp (get3 E i j t')))
    by (apply sum_exp_pos; lia).
  rewrite <- (exp_le_iff (get3 E i j t1) (get3 E i j t2)).
  unfold Rdiv. split; intro Hle.
  - apply Rmult_le_reg_r with (r := / sum_n (dim2 E) (fun t' => exp (get3 E i j t')));
      [ now apply Rinv_0_lt_compat | exact Hle ].
  - apply Rmult_le_compat_r; [ | exact Hle ].
    now apply Rlt_le, Rinv_0_lt_compat.
Qed.

Lemma scaled_order emb E i j t1 t2 :
  (1 <= emb)%nat ->
  (i < dim0 E)%nat -> (j < dim1 E)%nat ->
  (t1 < dim2 E)%nat -> (t2 < dim2 E)%nat ->
  get3 (Steps.scaled true emb E) i j t1 <= get3 (Steps.scaled true emb E) i j t2
  <-> get3 E i j t1 <= get3 E i j t2.
Proof.
  intros He Hi Hj H1 H2. rewrite !get3_scaled_true by assumption.
  assert (Hs : 0 < sqrt (INR emb)) by (apply sqrt_lt_R0, lt_0_INR; lia).
  unfold Rdiv. split; intro Hle.
  - apply Rmult_le_reg_r with (r := / sqrt (INR emb));
      [ now apply Rinv_0_lt_compat | exact Hle ].
  - apply Rmult_le_compat_r; [ | exact Hle ].
    now apply Rlt_le, Rinv_0_lt_compat.
Qed.

(** The scale flag never changes how the tokens of a document rank for
    a label: for two single-head modules with the same key layer, the
    same Q and the same embedding_dim >= 1, one with the flag and one
    without, a token has at most the weight of another in the one
    exactly when it has in the other. *)
Theorem scale_flag_keeps_the_ranking on off H i j t1 t2 :
  wf on = true -> _multihead on = false -> _multihead off = false ->
  _scale on = true -> _scale off = false ->
  K off = K on -> V off = V on -> Q off = Q on ->
  (1 <= _embedding_dim on)%nat ->
  dim1 H = _latent_doc_dim on -> (1 <= dim2 H)%nat ->
  (i < dim0 H)%nat -> (j < _num_labels on)%nat ->
  (t1 < dim2 H)%nat -> (t2 < dim2 H)%nat ->
  exists s1 C1 A1 s2 C2 A2,
    forward on H = Ok (s1, (C1, A1))
    /\ forward off H = Ok (s2, (C2, A2))
    /\ (get3 A1 i j t1 <= get3 A1 i j t2
        <-> get3 A2 i j t1 <= get3 A2 i j t2).
Proof.
  intros Hw Hm1 Hm2 Hs1 Hs2 EK EV EQ He Hd Hl Hi Hj Ht1 Ht2.
  destruct (wf_layers on Hw) as [HKi [HKo [HVi [HVo [HQr HQc]]]]].
  rewrite (forward_single_head on H) by congruence.
  rewrite (forward_single_head off H) by congruence.
  unfold Steps.base_attention. rewrite Hs1, Hs2, EK, EV, EQ.
  do 6 eexists. split; [ reflexivity | ]. split; [ reflexivity | ].
  cbn [Steps.scaled].
  set (P := Steps.product_Q_Kt (Q on) (Steps.positional_projection (K on) H)).
  assert (D0 : dim0 P = dim0 H) by reflexivity.
  assert (D1 : dim1 P = rows2 (Q on)) by reflexivity.
  assert (D2 : dim2 P = dim2 H) by reflexivity.
  fold (Steps.scaled true (_embedding_dim on) P).
  rewrite (weights_order (Steps.scaled true (_embedding_dim on) P))
    by (cbn [Steps.scaled mk3 dim0 dim1 dim2]; lia || congruence).
  rewrite (weights_order P) by (lia || congruence).
  apply scaled_order; lia || congruence.
Qed.

Lemma scale_flag_keeps_the_ranking_witness :
  exists s1 C1 A1 s2 C2 A2,
    forward Example.scaled_layer Example.H_1_1_2 = Ok (s1, (C1, A1))
    /\ forward Example.plain_layer Example.H_1_1_2 = Ok (s2, (C2, A2))
    /\ (get3 A1 0 0 0 <= get3 A1 0 0 1 <-> get3 A2 0 0 0 <= get3 A2 0 0 1).
Proof.
  apply (scale_flag_keeps_the_ranking Example.scaled_layer Example.plain_layer
           Example.H_1_1_2 0 0 0 1).
  - reflexivity.
  - reflexivity.
  - reflexivity.
  - reflexivity.
  - reflexivity.
  - reflexivity.
  - reflexivity.
  - reflexivity.
  - cbn. lia.
  - reflexivity.
  - cbn. lia.
  - cbn. lia.
  - cbn. lia.
  - cbn. lia.
  - cbn. lia.
Defined.

Lemma constant_projection m H i t o :
  in_channels m = dim1 H ->
  (i < dim0 H)%nat -> (t < dim2 H)%nat -> (o < out_channels m)%nat ->
  (forall c t', (c < dim1 H)%nat -> (t' < dim2 H)%nat ->
                get3 H i c t' = get3 H i c 0) ->
  get3 (Steps.positional_projection m H) i t o
  = get3 (Steps.positional_projection m H) i 0 o.
Proof.
  intros Hc Hi Ht Ho Hconst. unfold Steps.positional_projection.
  rewrite !get3_mk3 by lia.
  f_equal. f_equal. apply sum_n_ext. intros c Hcc. f_equal.
  apply Hconst; lia.
Qed.

(** With multihead disabled, and embedding_dim >= 1 when the scale flag
    is set, a document whose tokens are all the same vector gets uniform
    attention: every weight of the document is [1 / l], and every
    context vector is the value vector of the token. *)
Theorem identical_tokens_get_uniform_attention self H i :
  wf self = true -> scale_defined self = true -> _multihead self = false ->
  dim1 H = _latent_doc_dim self -> (1 <= dim2 H)%nat ->
  (i < dim0 H)%nat ->
  (forall c t, (c < dim1 H)%nat -> (t < dim2 H)%nat ->
               get3 H i c t = get3 H i c 0) ->
  exists st' C A,
    forward self H = Ok (st', (C, A))
    /\ (forall j t, (j < _num_labels self)%nat -> (t < dim2 H)%nat ->
                    get3 A i j t = / INR (dim2 H))
    /\ (forall j c, (j < _num_labels self)%nat ->
                    (c < _latent_doc_dim self)%nat ->
                    get3 C i j c
                    = get3 (Steps.positional_projection (V self) H) i 0 c).
Proof.
  intros Hw _ Hm Hd Hl Hi Hconst.
  destruct (wf_layers self Hw) as [HKi [HKo [HVi [HVo [HQr HQc]]]]].
  rewrite forward_single_head by congruence.
  unfold Steps.base_attention.
  do 3 eexists. split; [ reflexivity | ].
  set (Kv := Steps.positional_projection (K self) H).
  set (Vv := Steps.positional_projection (V self) H).
  set (E := Steps.scaled (_scale self) (_embedding_dim self)
              (Steps.product_Q_Kt (Q self) Kv)).
  assert (D0 : dim0 E = dim0 H) by (unfold E; destruct (_scale self); reflexivity).
  assert (D1 : dim1 E = rows2 (Q self)) by (unfold E; destruct (_scale self); reflexivity).
  assert (D2 : dim2 E = dim2 H) by (unfold E; destruct (_scale self); reflexivity).
  assert (HE : forall j t, (j < _num_labels self)%nat -> (t < dim2 H)%nat ->
                           get3 E i j t = get3 E i j 0).
  { intros j t Hj Ht.
    assert (HP : forall t0, (t0 < dim2 H)%nat ->
                   get3 (Steps.product_Q_Kt (Q self) Kv) i j t0
                   = sum_n (cols2 (Q self))
                       (fun c => get2 (Q self) j c * get3 Kv i 0 c)).
    { intros t0 Ht0. unfold Steps.product_Q_Kt.
      rewrite get3_mk3 by (assumption || congruence).
      apply sum_n_ext. intros c Hc. f_equal.
      apply constant_projection; try assumption; congruence || lia. }
    unfold E.
    set (P := Steps.product_Q_Kt (Q self) Kv) in *.
    assert (P0 : dim0 P = dim0 H) by reflexivity.
    assert (P1 : dim1 P = rows2 (Q self)) by reflexivity.
    assert (P2 : dim2 P = dim2 H) by reflexivity.
    destruct (_scale self).
    - rewrite !get3_scaled_true by (lia || congruence).
      now rewrite !HP by lia.
    - cbn [Steps.scaled]. now rewrite !HP by lia. }
  assert (Hn : INR (dim2 H) <> 0) by (apply not_0_INR; lia).
  assert (HA : forall j t, (j < _num_labels self)%nat -> (t < dim2 H)%nat ->
                           get3 (Steps.weights E) i j t = / INR (dim2 H)).
  { intros j t Hj Ht.
    rewrite get3_weights by (lia || congruence).
    rewrite D2.
    rewrite (sum_n_ext (dim2 H) (fun t' => exp (get3 E i j t'))
               (fun _ => exp (get3 E i j 0)))
      by (intros t' Ht'; now rewrite HE).
    rewrite sum_n_const, (HE j t Hj Ht).
    pose proof (exp_pos (get3 E i j 0)). field. split; lra. }
  split; [ exact HA | ].
  intros j c Hj Hc.
  unfold Steps.product_A_V.
  change (dim0 (Steps.weights E)) with (dim0 E).
  change (dim1 (Steps.weights E)) with (dim1 E).
  change (dim2 (Steps.weights E)) with (dim2 E).
  rewrite get3_mk3 by (unfold Vv; cbn [Steps.positional_projection mk3 dim2];
                       lia || congruence).
  rewrite D2.
  rewrite (sum_n_ext (dim2 H)
             (fun t => get3 (Steps.weights E) i j t * get3 Vv i t c)
             (fun _ => / INR (dim2 H) * get3 Vv i 0 c)).
  - rewrite sum_n_const. field. exact Hn.
  - intros t Ht. rewrite (HA j t Hj Ht). f_equal.
    unfold Vv. apply constant_projection; try assumption; congruence || lia.
Qed.

Lemma identical_tokens_get_uniform_attention_witness :
  exists st' C A,
    forward Example.plain_layer Example.H_constant = Ok (st', (C, A))
    /\ (forall j t, (j < _num_labels Example.plain_layer)%nat ->
                    (t < dim2 Example.H_constant)%nat ->
                    get3 A 0 j t = / INR (dim2 Example.H_constant))
    /\ (forall j c, (j < _num_labels Example.plain_layer)%nat ->
                    (c < _latent_doc_dim Example.plain_layer)%nat ->
                    get3 C 0 j c
                    = get3 (Steps.positional_projection
                              (V Example.plain_layer) Example.H_constant)
                        0 0 c).
Proof.
  apply (identical_tokens_get_uniform_attention Example.plain_layer
           Example.H_constant 0).
  - reflexivity.
  - reflexivity.
  - reflexivity.
  - reflexivity.
  - cbn. lia.
  - cbn. lia.
  - intros c t Hc Ht. cbn in Hc, Ht.
    destruct c as [ | c]; [ | lia ].
    destruct t as [ | [ | [ | t]]]; [ reflexivity | reflexivity | reflexivity | lia ].
Defined.

End Ranking.

(* ===================================================================== *)
(** ** Dispatchers that the constructor returns *)
(* ===================================================================== *)

Section BuiltDispatchers.

Import nn multihead_attention.

Local Open Scope string_scope.

Variable other : Type.
Variable other_init : string -> Attention.args -> result other.
Variable other_forward :
  other -> tensor3 -> option tensor2 -> result (other * (tensor3 * tensor3)).

Lemma build_other_Ok cls a mh st :
  Attention.build_other other other_init cls a mh = Ok st ->
  exists o, st = Attention.built other a mh (Some (Attention.Other o)) None.
Proof.
  unfold Attention.build_other. intro Hb.
  destruct (other_init cls a) as [o | e]; cbn [Py.bind] in Hb;
    [ | discriminate ].
  exists o. congruence.
Qed.

(** What [__init__] can return: a module without a layer for a name it
    has no branch for, a module around a layer of another class
    otherwise; never a ['target'] module, never the attribute [Q]. *)
Lemma init_Ok a rnd st :
  Attention.init other other_init a rnd = Ok st ->
  Attention.att_module a <> "target"
  /\ exists mh,
       (mh = None <-> Attention.multihead a = false)
       /\ ((Attention.recognized (Attention.att_module a) = false
            /\ st = Attention.built other a mh None None)
           \/ (Attention.recognized (Attention.att_module a) = true
               /\ exists o,
                    st = Attention.built other a mh
                           (Some (Attention.Other o)) None)).
Proof.
  unfold Attention.init.
  set (mh := if Attention.multihead a then _ else None).
  assert (Hmh : mh = None <-> Attention.multihead a = false).
  { unfold mh. destruct (Attention.multihead a); split; congruence. }
  clearbody mh. intro Hi.
  destruct (String.eqb_spec (Attention.att_module a) "target") as [E | N];
    [ discriminate Hi | ].
  split; [ exact N | ]. exists mh. split; [ exact Hmh | ].
  repeat match type of Hi with
         | (if String.eqb ?x ?y then _ else _) = _ =>
             destruct (String.eqb_spec x y) as [E | ?];
             [ right; split; [ rewrite E; reflexivity | ];
               now apply (build_other_Ok _ _ _ _ Hi) | ]
         end.
  left. split; [ | congruence ].
  unfold Attention.recognized. cbn [existsb].
  repeat match goal with
         | Hn : Attention.att_module a <> ?y |- _ =>
             apply String.eqb_neq in Hn; rewrite Hn; clear Hn
         end.
  reflexivity.
Qed.

End BuiltDispatchers.

Section BuiltDispatcherProperties.

Import nn multihead_attention.

Local Open Scope string_scope.

(** No dispatcher that the constructor returns answers a call with
    multihead disabled: [forward] raises UnboundLocalError when the
    variant name has a branch in the constructor, AttributeError when it
    has none, whatever the input and whatever the other variant classes
    do. *)
Theorem built_single_head_dispatcher_never_answers
    (other : Type) (other_init : string -> Attention.args -> result other)
    (other_forward : other -> tensor3 -> option tensor2 ->
                     result (other * (tensor3 * tensor3)))
    (a : Attention.args) (rnd : Attention.draws) (st : Attention.t other)
    (H : tensor3) :
  Attention.init other other_init a rnd = Ok st ->
  Attention.multihead a = false ->
  Attention.forward other other_forward st H
  = Raise (if Attention.recognized (Attention.att_module a)
           then UnboundLocalError else AttributeError).
Proof.
  intros Hi Hm.
  destruct (init_Ok other other_init a rnd st Hi)
    as [Ht [mh [_ [[Hr ->] | [Hr [o ->]]]]]];
    rewrite Hr; unfold Attention.forward, Attention.built;
    cbn [Attention._att_module Attention._multihead Attention.attention_layer
         Attention.Q];
    rewrite Hm;
    destruct (String.eqb_spec (Attention.att_module a) "target") as [E | _];
    try contradiction; reflexivity.
Qed.

Lemma built_single_head_dispatcher_never_answers_witness :
  Attention.forward unit Example.unit_forward
    (Attention.built unit Example.label_args None
       (Some (Attention.Other tt)) None)
    Example.H_2_8_6
  = Raise (if Attention.recognized (Attention.att_module Example.label_args)
           then UnboundLocalError else AttributeError).
Proof.
  apply (built_single_head_dispatcher_never_answers unit Example.unit_init
           Example.unit_forward Example.label_args Example.dispatcher_draws).
  - reflexivity.
  - reflexivity.
Defined.

(** A variant name without a branch in the constructor, such as
    ['self'], which the command line accepts and the docstring lists,
    builds a dispatcher without a layer, and every call of its
    [forward] raises AttributeError, multihead or not.  ['self'] is the
    only accepted name of that kind. *)
Theorem unhandled_variant_builds_but_never_answers
    (other : Type) (other_init : string -> Attention.args -> result other)
    (other_forward : other -> tensor3 -> option tensor2 ->
                     result (other * (tensor3 * tensor3)))
    (a : Attention.args) (rnd : Attention.draws) :
  Attention.recognized (Attention.att_module a) = false ->
  (exists st,
      Attention.init other other_init a rnd = Ok st
      /\ Attention.attention_layer other st = None
      /\ forall H, Attention.forward other other_forward st H
                   = Raise AttributeError)
  /\ In "self" main.attention_module_choices
  /\ Attention.recognized "self" = false
  /\ forall name, In name main.attention_module_choices ->
                  name <> "self" -> Attention.recognized name = true.
Proof.
  intro Hr. split; [ | split; [ | split ]].
  - destruct (init_unrecognized other other_init a rnd Hr) as [mh Hi].
    eexists. split; [ exact Hi | ]. split; [ reflexivity | ].
    intro H. unfold Attention.forward, Attention.built.
    cbn [Attention._att_module Attention._multihead Attention.attention_layer
         Attention.Q].
    destruct (String.eqb_spec (Attention.att_module a) "target") as [E | _].
    + rewrite E in Hr. discriminate Hr.
    + cbn [Py.bind]. destruct (Attention.multihead a); reflexivity.
  - cbn. tauto.
  - reflexivity.
  - intros name Hin Hne. cbn in Hin.
    repeat (destruct Hin as [<- | Hin]; [ reflexivity || contradiction | ]).
    contradiction.
Qed.

Lemma unhandled_variant_builds_but_never_answers_witness :
  (exists st,
      Attention.init unit Example.unit_init Example.self_args
        Example.dispatcher_draws = Ok st
      /\ Attention.attention_layer unit st = None
      /\ forall H, Attention.forward unit Example.unit_forward st H
                   = Raise AttributeError)
  /\ In "self" main.attention_module_choices
  /\ Attention.recognized "self" = false
  /\ forall name, In name main.attention_module_choices ->
                  name <> "self" -> Attention.recognized name = true.
Proof.
  apply (unhandled_variant_builds_but_never_answers unit Example.unit_init
           Example.unit_forward Example.self_args Example.dispatcher_draws).
  reflexivity.
Defined.

End BuiltDispatcherProperties.

Section DispatcherFrame.

Import nn multihead_attention.

Local Open Scope string_scope.

Lemma dispatcher_forward_Ok
    (other : Type)
    (other_forward : other -> tensor3 -> option tensor2 ->
                     result (other * (tensor3 * tensor3)))
    (self st' : Attention.t other) (H : tensor3) (CA : tensor3 * tensor3) :
  Attention.forward other other_forward self H = Ok (st', CA) ->
  exists l', st' = Attention.set_layer other self l'.
Proof.
  unfold Attention.forward. intro Hf.
  apply bind_Ok in Hf. destruct Hf as [Qloc [_ Hf]].
  destruct (Attention._multihead other self).
  - apply bind_Ok in Hf. destruct Hf as [l [_ Hf]].
    apply bind_Ok in Hf. destruct Hf as [[l' [C A]] [_ Hf]].
    do 4 (apply bind_Ok in Hf; destruct Hf as [? [_ Hf]]).
    exists l'. congruence.
  - apply bind_Ok in Hf. destruct Hf as [l [_ Hf]].
    apply bind_Ok in Hf. destruct Hf as [q [_ Hf]].
    apply bind_Ok in Hf. destruct Hf as [[l' [C A]] [_ Hf]].
    exists l'. congruence.
Qed.

(** A call of the dispatcher's [forward] that returns leaves the
    configuration, the output projection [MH_output] and the attribute
    [Q] of the dispatcher as they were; the only attribute that can have
    changed is the state of its attention layer. *)
Theorem dispatcher_forward_keeps_its_attributes
    (other : Type)
    (other_forward : other -> tensor3 -> option tensor2 ->
                     result (other * (tensor3 * tensor3)))
    (self st' : Attention.t other) (H : tensor3) (CA : tensor3 * tensor3) :
  Attention.forward other other_forward self H = Ok (st', CA) ->
  Attention._num_labels other st' = Attention._num_labels other self
  /\ Attention._embedding_dim other st' = Attention._embedding_dim other self
  /\ Attention._latent_doc_dim other st' = Attention._latent_doc_dim other self
  /\ Attention._att_module other st' = Attention._att_module other self
  /\ Attention._scale other st' = Attention._scale other self
  /\ Attention._multihead other st' = Attention._multihead other self
  /\ Attention._num_heads other st' = Attention._num_heads other self
  /\ Attention._num_cats other st' = Attention._num_cats other self
  /\ Attention._label_embedding_matrix other st'
     = Attention._label_embedding_matrix other self
  /\ Attention._cat_embedding_matrix other st'
     = Attention._cat_embedding_matrix other self
  /\ Attention._code2cat_map other st' = Attention._code2cat_map other self
  /\ Attention._gamma other st' = Attention._gamma other self
  /\ Attention.MH_output other st' = Attention.MH_output other self
  /\ Attention.Q other st' = Attention.Q other self
  /\ exists l', Attention.attention_layer other st' = Some l'.
Proof.
  intro Hf.
  destruct (dispatcher_forward_Ok other other_forward self st' H CA Hf)
    as [l' ->].
  repeat (split; [ reflexivity | ]).
  now exists l'.
Qed.

Lemma label_heads_forward_returns :
  Attention.init unit Example.unit_init Example.label_heads_args
    Example.dispatcher_draws = Ok Example.label_heads_dispatcher
  /\ Attention.forward unit Example.unit_forward
       Example.label_heads_dispatcher Example.H_2_4_4
     = Ok (Example.label_heads_dispatcher_after, Example.label_heads_result).
Proof.
  split; [ reflexivity | ].
  unfold Attention.forward, Example.label_heads_dispatcher.
  cbn [Attention.built Attention._att_module
    Attention._multihead Attention.attention_layer Attention.Q
    Attention._num_heads Attention.MH_output Example.label_heads_args
    Attention.att_module Attention.multihead Attention.num_heads
    Attention.latent_doc_dim String.eqb Ascii.eqb Bool.eqb Py.bind
    Attention.attr Attention.call_layer Example.unit_forward].
  unfold transpose_output, Example.H_2_4_4.
  cbn [mk3 dim0 dim1 dim2 Nat.eqb Nat.modulo Nat.divmod fst snd orb negb
       Nat.sub Py.bind].
  rewrite linear_ok by reflexivity. cbn [Py.bind]. reflexivity.
Qed.

Lemma dispatcher_forward_keeps_its_attributes_witness :
  Attention._num_labels unit Example.label_heads_dispatcher_after
  = Attention._num_labels unit Example.label_heads_dispatcher
  /\ Attention._embedding_dim unit Example.label_heads_dispatcher_after
  = Attention._embedding_dim unit Example.label_heads_dispatcher
  /\ Attention._latent_doc_dim unit Example.label_heads_dispatcher_after
  = Attention._latent_doc_dim unit Example.label_heads_dispatcher
  /\ Attention._att_module unit Example.label_heads_dispatcher_after
  = Attention._att_module unit Example.label_heads_dispatcher
  /\ Attention._scale unit Example.label_heads_dispatcher_after
  = Attention._scale unit Example.label_heads_dispatcher
  /\ Attention._multihead unit Example.label_heads_dispatcher_after
  = Attention._multihead unit Example.label_heads_dispatcher
  /\ Attention._num_heads unit Example.label_heads_dispatcher_after
  = Attention._num_heads unit Example.label_heads_dispatcher
  /\ Attention._num_cats unit Example.label_heads_dispatcher_after
  = Attention._num_cats unit Example.label_heads_dispatcher
  /\ Attention._label_embedding_matrix unit Example.label_heads_dispatcher_after
  = Attention._label_embedding_matrix unit Example.label_heads_dispatcher
  /\ Attention._cat_embedding_matrix unit Example.label_heads_dispatcher_after
  = Attention._cat_embedding_matrix unit Example.label_heads_dispatcher
  /\ Attention._code2cat_map unit Example.label_heads_dispatcher_after
  = Attention._code2cat_map unit Example.label_heads_dispatcher
  /\ Attention._gamma unit Example.label_heads_dispatcher_after
  = Attention._gamma unit Example.label_heads_dispatcher
  /\ Attention.MH_output unit Example.label_heads_dispatcher_after
  = Attention.MH_output unit Example.label_heads_dispatcher
  /\ Attention.Q unit Example.label_heads_dispatcher_after
  = Attention.Q unit Example.label_heads_dispatcher
  /\ exists l',
       Attention.attention_layer unit Example.label_heads_dispatcher_after
       = Some l'.
Proof.
  apply (dispatcher_forward_keeps_its_attributes unit
           Example.unit_forward Example.label_heads_dispatcher
           Example.label_heads_dispatcher_after
           Example.H_2_4_4 Example.label_heads_result).
  exact (proj2 label_heads_forward_returns).
Defined.

End DispatcherFrame.

(* ===================================================================== *)
(** ** The training loop *)
(* ===================================================================== *)

Section TrainingLoop.

Import training.

Variable params : Type.
Variable fit : nat -> params -> Py.result (params * option R).
Variable scheduler_step : params -> params.
Variable scoring : params -> Py.result R.

Local Abbreviation one_epoch :=
  (training.one_epoch params fit scheduler_step scoring).
Local Abbreviation loop := (training.loop params fit scheduler_step scoring).
Local Abbreviation train := (training.train params fit scheduler_step scoring).

Local Abbreviation best_is_saved := (training.best_is_saved params scoring).
Local Abbreviation checkpoint_is_there := (training.checkpoint_is_there params).

Lemma improves_false v best :
  improves v best = false -> exists b, best = Some b /\ ~ v < b.
Proof.
  unfold improves. destruct best as [b | ]; [ | discriminate ].
  destruct (Rlt_dec v b) as [Hlt | Hge]; [ discriminate | ].
  intros _. now exists b.
Qed.

Lemma Done_pair {A B : Type} (a c : A) (b d : B) :
  Done (a, b) = Done (c, d) -> a = c /\ b = d.
Proof. intro H. split; congruence. Qed.

Ltac epoch_cases H :=
  unfold training.one_epoch in H;
  match type of H with
  | context [fit ?ep ?m] =>
      destruct (fit ep m) as [[?m1 [?l | ]] | ?e]; cbn [call andThen] in H
  end;
  try discriminate H;
  match type of H with
  | context [negb ?sch] => destruct sch; cbn [negb] in H
  end;
  try discriminate H;
  match type of H with
  | context [if ?vl then andThen _ _ else _] => destruct vl
  end;
  try match type of H with
      | context [scoring ?m] =>
          destruct (scoring m) as [?v | ?e] eqn:?Hv; cbn [call andThen] in H
      end;
  try discriminate H;
  try match type of H with
      | context [improves ?v ?b] => destruct (improves v b) eqn:?Hi
      end;
  try match type of H with
      | context [(?p <=? ?c)%nat] => destruct (Nat.leb_spec p c)
      end;
  try match type of H with
      | context [remove_checkpoint _ ?d] =>
          unfold remove_checkpoint in H;
          destruct (checkpoint params d) eqn:?Hc; cbn [andThen] in H
      end;
  try discriminate H.

Lemma one_epoch_Done sch vl p ep s s1 go :
  one_epoch sch vl p ep s = Done (s1, go) ->
  sch = true /\ epoch params s1 = ep
  /\ (best_is_saved s -> best_is_saved s1)
  /\ (go = true -> checkpoint_is_there (S ep) s1)
  /\ (go = false ->
      vl = true /\ checkpoint params (disk params s1) = None
      /\ saved params (disk params s1) = saved params (disk params s)
      /\ best_val_loss params s1 = best_val_loss params s
      /\ exists b v, best_val_loss params s = Some b
                     /\ scoring (model params s1) = Ok v /\ ~ v < b).
Proof.
  intro H. epoch_cases H.
  all: apply Done_pair in H; destruct H as [<- <-];
    (split; [ reflexivity | ]); (split; [ reflexivity | ]);
    unfold training.best_is_saved, training.checkpoint_is_there;
    cbn [best_val_loss disk saved checkpoint model epoch].
  - (* better *)
    split; [ | split; [ | discriminate ]].
    + intros _ b Hb. injection Hb as <-. eexists. split; [ reflexivity | exact Hv ].
    + intros _ _ Hodd.
      destruct (Nat.eqb_spec (ep mod 2) 0) as [E | E]; [ discriminate | ].
      exfalso. apply Hodd.
      replace (S ep) with (1 + ep)%nat by lia.
      rewrite Nat.Div0.add_mod by lia.
      pose proof (Nat.mod_upper_bound ep 2 ltac:(lia)).
      replace (ep mod 2)%nat with 1%nat by lia. reflexivity.
  - (* stop *)
    destruct (improves_false _ _ Hi) as [b [Hb Hge]].
    split; [ | split; [ discriminate | ]].
    + intros Hs b' Hb'. destruct (Hs b' Hb') as [mb [Hm Hsc]].
      exists mb. split; [ | exact Hsc ].
      destruct (ep mod 2 =? 0)%nat; exact Hm.
    + intros _. split; [ reflexivity | ]. split; [ reflexivity | ].
      split; [ destruct (ep mod 2 =? 0)%nat; reflexivity | ].
      split; [ reflexivity | ]. exists b, v. now split.
  - (* worse *)
    split; [ | split; [ | discriminate ]].
    + intros Hs b' Hb'. destruct (Hs b' Hb') as [mb [Hm Hsc]].
      exists mb. split; [ | exact Hsc ].
      destruct (ep mod 2 =? 0)%nat; exact Hm.
    + intros _ _ Hodd.
      destruct (Nat.eqb_spec (ep mod 2) 0) as [E | E]; [ discriminate | ].
      exfalso. apply Hodd.
      replace (S ep) with (1 + ep)%nat by lia.
      rewrite Nat.Div0.add_mod by lia.
      pose proof (Nat.mod_upper_bound ep 2 ltac:(lia)).
      replace (ep mod 2)%nat with 1%nat by lia. reflexivity.
  - (* no validation *)
    split; [ | split; [ | discriminate ]].
    + intros Hs b' Hb'. destruct (Hs b' Hb') as [mb [Hm Hsc]].
      exists mb. split; [ | exact Hsc ].
      destruct (ep mod 2 =? 0)%nat; exact Hm.
    + intros _ _ Hodd.
      destruct (Nat.eqb_spec (ep mod 2) 0) as [E | E]; [ discriminate | ].
      exfalso. apply Hodd.
      replace (S ep) with (1 + ep)%nat by lia.
      rewrite Nat.Div0.add_mod by lia.
      pose proof (Nat.mod_upper_bound ep 2 ltac:(lia)).
      replace (ep mod 2)%nat with 1%nat by lia. reflexivity.
Qed.

Lemma one_epoch_file_missing sch vl p ep s :
  one_epoch sch vl p ep s = Failed FileNotFoundError ->
  ~ checkpoint_is_there ep s.
Proof.
  intro H. epoch_cases H.
  destruct (improves_false _ _ Hi) as [b [Hb _]].
  unfold training.checkpoint_is_there. intro Hk.
  destruct (Nat.eqb_spec (ep mod 2) 0) as [E | E];
    cbn [checkpoint] in Hc; [ discriminate | ].
  apply Hk; [ congruence | exact E | exact Hc ].
Qed.

Lemma loop_seq_Done sch vl p n a s s' :
  loop sch vl p (seq a n) s = Done s' ->
  best_is_saved s ->
  (best_is_saved s'
   /\ ((n = 0%nat /\ s' = s)
       \/ (sch = true /\ (a <= epoch params s' < a + n)%nat)))
  /\ ((0 < n)%nat -> (epoch params s' + 1 < a + n)%nat ->
      vl = true /\ checkpoint params (disk params s') = None
      /\ exists b v, best_val_loss params s' = Some b
                     /\ scoring (model params s') = Ok v /\ ~ v < b).
Proof.
  revert a s. induction n as [ | n IH]; intros a s Hl Hs.
  - cbn in Hl. injection Hl as <-.
    split; [ split; [ exact Hs | now left ] | lia ].
  - cbn [seq training.loop] in Hl.
    destruct (one_epoch sch vl p a s) as [[s1 go] | e] eqn:He;
      cbn [andThen fst snd] in Hl; [ | discriminate ].
    destruct (one_epoch_Done _ _ _ _ _ _ _ He)
      as [Hsch [Hep [Hsaved [_ Hstop]]]].
    destruct go.
    + destruct (IH (S a) s1 Hl (Hsaved Hs)) as [[Hs' Hcase] Hearly].
      split; [ split; [ exact Hs' | right; split; [ exact Hsch | ] ] | ].
      * destruct Hcase as [[-> ->] | [_ Hr]]; lia.
      * intros _ Hlt.
        destruct Hcase as [[-> ->] | [_ Hr]]; [ lia | ].
        apply Hearly; lia.
    + injection Hl as <-.
      destruct (Hstop eq_refl) as [Hvl [Hck [_ [Hb [b [v [Hbest [Hv Hge]]]]]]]].
      split; [ split; [ now apply Hsaved | right; split; [ exact Hsch | lia ] ] | ].
      intros _ _. split; [ exact Hvl | ]. split; [ exact Hck | ].
      exists b, v. rewrite Hb. now split.
Qed.

Lemma loop_seq_finds_the_checkpoint sch vl p n a s :
  checkpoint_is_there a s ->
  loop sch vl p (seq a n) s <> Failed FileNotFoundError.
Proof.
  revert a s. induction n as [ | n IH]; intros a s Hk; [ discriminate | ].
  cbn [seq training.loop].
  destruct (one_epoch sch vl p a s) as [[s1 go] | e] eqn:He;
    cbn [andThen fst snd].
  - destruct (one_epoch_Done _ _ _ _ _ _ _ He) as [_ [_ [_ [Hnext _]]]].
    destruct go; [ | discriminate ].
    apply IH. now apply Hnext.
  - intro Hf. injection Hf as ->.
    now apply (one_epoch_file_missing _ _ _ _ _ He).
Qed.

Lemma one_epoch_patience_0_1 sch vl ep s :
  one_epoch sch vl 0 ep s = one_epoch sch vl 1 ep s.
Proof. reflexivity. Qed.

Lemma loop_patience_0_1 sch vl todo s :
  loop sch vl 0 todo s = loop sch vl 1 todo s.
Proof.
  revert s. induction todo as [ | ep rest IH]; intro s; [ reflexivity | ].
  cbn [training.loop]. rewrite one_epoch_patience_0_1.
  destruct (one_epoch sch vl 1 ep s) as [[s1 go] | e]; cbn [andThen fst snd];
    [ | reflexivity ].
  destruct go; [ apply IH | reflexivity ].
Qed.

(** Called without a scheduler, as the default [scheduler=None] has it,
    [train] never completes an epoch: with an epoch left to run it
    raises AttributeError at [scheduler.step()] as soon as the first
    pass over the training data is over, unless that pass raised. *)
Theorem train_needs_a_scheduler m d epochs patience epoch0 val_loader :
  (epoch0 < epochs)%nat ->
  train m d epochs patience epoch0 val_loader false
  = match fit epoch0 m with
    | Ok _ => Failed AttributeError
    | Raise e => Failed (Collaborator e)
    end.
Proof.
  intro Hlt. unfold training.train.
  destruct (epochs - epoch0)%nat as [ | n] eqn:En; [ lia | ].
  cbn [seq training.loop]. unfold training.one_epoch.
  cbn [model].
  destruct (fit epoch0 m) as [[m1 l_cpu] | e]; reflexivity.
Qed.

(** Called with [epoch >= epochs], [train] runs no epoch, writes no
    file and returns [epoch + 1]. *)
Theorem train_past_the_last_epoch m d epochs patience epoch0 val_loader sch :
  (epochs <= epoch0)%nat ->
  train m d epochs patience epoch0 val_loader sch
  = Done ((epoch0 + 1)%nat, m, d).
Proof.
  intro Hle. unfold training.train.
  replace (epochs - epoch0)%nat with 0%nat by lia.
  cbn [seq training.loop andThen]. unfold training.finish.
  cbn [epoch model disk].
  destruct (Nat.eqb_spec (epoch0 + 1) epochs) as [E | _]; [ lia | reflexivity ].
Qed.

(** When [train] returns with an epoch to run, a scheduler was given and
    the value returned lies in [epoch + 1 .. epochs]; it is below
    [epochs] only if a validation loader was given; and when it is
    [epochs], the file [save_name.pt] holds the model of the last epoch
    and the checkpoint file is gone. *)
Theorem train_return_value m d epochs patience epoch0 val_loader sch r m' d' :
  (epoch0 < epochs)%nat ->
  train m d epochs patience epoch0 val_loader sch = Done (r, m', d') ->
  sch = true /\ (epoch0 < r <= epochs)%nat
  /\ (r < epochs -> val_loader = true)%nat
  /\ (r = epochs ->
      saved params d' = Some m' /\ checkpoint params d' = None).
Proof.
  intros Hlt Ht. unfold training.train in Ht.
  destruct (loop sch val_loader patience (seq epoch0 (epochs - epoch0))
              (mkState params m d None 0 epoch0)) as [s' | e] eqn:Hl;
    cbn [andThen] in Ht; [ | discriminate ].
  unfold training.finish in Ht. injection Ht as <- <- <-.
  destruct (loop_seq_Done _ _ _ _ _ _ _ Hl) as [[_ Hcase] Hearly].
  { intros b Hb. discriminate Hb. }
  destruct Hcase as [[H0 _] | [Hsch Hr]]; [ lia | ].
  split; [ exact Hsch | ]. split; [ lia | ]. split.
  - intro Hr'. apply Hearly; lia.
  - intro Hr'. rewrite (proj2 (Nat.eqb_eq _ _) Hr'). now split.
Qed.

(** When [train] stops before the last epoch, the checkpoint file is
    gone and the file [save_name.pt] holds a model whose validation
    loss is the best one recorded: the model [train] ends with does not
    have a lower one. *)
Theorem early_stop_keeps_the_best_model
    m d epochs patience epoch0 val_loader sch r m' d' :
  train m d epochs patience epoch0 val_loader sch = Done (r, m', d') ->
  (epoch0 < epochs)%nat -> (r < epochs)%nat ->
  checkpoint params d' = None
  /\ exists mb b v,
       saved params d' = Some mb /\ scoring mb = Ok b
       /\ scoring m' = Ok v /\ ~ v < b.
Proof.
  intros Ht Hlt Hr. unfold training.train in Ht.
  destruct (loop sch val_loader patience (seq epoch0 (epochs - epoch0))
              (mkState params m d None 0 epoch0)) as [s' | e] eqn:Hl;
    cbn [andThen] in Ht; [ | discriminate ].
  unfold training.finish in Ht. injection Ht as <- <- <-.
  destruct (loop_seq_Done _ _ _ _ _ _ _ Hl) as [[Hs' Hcase] Hearly].
  { intros b Hb. discriminate Hb. }
  destruct (Nat.eqb_spec (epoch params s' + 1) epochs) as [E | _]; [ lia | ].
  destruct Hearly as [_ [Hck [b [v [Hb [Hv Hge]]]]]]; [ lia | lia | ].
  split; [ exact Hck | ].
  destruct (Hs' b Hb) as [mb [Hm Hsc]].
  exists mb, b, v. repeat split; assumption.
Qed.

(** Whatever files exist when [train] starts, its early stop always
    finds the checkpoint file it removes: [train] never raises
    FileNotFoundError. *)
Theorem train_finds_the_checkpoint m d epochs patience epoch0 val_loader sch :
  train m d epochs patience epoch0 val_loader sch <> Failed FileNotFoundError.
Proof.
  unfold training.train.
  destruct (loop sch val_loader patience (seq epoch0 (epochs - epoch0))
              (mkState params m d None 0 epoch0)) as [s' | e] eqn:Hl;
    cbn [andThen]; [ discriminate | ].
  intro Hf. injection Hf as ->. revert Hl.
  apply loop_seq_finds_the_checkpoint.
  intros Hb. now contradiction Hb.
Qed.

(** A patience of 0 stops training where a patience of 1 does: at the
    first epoch whose validation loss is not below the best one. *)
Theorem patience_0_is_patience_1 m d epochs epoch0 val_loader sch :
  train m d epochs 0 epoch0 val_loader sch
  = train m d epochs 1 epoch0 val_loader sch.
Proof. unfold training.train. now rewrite loop_patience_0_1. Qed.

End TrainingLoop.

Section TrainingRuns.

Import training.

Lemma train_needs_a_scheduler_witness :
  train nat Example.counting_fit (fun m => m) Example.constant_scoring
    0%nat Example.no_files 1 1 0 true false
  = match Example.counting_fit 0 0 with
    | Ok _ => Failed AttributeError
    | Raise e => Failed (Collaborator e)
    end.
Proof.
  apply (train_needs_a_scheduler nat Example.counting_fit (fun m => m)
           Example.constant_scoring 0%nat Example.no_files 1 1 0 true).
  lia.
Defined.

Lemma train_past_the_last_epoch_witness :
  train nat Example.counting_fit (fun m => m) Example.constant_scoring
    0%nat Example.no_files 3 1 3 true true
  = Done ((3 + 1)%nat, 0%nat, Example.no_files).
Proof.
  apply (train_past_the_last_epoch nat Example.counting_fit (fun m => m)
           Example.constant_scoring 0%nat Example.no_files 3 1 3 true true).
  lia.
Defined.

Lemma train_return_value_witness :
  true = true /\ (0 < 2 <= 2)%nat
  /\ ((2 < 2)%nat -> false = true)
  /\ (2%nat = 2%nat ->
      saved nat (mkFiles nat (Some 2%nat) None) = Some 2%nat
      /\ checkpoint nat (mkFiles nat (Some 2%nat) None) = None).
Proof.
  apply (train_return_value nat Example.counting_fit (fun m => m)
           Example.constant_scoring 0%nat Example.no_files 2 1 0 false true
           2%nat 2%nat (mkFiles nat (Some 2%nat) None)).
  - lia.
  - reflexivity.
Defined.

(** Two epochs of the counting model with validation and patience 1:
    the second epoch does not improve the loss, and training stops. *)
Lemma counting_run_stops_early :
  train nat Example.counting_fit (fun m => m) Example.constant_scoring
    0%nat Example.no_files 5 1 0 true true
  = Done (2%nat, 2%nat, mkFiles nat (Some 1%nat) None).
Proof.
  unfold train. cbn [Nat.sub seq loop].
  unfold one_epoch at 1.
  cbn [Example.counting_fit Example.constant_scoring call andThen model negb
       improves best_val_loss disk Example.no_files saved checkpoint
       Nat.modulo Nat.divmod Nat.eqb fst snd Nat.sub].
  unfold one_epoch at 1.
  cbn [Example.counting_fit Example.constant_scoring call andThen model negb
       improves best_val_loss disk Example.no_files saved checkpoint
       Nat.modulo Nat.divmod Nat.eqb fst snd Nat.sub patience_counter
       Nat.leb remove_checkpoint].
  destruct (Rlt_dec 1 1) as [Hlt | _]; [ lra | ].
  reflexivity.
Qed.

Lemma early_stop_keeps_the_best_model_witness :
  checkpoint nat (mkFiles nat (Some 1%nat) None) = None
  /\ exists mb b v,
       saved nat (mkFiles nat (Some 1%nat) None) = Some mb
       /\ Example.constant_scoring mb = Ok b
       /\ Example.constant_scoring 2%nat = Ok v /\ ~ v < b.
Proof.
  apply (early_stop_keeps_the_best_model nat Example.counting_fit (fun m => m)
           Example.constant_scoring 0%nat Example.no_files 5 1 0 true true
           2%nat 2%nat (mkFiles nat (Some 1%nat) None)).
  - exact counting_run_stops_early.
  - lia.
  - lia.
Defined.

End TrainingRuns.
